(** * ColdMailSaaS: sending capacity, campaign lifecycle and A/B experiments

    A shallow embedding of the decision logic of the API services

    - [campaigns.service.ts] with [entities/campaign.entity.ts] and
      [entities/contact-list.entity.ts],
    - [services/ab-testing.service.ts],
    - [mailboxes.service.ts] with [entities/mailbox.entity.ts],
    - [services/ip-pool.service.ts],
    - [rate-limiting.service.ts] with [entities/api-usage.entity.ts],

    followed by the properties established about them.

    Conventions.  A TypeORM repository is a finite map from primary key to
    row; a service method is a function from the repository to a result and
    the repository it leaves behind.  [new Date()] and [Math.random()] are
    explicit arguments.  Counters and timestamps (milliseconds) are integers
    [Z].  Where a decision of the code rests on the outcome of floating-point
    arithmetic -- the weights of an experiment, the usage and rates of an IP
    pool -- a number is a binary64 [float] with the operations of IEEE 754,
    and a literal such as [0.01] is the double nearest to it, as in the
    source.  The percentages and scores computed from integer counters are
    exact rationals [Q].  An optional property ([x?: T]) is an [option]. *)

From Stdlib Require Import ZArith QArith Qround Qabs Qminmax Lqa Lia Ascii String.
From Stdlib Require Import Floats.
From stdpp Require Import base option list gmap strings pretty.

Open Scope Z_scope.
Set Warnings "-inexact-float".

(** ** JavaScript numbers *)

Module Numbers.

(** [Math.min(a, b)]: [NaN] when either argument is, and [-0] below [+0]. *)
Definition Math_min (a b : float) : float :=
  if is_nan a || is_nan b then nan
  else if (a <? b)%float then a
  else if (b <? a)%float then b
  else if is_zero a && get_sign a then a
  else b.

(** The rational number a finite double is; 0 for the infinities and
    [NaN], which stand for no number. *)
Definition value (x : float) : Q :=
  match Prim2SF x with
  | S754_finite s m e =>
      ((if s then -1 else 1) * inject_Z (Zpos m) * Qpower 2 e)%Q
  | _ => 0%Q
  end.

End Numbers.

(** ** Exceptions and service computations *)

Inductive Exception : Type :=
| BadRequestException (message : string)
| NotFoundException (message : string)
| TypeError (message : string)
| RepositoryError (message : string).
(** [RepositoryError] stands for an error raised by the repository layer
    itself, as for a query that names a property the entity does not
    have. *)

Inductive Result (A : Type) : Type :=
| Ok (a : A)
| Throw (e : Exception).
Arguments Ok {A} a.
Arguments Throw {A} e.

Definition isOk {A} (r : Result A) : bool :=
  match r with Ok _ => true | Throw _ => false end.

(** A computation over a repository [R]: it returns or throws, and leaves a
    repository behind. *)
Definition Svc (R A : Type) : Type := R -> Result A * R.

Definition ret {R A} (a : A) : Svc R A := fun r => (Ok a, r).
Definition throw {R A} (e : Exception) : Svc R A := fun r => (Throw e, r).
Definition bind {R A B} (m : Svc R A) (k : A -> Svc R B) : Svc R B :=
  fun r =>
    match m r with
    | (Ok a, r') => k a r'
    | (Throw e, r') => (Throw e, r')
    end.

Notation "'let*' x ':=' m 'in' k" := (bind m (fun x => k))
  (at level 10, x name, m at level 100, k at level 200).

(** [repository.findOne({ where: { id } })] and [repository.save(row)]. *)
Definition findOne {V} (id : string) : Svc (gmap string V) (option V) :=
  fun r => (Ok (r !! id), r).
Definition save {V} (id : string) (v : V) : Svc (gmap string V) V :=
  fun r => (Ok v, <[id := v]> r).

(** JavaScript truthiness of an optional string: [undefined] and [''] are
    falsy. *)
Definition truthy (s : option string) : bool :=
  match s with
  | Some s => negb (String.eqb s "")
  | None => false
  end.

(** ** Campaigns: [entities/campaign.entity.ts], [campaigns.service.ts] *)

Module Campaigns.

Inductive CampaignStatus : Type :=
| DRAFT | SCHEDULED | ACTIVE | PAUSED | COMPLETED | CANCELLED | FAILED.

Global Instance CampaignStatus_eq_dec : EqDecision CampaignStatus.
Proof. solve_decision. Defined.

(** [config?]: every key may be missing once an [undefined] config has been
    spread. *)
Record CampaignConfig : Type := {
  subject : option string;
  fromName : option string;
  fromEmail : option string;
  replyTo : option string;
  htmlContent : option string;
  textContent : option string;
}.

Record TargetingFilter : Type := {
  field : string;
  operator : string;
  value : string;
}.

Record Targeting : Type := {
  contactListIds : list string;
  filters : option (list TargetingFilter);
  maxContacts : option Z;
}.

(** [progress?]: [totalContacts] and [processedContacts] are always written
    together; the outcome counters are missing when the object was built by
    spreading an [undefined] progress.  ([currentStep] and
    [estimatedCompletion] are never written by the service.) *)
Record Progress : Type := {
  totalContacts : Z;
  processedContacts : Z;
  sentEmails : option Z;
  failedEmails : option Z;
  bouncedEmails : option Z;
  unsubscribedEmails : option Z;
  repliedEmails : option Z;
  openedEmails : option Z;
  clickedEmails : option Z;
}.

(** [abTesting.variants[i].config], with the keys of [AbTestVariant.config]. *)
Record VariantConfig : Type := {
  v_subject : option string;
  v_htmlContent : option string;
  v_textContent : option string;
  v_fromName : option string;
  v_fromEmail : option string;
  v_sendTime : option string;
}.

Record Performance : Type := {
  sent : Z;
  opened : Z;
  clicked : Z;
  replied : Z;
  unsubscribed : Z;
  bounced : Z;
}.

Record Variant : Type := {
  id : string;
  name : string;
  weight : float;
  config : VariantConfig;
  performance : option Performance;
}.

Record AbTesting : Type := {
  enabled : bool;
  testType : string;
  variants : list Variant;
  testSize : Z;
  testDuration : Z;
  winnerCriteria : string;
  winnerSelected : option string;
}.

(** The columns of [Campaign] the services below read or write.  The
    primary key is the key of the repository map.  [sequence],
    [sendingConfig], [limits], [settings] and [metrics] are payload no
    method below inspects and are left out. *)
Record Campaign : Type := {
  c_name : string;
  c_description : option string;
  status : CampaignStatus;
  organizationId : string;
  c_config : option CampaignConfig;
  targeting : option Targeting;
  scheduledAt : option Z;
  startedAt : option Z;
  completedAt : option Z;
  abTesting : option AbTesting;
  progress : option Progress;
}.

Definition set_status (s : CampaignStatus) (c : Campaign) : Campaign :=
  {| c_name := c_name c; c_description := c_description c; status := s;
     organizationId := organizationId c; c_config := c_config c;
     targeting := targeting c; scheduledAt := scheduledAt c;
     startedAt := startedAt c; completedAt := completedAt c;
     abTesting := abTesting c; progress := progress c |}.

Definition set_startedAt (t : option Z) (c : Campaign) : Campaign :=
  {| c_name := c_name c; c_description := c_description c; status := status c;
     organizationId := organizationId c; c_config := c_config c;
     targeting := targeting c; scheduledAt := scheduledAt c;
     startedAt := t; completedAt := completedAt c;
     abTesting := abTesting c; progress := progress c |}.

Definition set_progress (p : option Progress) (c : Campaign) : Campaign :=
  {| c_name := c_name c; c_description := c_description c; status := status c;
     organizationId := organizationId c; c_config := c_config c;
     targeting := targeting c; scheduledAt := scheduledAt c;
     startedAt := startedAt c; completedAt := completedAt c;
     abTesting := abTesting c; progress := p |}.

Definition set_config (g : option CampaignConfig) (c : Campaign) : Campaign :=
  {| c_name := c_name c; c_description := c_description c; status := status c;
     organizationId := organizationId c; c_config := g;
     targeting := targeting c; scheduledAt := scheduledAt c;
     startedAt := startedAt c; completedAt := completedAt c;
     abTesting := abTesting c; progress := progress c |}.

Definition set_abTesting (a : option AbTesting) (c : Campaign) : Campaign :=
  {| c_name := c_name c; c_description := c_description c; status := status c;
     organizationId := organizationId c; c_config := c_config c;
     targeting := targeting c; scheduledAt := scheduledAt c;
     startedAt := startedAt c; completedAt := completedAt c;
     abTesting := a; progress := progress c |}.

(** *** Computed properties of the entity *)

Definition canStart (c : Campaign) : bool :=
  bool_decide (status c = DRAFT) || bool_decide (status c = SCHEDULED).

Definition canPause (c : Campaign) : bool := bool_decide (status c = ACTIVE).

Definition canResume (c : Campaign) : bool := bool_decide (status c = PAUSED).

Definition canCancel (c : Campaign) : bool :=
  bool_decide (status c ∈ [DRAFT; SCHEDULED; ACTIVE; PAUSED]).

(** *** [entities/contact-list.entity.ts] *)

Record ContactListStats : Type := {
  s_totalContacts : Z;
  s_activeContacts : Z;
}.

Record ContactList : Type := {
  l_isActive : bool;
  stats : option ContactListStats;
}.

(** [get totalContacts() { return this.stats?.totalContacts || 0; }] *)
Definition l_totalContacts (l : ContactList) : Z :=
  match stats l with
  | Some s => s_totalContacts s
  | None => 0
  end.

(** *** [campaigns.service.ts] *)

Record UpdateCampaignDto : Type := {
  u_name : option string;
  u_description : option string;
  u_config : option CampaignConfig;
  u_targeting : option Targeting;
  u_scheduledAt : option Z;
}.

(** [Object.assign(campaign, updateCampaignDto)]: the keys present in the
    request overwrite the campaign's. *)
Definition assign (c : Campaign) (d : UpdateCampaignDto) : Campaign :=
  {| c_name := default (c_name c) (u_name d);
     c_description :=
       match u_description d with Some x => Some x | None => c_description c end;
     status := status c;
     organizationId := organizationId c;
     c_config := match u_config d with Some x => Some x | None => c_config c end;
     targeting :=
       match u_targeting d with Some x => Some x | None => targeting c end;
     scheduledAt :=
       match u_scheduledAt d with Some x => Some x | None => scheduledAt c end;
     startedAt := startedAt c; completedAt := completedAt c;
     abTesting := abTesting c; progress := progress c |}.

Abbreviation Repo := (gmap string Campaign).

Definition findById (cid orgId : string) : Svc Repo Campaign :=
  let* found := findOne cid in
  match found with
  | Some c =>
      if bool_decide (organizationId c = orgId) then ret c
      else throw (NotFoundException "Campaign not found")
  | None => throw (NotFoundException "Campaign not found")
  end.

Definition updateCampaign (cid : string) (dto : UpdateCampaignDto)
    (orgId : string) : Svc Repo Campaign :=
  let* campaign := findById cid orgId in
  if bool_decide (status campaign = ACTIVE) then
    throw (BadRequestException "Cannot update active campaign")
  else if bool_decide (status campaign = COMPLETED) then
    throw (BadRequestException "Cannot update completed campaign")
  else
    let campaign := assign campaign dto in
    let campaign :=
      match u_scheduledAt dto with
      | Some _ => set_status SCHEDULED campaign
      | None => campaign
      end in
    save cid campaign.

(** [calculateTotalContacts].  [Math.floor(totalContacts * 0.8)] is the
    integer quotient of [4 * totalContacts] by [5] (the double product rounds
    to the same integer part for every count below 2^50).  A missing contact
    list adds nothing; a cap of [0] is falsy and does not apply. *)
Definition calculateTotalContacts (lists : gmap string ContactList)
    (c : Campaign) : Z :=
  match targeting c with
  | None => 0
  | Some t =>
      let total :=
        fold_left
          (fun acc listId =>
             match lists !! listId with
             | Some contactList => acc + l_totalContacts contactList
             | None => acc
             end)
          (contactListIds t) 0 in
      let total :=
        match filters t with
        | Some (_ :: _) => (total * 4) `div` 5
        | _ => total
        end in
      match maxContacts t with
      | Some m => if negb (m =? 0) && (m <? total) then m else total
      | None => total
      end
  end.

(** [{ ...campaign.progress, totalContacts, processedContacts: 0 }] *)
Definition snapshot (old : option Progress) (total : Z) : Progress :=
  {| totalContacts := total;
     processedContacts := 0;
     sentEmails := old ≫= sentEmails;
     failedEmails := old ≫= failedEmails;
     bouncedEmails := old ≫= bouncedEmails;
     unsubscribedEmails := old ≫= unsubscribedEmails;
     repliedEmails := old ≫= repliedEmails;
     openedEmails := old ≫= openedEmails;
     clickedEmails := old ≫= clickedEmails |}.

Definition startCampaign (now : Z) (lists : gmap string ContactList)
    (cid orgId : string) : Svc Repo Campaign :=
  let* campaign := findById cid orgId in
  if negb (canStart campaign) then
    throw (BadRequestException "Campaign cannot be started")
  else
    let total := calculateTotalContacts lists campaign in
    if total =? 0 then
      throw (BadRequestException "No contacts found for campaign")
    else
      save cid
        (set_progress (Some (snapshot (progress campaign) total))
           (set_startedAt (Some now) (set_status ACTIVE campaign))).

Definition pauseCampaign (cid orgId : string) : Svc Repo Campaign :=
  let* campaign := findById cid orgId in
  if negb (canPause campaign) then
    throw (BadRequestException "Campaign cannot be paused")
  else save cid (set_status PAUSED campaign).

Definition resumeCampaign (cid orgId : string) : Svc Repo Campaign :=
  let* campaign := findById cid orgId in
  if negb (canResume campaign) then
    throw (BadRequestException "Campaign cannot be resumed")
  else save cid (set_status ACTIVE campaign).

Definition cancelCampaign (cid orgId : string) : Svc Repo Campaign :=
  let* campaign := findById cid orgId in
  if negb (canCancel campaign) then
    throw (BadRequestException "Campaign cannot be cancelled")
  else save cid (set_status CANCELLED campaign).

End Campaigns.

(** ** A/B experiments: [services/ab-testing.service.ts] *)

Module AbTesting.
Import Campaigns.

Record VariantInput : Type := {
  i_name : string;
  i_weight : float;
  i_config : VariantConfig;
}.

Record TestConfig : Type := {
  t_testType : string;
  t_variants : list VariantInput;
  t_testSize : Z;
  t_testDuration : Z;
  t_winnerCriteria : string;
}.

(** [testConfig.variants.reduce((sum, v) => sum + v.weight, 0)] *)
Definition totalWeight (vs : list VariantInput) : float :=
  fold_left (fun sum v => (sum + i_weight v)%float) vs 0%float.

(** [testConfig.variants.map((v, index) => ({ id: `variant-${index + 1}`,
    name, weight, config }))]; a fresh variant has no [performance]. *)
Definition makeVariants (vs : list VariantInput) : list Variant :=
  imap
    (fun index v =>
       {| id := "variant-" +:+ pretty (index + 1)%nat;
          name := i_name v;
          weight := i_weight v;
          config := i_config v;
          performance := None |})
    vs.

Definition createAbTest (campaignId : string) (testConfig : TestConfig)
    : Svc Repo Campaign :=
  let* found := findOne campaignId in
  match found with
  | None => throw (NotFoundException "Campaign not found")
  | Some campaign =>
      if negb (bool_decide (status campaign = DRAFT)) then
        throw (BadRequestException
                 "A/B test can only be created for draft campaigns")
      else if (length (t_variants testConfig) <? 2)%nat then
        throw (BadRequestException "A/B test requires at least 2 variants")
      else if (5 <? length (t_variants testConfig))%nat then
        throw (BadRequestException
                 "A/B test cannot have more than 5 variants")
      else if (0.01 <? abs (totalWeight (t_variants testConfig) - 100))%float
      then throw (BadRequestException "Variant weights must sum to 100%")
      else
        save campaignId
          (set_abTesting
             (Some {| enabled := true;
                      testType := t_testType testConfig;
                      variants := makeVariants (t_variants testConfig);
                      testSize := t_testSize testConfig;
                      testDuration := t_testDuration testConfig;
                      winnerCriteria := t_winnerCriteria testConfig;
                      winnerSelected := None |})
             campaign)
  end.

(** [!campaign || !campaign.abTesting?.enabled] fails: the campaign exists
    and its experiment is enabled. *)
Definition enabledTest (found : option Campaign)
    : option (Campaign * AbTesting) :=
  match found with
  | Some campaign =>
      match abTesting campaign with
      | Some ab => if enabled ab then Some (campaign, ab) else None
      | None => None
      end
  | None => None
  end.

(** The loop of [assignVariantToContact]: [None] when it runs off the end
    of the array. *)
Fixpoint walk (random cumulativeWeight : float) (vs : list Variant)
    : option string :=
  match vs with
  | [] => None
  | variant :: rest =>
      let cumulativeWeight := (cumulativeWeight + weight variant)%float in
      if (random <=? cumulativeWeight)%float then Some (id variant)
      else walk random cumulativeWeight rest
  end.

(** [rnd] is the value of [Math.random()]. *)
Definition assignVariantToContact (rnd : float)
    (campaignId contactId : string) : Svc Repo string :=
  let* found := findOne campaignId in
  match enabledTest found with
  | None => throw (BadRequestException "A/B test not found or not enabled")
  | Some (campaign, ab) =>
      let random := (rnd * 100)%float in
      match walk random 0%float (variants ab) with
      | Some variantId => ret variantId
      | None =>
          match variants ab with
          | first :: _ => ret (id first)
          | [] => throw (TypeError "Cannot read properties of undefined")
          end
      end
  end.

Inductive TrackEvent : Type :=
| ev_sent | ev_opened | ev_clicked | ev_replied | ev_unsubscribed | ev_bounced.

Definition zeroPerformance : Performance :=
  {| sent := 0; opened := 0; clicked := 0; replied := 0;
     unsubscribed := 0; bounced := 0 |}.

Definition bump (event : TrackEvent) (p : Performance) : Performance :=
  match event with
  | ev_sent =>
      {| sent := sent p + 1; opened := opened p; clicked := clicked p;
         replied := replied p; unsubscribed := unsubscribed p;
         bounced := bounced p |}
  | ev_opened =>
      {| sent := sent p; opened := opened p + 1; clicked := clicked p;
         replied := replied p; unsubscribed := unsubscribed p;
         bounced := bounced p |}
  | ev_clicked =>
      {| sent := sent p; opened := opened p; clicked := clicked p + 1;
         replied := replied p; unsubscribed := unsubscribed p;
         bounced := bounced p |}
  | ev_replied =>
      {| sent := sent p; opened := opened p; clicked := clicked p;
         replied := replied p + 1; unsubscribed := unsubscribed p;
         bounced := bounced p |}
  | ev_unsubscribed =>
      {| sent := sent p; opened := opened p; clicked := clicked p;
         replied := replied p; unsubscribed := unsubscribed p + 1;
         bounced := bounced p |}
  | ev_bounced =>
      {| sent := sent p; opened := opened p; clicked := clicked p;
         replied := replied p; unsubscribed := unsubscribed p;
         bounced := bounced p + 1 |}
  end.

Definition set_performance (p : option Performance) (v : Variant) : Variant :=
  {| id := id v; name := name v; weight := weight v; config := config v;
     performance := p |}.

Definition set_variants (vs : list Variant) (ab : AbTesting) : AbTesting :=
  {| enabled := enabled ab; testType := testType ab; variants := vs;
     testSize := testSize ab; testDuration := testDuration ab;
     winnerCriteria := winnerCriteria ab;
     winnerSelected := winnerSelected ab |}.

Definition set_winnerSelected (w : option string) (ab : AbTesting)
    : AbTesting :=
  {| enabled := enabled ab; testType := testType ab; variants := variants ab;
     testSize := testSize ab; testDuration := testDuration ab;
     winnerCriteria := winnerCriteria ab; winnerSelected := w |}.

(** [variants.find(v => v.id === variantId)], with the position of the
    variant found: the object is mutated where it sits in the array. *)
Definition findVariant (variantId : string) (vs : list Variant)
    : option (nat * Variant) :=
  list_find (fun v => id v = variantId) vs.

(** The variant after one event: performance initialised when missing,
    then the event's counter incremented. *)
Definition track (event : TrackEvent) (v : Variant) : Variant :=
  set_performance
    (Some (bump event (default zeroPerformance (performance v)))) v.

Definition trackVariantPerformance (campaignId variantId emailId : string)
    (event : TrackEvent) : Svc Repo unit :=
  let* found := findOne campaignId in
  match enabledTest found with
  | None => ret tt
  | Some (campaign, ab) =>
      match findVariant variantId (variants ab) with
      | None => ret tt
      | Some (i, variant) =>
          let* _ :=
            save campaignId
              (set_abTesting
                 (Some (set_variants
                          (<[i := track event variant]> (variants ab)) ab))
                 campaign) in
          ret tt
      end
  end.

(** [Math.round(x * 100) / 100]; [Math.round] rounds half up. *)
Definition round2 (x : Q) : Q :=
  (inject_Z (Qfloor (x * 100 + 0.5)) / 100)%Q.

Record Metrics : Type := {
  openRate : Q;
  clickRate : Q;
  replyRate : Q;
  unsubscribeRate : Q;
  bounceRate : Q;
  overallScore : Q;
}.

(** [performance.sent > 0 ? (count / performance.sent) * 100 : 0] *)
Definition rate (count sent : Z) : Q :=
  if 0 <? sent then (inject_Z count / inject_Z sent * 100)%Q else 0%Q.

Definition calculateVariantMetrics (p : Performance) : Metrics :=
  let openRate := rate (opened p) (sent p) in
  let clickRate := rate (clicked p) (sent p) in
  let replyRate := rate (replied p) (sent p) in
  let unsubscribeRate := rate (unsubscribed p) (sent p) in
  let bounceRate := rate (bounced p) (sent p) in
  {| openRate := round2 openRate;
     clickRate := round2 clickRate;
     replyRate := round2 replyRate;
     unsubscribeRate := round2 unsubscribeRate;
     bounceRate := round2 bounceRate;
     overallScore := 0 |}.

Definition calculateOverallScore (metrics : Metrics) (winnerCriteria : string)
    : Q :=
  let score :=
    (if String.eqb winnerCriteria "open_rate" then
       openRate metrics * 0.4 + clickRate metrics * 0.3
       + replyRate metrics * 0.3
     else if String.eqb winnerCriteria "click_rate" then
       clickRate metrics * 0.5 + openRate metrics * 0.3
       + replyRate metrics * 0.2
     else if String.eqb winnerCriteria "reply_rate" then
       replyRate metrics * 0.6 + clickRate metrics * 0.3
       + openRate metrics * 0.1
     else if String.eqb winnerCriteria "conversion_rate" then
       replyRate metrics * 0.5 + clickRate metrics * 0.3
       + openRate metrics * 0.2
     else
       openRate metrics * 0.3 + clickRate metrics * 0.3
       + replyRate metrics * 0.4)%Q in
  let score := (score - unsubscribeRate metrics * 0.5)%Q in
  let score := (score - bounceRate metrics * 0.3)%Q in
  Qmax 0 (round2 score).

Definition calculateConfidence (p : Performance) : Q :=
  let sampleSize := sent p in
  if sampleSize <? 10 then 0.3%Q
  else if sampleSize <? 50 then 0.6%Q
  else if sampleSize <? 100 then 0.8%Q
  else if sampleSize <? 500 then 0.9%Q
  else 0.95%Q.

Record AbTestResult : Type := {
  r_testId : string;
  r_variantId : string;
  r_variantName : string;
  r_metrics : Metrics;
  r_isWinner : bool;
  r_confidence : Q;
  r_sampleSize : Z;
}.

Definition set_isWinner (b : bool) (r : AbTestResult) : AbTestResult :=
  {| r_testId := r_testId r; r_variantId := r_variantId r;
     r_variantName := r_variantName r; r_metrics := r_metrics r;
     r_isWinner := b; r_confidence := r_confidence r;
     r_sampleSize := r_sampleSize r |}.

(** [results.sort((a, b) => b.metrics.overallScore - a.metrics.overallScore)]:
    a stable sort, highest [overallScore] first. *)
Fixpoint insertByScore (r : AbTestResult) (sorted : list AbTestResult)
    : list AbTestResult :=
  match sorted with
  | [] => [r]
  | s :: rest =>
      if Qle_bool (overallScore (r_metrics s)) (overallScore (r_metrics r))
         && negb (Qeq_bool (overallScore (r_metrics s))
                           (overallScore (r_metrics r)))
      then r :: s :: rest
      else s :: insertByScore r rest
  end.

Definition sortByScore (rs : list AbTestResult) : list AbTestResult :=
  fold_left (fun sorted r => insertByScore r sorted) rs [].

(** The loop of [analyzeAbTestResults]: variants without sends are skipped;
    the score is computed into a local constant and the [metrics] object
    pushed is the one [calculateVariantMetrics] returned. *)
Definition collectResults (ab : AbTesting) : list AbTestResult :=
  omap
    (fun variant =>
       match performance variant with
       | None => None
       | Some p =>
           if sent p =? 0 then None
           else
             let metrics := calculateVariantMetrics p in
             let overallScore :=
               calculateOverallScore metrics (winnerCriteria ab) in
             Some {| r_testId := testType ab;
                     r_variantId := id variant;
                     r_variantName := name variant;
                     r_metrics := metrics;
                     r_isWinner := false;
                     r_confidence := calculateConfidence p;
                     r_sampleSize := sent p |}
       end)
    (variants ab).

Definition analyzeAbTestResults (campaignId : string)
    : Svc Repo (list AbTestResult) :=
  let* found := findOne campaignId in
  match enabledTest found with
  | None => throw (BadRequestException "A/B test not found or not enabled")
  | Some (campaign, ab) =>
      match sortByScore (collectResults ab) with
      | [] => ret []
      | top :: rest => ret (set_isWinner true top :: rest)
      end
  end.

(** [{ ...campaign.config, key: value }] *)
Definition spreadConfig (g : option CampaignConfig) : CampaignConfig :=
  default {| subject := None; fromName := None; fromEmail := None;
             replyTo := None; htmlContent := None; textContent := None |} g.

Definition applyWinner (vc : VariantConfig) (g : option CampaignConfig)
    : option CampaignConfig :=
  let g :=
    if truthy (v_subject vc) then
      let o := spreadConfig g in
      Some {| subject := v_subject vc; fromName := fromName o;
              fromEmail := fromEmail o; replyTo := replyTo o;
              htmlContent := htmlContent o; textContent := textContent o |}
    else g in
  let g :=
    if truthy (v_htmlContent vc) then
      let o := spreadConfig g in
      Some {| subject := subject o; fromName := fromName o;
              fromEmail := fromEmail o; replyTo := replyTo o;
              htmlContent := v_htmlContent vc; textContent := textContent o |}
    else g in
  let g :=
    if truthy (v_textContent vc) then
      let o := spreadConfig g in
      Some {| subject := subject o; fromName := fromName o;
              fromEmail := fromEmail o; replyTo := replyTo o;
              htmlContent := htmlContent o; textContent := v_textContent vc |}
    else g in
  let g :=
    if truthy (v_fromName vc) then
      let o := spreadConfig g in
      Some {| subject := subject o; fromName := v_fromName vc;
              fromEmail := fromEmail o; replyTo := replyTo o;
              htmlContent := htmlContent o; textContent := textContent o |}
    else g in
  if truthy (v_fromEmail vc) then
    let o := spreadConfig g in
    Some {| subject := subject o; fromName := fromName o;
            fromEmail := v_fromEmail vc; replyTo := replyTo o;
            htmlContent := htmlContent o; textContent := textContent o |}
  else g.

Definition selectWinner (campaignId variantId : string) : Svc Repo Campaign :=
  let* found := findOne campaignId in
  match enabledTest found with
  | None => throw (BadRequestException "A/B test not found or not enabled")
  | Some (campaign, ab) =>
      match findVariant variantId (variants ab) with
      | None => throw (NotFoundException "Variant not found")
      | Some (_, variant) =>
          save campaignId
            (set_config (applyWinner (config variant) (c_config campaign))
               (set_abTesting
                  (Some (set_winnerSelected (Some variantId) ab)) campaign))
      end
  end.

(** [v.performance?.sent || 0] and its siblings. *)
Definition perf (v : Variant) : Performance :=
  default zeroPerformance (performance v).

Definition total (counter : Performance -> Z) (vs : list Variant) : Z :=
  fold_left (fun sum v => sum + counter (perf v)) vs 0.

Record AbTestStatus : Type := {
  st_enabled : bool;
  st_variants : list Variant;
  st_testSize : Z;
  st_winnerSelected : option string;
  st_totalSent : Z;
  st_totalOpened : Z;
  st_totalClicked : Z;
  st_totalReplied : Z;
  st_isComplete : bool;
  st_canSelectWinner : bool;
}.

(** [getAbTestStatus]; [None] stands for the bare [{ enabled: false }]. *)
Definition getAbTestStatus (campaignId : string)
    : Svc Repo (option AbTestStatus) :=
  let* found := findOne campaignId in
  match enabledTest found with
  | None => ret None
  | Some (campaign, ab) =>
      let totalSent := total sent (variants ab) in
      let isComplete := testSize ab <=? totalSent in
      let canSelectWinner :=
        isComplete && negb (truthy (winnerSelected ab)) in
      ret (Some {| st_enabled := true;
                   st_variants := variants ab;
                   st_testSize := testSize ab;
                   st_winnerSelected := winnerSelected ab;
                   st_totalSent := totalSent;
                   st_totalOpened := total opened (variants ab);
                   st_totalClicked := total clicked (variants ab);
                   st_totalReplied := total replied (variants ab);
                   st_isComplete := isComplete;
                   st_canSelectWinner := canSelectWinner |})
  end.

End AbTesting.

(** ** Mailboxes: [entities/mailbox.entity.ts], [mailboxes.service.ts] *)

Module Mailboxes.

Inductive MailboxStatus : Type :=
| PENDING | ACTIVE | SUSPENDED | FAILED | WARMING_UP.

Global Instance MailboxStatus_eq_dec : EqDecision MailboxStatus.
Proof. solve_decision. Defined.

Record SendingConfig : Type := {
  maxEmailsPerDay : Z;
  maxEmailsPerHour : Z;
  maxEmailsPerMinute : Z;
  warmupEnabled : bool;
  warmupRate : Z;
  warmupIncrement : Z;
  currentWarmupRate : Z;
  lastWarmupUpdate : Z;
  timezone : string;
  businessHoursOnly : bool;
  businessHoursStart : string;
  businessHoursEnd : string;
  businessDays : list Z;
}.

(** The columns the getters and [warmupMailbox] read or write; the primary
    key is the key of the repository map. *)
Record Mailbox : Type := {
  email : string;
  status : MailboxStatus;
  organizationId : string;
  sendingConfig : option SendingConfig;
  isActive : bool;
}.

(** What [new Date()] shows through [getHours()], [getMinutes()] and
    [getDay()]: the wall clock of the server process. *)
Record LocalDate : Type := {
  getHours : Z;
  getMinutes : Z;
  getDay : Z;
}.

Definition isReady (m : Mailbox) : bool :=
  isActive m && bool_decide (status m = ACTIVE).

Definition isWarmingUp (m : Mailbox) : bool :=
  bool_decide (status m = WARMING_UP).

Definition currentDailyLimit (m : Mailbox) : Z :=
  match sendingConfig m with
  | None => 0
  | Some cfg =>
      if warmupEnabled cfg then currentWarmupRate cfg
      else maxEmailsPerDay cfg
  end.

(** [s.split(':')] *)
Fixpoint split (s : string) : list string :=
  match s with
  | EmptyString => [EmptyString]
  | String c rest =>
      if Ascii.eqb c ":"%char then EmptyString :: split rest
      else
        match split rest with
        | piece :: pieces => String c piece :: pieces
        | [] => [String c EmptyString]
        end
  end.

Definition digit (c : Ascii.ascii) : option Z :=
  let n := Z.of_nat (Ascii.nat_of_ascii c) in
  if (48 <=? n) && (n <=? 57) then Some (n - 48) else None.

Fixpoint digits (s : string) (acc : Z) : option Z :=
  match s with
  | EmptyString => Some acc
  | String c rest =>
      match digit c with
      | Some d => digits rest (acc * 10 + d)
      | None => None
      end
  end.

(** [Number(s)] on the strings a time of day is written with: a run of
    decimal digits is its value and [''] is [0]; [None] is [NaN], the
    outcome for a string with any other character in it.  (The literal
    forms with a sign, a fraction, an exponent, a radix prefix or
    surrounding blanks do not occur in an ['HH:MM'] field.) *)
Definition Number (s : string) : option Z := digits s 0.

(** [t[0] * 60 + t[1]] for [t = s.split(':').map(Number)]; a missing
    second piece is [undefined] and the sum is [NaN]. *)
Definition minutesOf (s : string) : option Z :=
  match split s with
  | h :: m :: _ =>
      match Number h, Number m with
      | Some h, Some m => Some (h * 60 + m)
      | _, _ => None
      end
  | _ => None
  end.

Definition isInBusinessHours (m : Mailbox) (now : LocalDate) : bool :=
  match sendingConfig m with
  | None => true
  | Some cfg =>
      if negb (businessHoursOnly cfg) then true
      else
        let currentHour := getHours now in
        let currentMinute := getMinutes now in
        let currentDay := getDay now in
        if negb (bool_decide (currentDay ∈ businessDays cfg)) then false
        else
          let currentTime := currentHour * 60 + currentMinute in
          match minutesOf (businessHoursStart cfg),
                minutesOf (businessHoursEnd cfg) with
          | Some startMinutes, Some endMinutes =>
              (startMinutes <=? currentTime) && (currentTime <=? endMinutes)
          | _, _ => false
          end
  end.

Abbreviation Repo := (gmap string Mailbox).

(** [getAvailableMailboxes]: the query asks for the rows of the
    organization with status active and [isActive] set, ordered by
    [priority] and [createdAt].  [priority] is no column or property of
    [Mailbox] (it is a key inside the [settings] JSON), so the repository
    refuses the query before it reads a row. *)
Definition getAvailableMailboxes (orgId : string) : Svc Repo (list Mailbox) :=
  throw (RepositoryError "Property priority was not found in Mailbox").

Definition findById (mid : string) : Svc Repo Mailbox :=
  let* found := findOne mid in
  match found with
  | Some m => ret m
  | None => throw (NotFoundException "Mailbox not found")
  end.

(** [repository.update(id, partial)] *)
Definition update (mid : string) (f : Mailbox -> Mailbox) : Svc Repo unit :=
  fun r => (Ok tt, alter f mid r).

Definition warmed (newRate now : Z) (cfg : SendingConfig) : SendingConfig :=
  {| maxEmailsPerDay := maxEmailsPerDay cfg;
     maxEmailsPerHour := maxEmailsPerHour cfg;
     maxEmailsPerMinute := maxEmailsPerMinute cfg;
     warmupEnabled := warmupEnabled cfg;
     warmupRate := warmupRate cfg;
     warmupIncrement := warmupIncrement cfg;
     currentWarmupRate := newRate;
     lastWarmupUpdate := now;
     timezone := timezone cfg;
     businessHoursOnly := businessHoursOnly cfg;
     businessHoursStart := businessHoursStart cfg;
     businessHoursEnd := businessHoursEnd cfg;
     businessDays := businessDays cfg |}.

Definition warmupMailbox (now : Z) (mid : string) : Svc Repo Mailbox :=
  let* mailbox := findById mid in
  if negb (bool_decide (status mailbox = ACTIVE)) then
    throw (BadRequestException "Only active mailboxes can be warmed up")
  else
    match sendingConfig mailbox with
    | None => throw (BadRequestException "Warmup is not enabled for this mailbox")
    | Some cfg =>
        if negb (warmupEnabled cfg) then
          throw (BadRequestException "Warmup is not enabled for this mailbox")
        else
          let newRate :=
            Z.min (currentWarmupRate cfg + warmupIncrement cfg)
                  (maxEmailsPerDay cfg) in
          let* _ :=
            update mid
              (fun row =>
                 {| email := email row;
                    status := WARMING_UP;
                    organizationId := organizationId row;
                    sendingConfig := Some (warmed newRate now cfg);
                    isActive := isActive row |}) in
          findById mid
    end.

End Mailboxes.

(** ** IP pools: [services/ip-pool.service.ts] *)

Module IpPools.

Inductive IpStatus : Type := active | warming | suspended | blacklisted.

Global Instance IpStatus_eq_dec : EqDecision IpStatus.
Proof. solve_decision. Defined.

Record IpPool : Type := {
  id : string;
  ipAddress : string;
  organizationId : string;
  status : IpStatus;
  reputation : float;
  dailyLimit : float;
  currentUsage : float;
  warmupRate : float;
  lastUsed : Z;
  assignedAt : Z;
}.

(** The body of [if (ipPool) { ... }] in [updateIpUsage]. *)
Definition used (now : Z) (usage : float) (p : IpPool) : IpPool :=
  let currentUsage := (currentUsage p + usage)%float in
  if bool_decide (status p = warming)
     && (warmupRate p <=? currentUsage)%float
  then
    let warmupRate := Numbers.Math_min (warmupRate p * 1.2)%float (dailyLimit p) in
    {| id := id p; ipAddress := ipAddress p;
       organizationId := organizationId p;
       status :=
         if (dailyLimit p * 0.8 <=? warmupRate)%float then active
         else status p;
       reputation := reputation p; dailyLimit := dailyLimit p;
       currentUsage := currentUsage; warmupRate := warmupRate;
       lastUsed := now; assignedAt := assignedAt p |}
  else
    {| id := id p; ipAddress := ipAddress p;
       organizationId := organizationId p; status := status p;
       reputation := reputation p; dailyLimit := dailyLimit p;
       currentUsage := currentUsage; warmupRate := warmupRate p;
       lastUsed := now; assignedAt := assignedAt p |}.

(** [ipPools: Map<string, IpPool>], in insertion order. *)
Definition updateIpUsage (now : Z) (ip : string) (usage : float)
    (ipPools : list IpPool) : list IpPool :=
  match list_find (fun pool => ipAddress pool = ip) ipPools with
  | Some (i, ipPool) => <[i := used now usage ipPool]> ipPools
  | None => ipPools
  end.

End IpPools.

(** ** API rate limiting: [rate-limiting.service.ts] *)

Module RateLimiting.

(** A stored usage row: the columns the entity declares and the service
    writes.  The generated primary key is the row's position in the table;
    [metadata] is never written and stays null.  The entity declares no
    [count] column. *)
Record ApiUsage : Type := {
  userId : string;
  endpoint : string;
  timestamp : Z;
}.

(** The table in insertion order. *)
Abbreviation Table := (list ApiUsage).

(** What the property [count] of a usage object can hold. *)
Inductive Count : Type :=
| undefined
| notANumber
| number (n : Z).

(** A usage object in the service's hands: the columns of a row and the
    property [count], which no column backs. *)
Record Usage : Type := {
  row : ApiUsage;
  count : Count;
}.

(** The object [findOne] builds from a stored row: [count] is not among
    the columns it reads. *)
Definition loaded (u : ApiUsage) : Usage := {| row := u; count := undefined |}.

(** What [save] writes of an object: its columns. *)
Definition written (usage : Usage) : ApiUsage := row usage.

(** [count >= limit]: [undefined] converts to [NaN], and a comparison with
    [NaN] is false. *)
Definition atLeast (c : Count) (limit : Z) : bool :=
  match c with
  | number n => limit <=? n
  | undefined | notANumber => false
  end.

(** [count += 1] *)
Definition incremented (usage : Usage) : Usage :=
  {| row := row usage;
     count := match count usage with
              | number n => number (n + 1)
              | undefined | notANumber => notANumber
              end |}.

Definition matches (user ep : string) (windowStart : Z) (u : ApiUsage) : Prop :=
  userId u = user ∧ endpoint u = ep ∧ timestamp u = windowStart.

Global Instance matches_dec user ep ws u : Decision (matches user ep ws u).
Proof. unfold matches. apply _. Defined.

Definition checkRateLimit (now : Z) (user ep : string) (limit windowMs : Z)
    : Svc Table bool :=
  fun table =>
    let windowStart := now - windowMs in
    match list_find (matches user ep windowStart) table with
    | None =>
        (Ok true,
         table ++ [written {| row := {| userId := user; endpoint := ep;
                                        timestamp := now |};
                              count := number 1 |}])
    | Some (i, found) =>
        let usage := loaded found in
        if atLeast (count usage) limit then (Ok false, table)
        else (Ok true, <[i := written (incremented usage)]> table)
    end.

End RateLimiting.

(** ** Vocabulary of the statements and sample data *)

Module Lifecycle.
Import Campaigns.

(** The status-changing requests the service accepts for one campaign. *)
Inductive Request : Type :=
| ReqUpdate (dto : UpdateCampaignDto)
| ReqStart
| ReqPause
| ReqResume
| ReqCancel.

Definition handle (now : Z) (lists : gmap string ContactList) (r : Request)
    (cid orgId : string) : Svc Repo Campaign :=
  match r with
  | ReqUpdate dto => updateCampaign cid dto orgId
  | ReqStart => startCampaign now lists cid orgId
  | ReqPause => pauseCampaign cid orgId
  | ReqResume => resumeCampaign cid orgId
  | ReqCancel => cancelCampaign cid orgId
  end.

Definition terminal (s : CampaignStatus) : bool :=
  match s with
  | COMPLETED | CANCELLED | FAILED => true
  | _ => false
  end.

(** The rows of the lifecycle table for the four events the service guards
    with [canStart], [canPause], [canResume] and [canCancel]. *)
Definition inTable (from : CampaignStatus) (r : Request) : bool :=
  match r, from with
  | ReqStart, (DRAFT | SCHEDULED) => true
  | ReqPause, ACTIVE => true
  | ReqResume, PAUSED => true
  | ReqCancel, (DRAFT | SCHEDULED | ACTIVE | PAUSED) => true
  | _, _ => false
  end.

(** The status a request leads to when it is accepted. *)
Definition target (r : Request) : CampaignStatus :=
  match r with
  | ReqUpdate _ => SCHEDULED
  | ReqStart => ACTIVE
  | ReqPause => PAUSED
  | ReqResume => ACTIVE
  | ReqCancel => CANCELLED
  end.

Definition guarded (r : Request) : bool :=
  match r with
  | ReqUpdate _ => false
  | _ => true
  end.

(** The campaign [startCampaign] saves. *)
Definition started (now total : Z) (c : Campaign) : Campaign :=
  set_progress (Some (snapshot (progress c) total))
    (set_startedAt (Some now) (set_status ACTIVE c)).

Definition zeroProgress : Progress :=
  {| totalContacts := 0; processedContacts := 0; sentEmails := Some 0;
     failedEmails := Some 0; bouncedEmails := Some 0;
     unsubscribedEmails := Some 0; repliedEmails := Some 0;
     openedEmails := Some 0; clickedEmails := Some 0 |}.

Definition sampleCampaign (s : CampaignStatus) (t : option Targeting)
    : Campaign :=
  {| c_name := "Spring outreach"; c_description := None; status := s;
     organizationId := "org-1"; c_config := None; targeting := t;
     scheduledAt := None; startedAt := None; completedAt := None;
     abTesting := None; progress := Some zeroProgress |}.

Definition oneList : Targeting :=
  {| contactListIds := ["list-1"]; filters := None; maxContacts := None |}.

(** The same targeting with a negative cap, a number no validation of the
    service excludes. *)
Definition negativeCap : Targeting :=
  {| contactListIds := ["list-1"]; filters := None;
     maxContacts := Some (-5) |}.

Definition sampleLists : gmap string ContactList :=
  {[ "list-1" :=
       {| l_isActive := true;
          stats := Some {| s_totalContacts := 500;
                           s_activeContacts := 480 |} |} ]}.

Definition reschedule : UpdateCampaignDto :=
  {| u_name := None; u_description := None; u_config := None;
     u_targeting := None; u_scheduledAt := Some 1767225600000 |}.

End Lifecycle.

Module Experiments.
Import Campaigns AbTesting.

(** The counter an event names. *)
Definition counter (event : TrackEvent) (p : Performance) : Z :=
  match event with
  | ev_sent => sent p
  | ev_opened => opened p
  | ev_clicked => clicked p
  | ev_replied => replied p
  | ev_unsubscribed => unsubscribed p
  | ev_bounced => bounced p
  end.


(** The cumulative weight of the loop once the variant at position [i] is
    reached: the weights up to it added one after the other to the start
    value, in double arithmetic. *)
Definition cumulativeFrom (start : float) (vs : list Variant) (i : nat)
    : float :=
  fold_left (fun sum w => (sum + w)%float) (weight <$> take (S i) vs) start.

Definition cumulative (vs : list Variant) (i : nat) : float :=
  cumulativeFrom 0%float vs i.



Definition noConfig : VariantConfig :=
  {| v_subject := None; v_htmlContent := None; v_textContent := None;
     v_fromName := None; v_fromEmail := None; v_sendTime := None |}.

Definition opens (s o : Z) : Performance :=
  {| sent := s; opened := o; clicked := 0; replied := 0; unsubscribed := 0;
     bounced := 0 |}.

Definition variantA : Variant :=
  {| id := "variant-1"; name := "A"; weight := 60%float; config := noConfig;
     performance := Some (opens 100 40) |}.

Definition variantB : Variant :=
  {| id := "variant-2"; name := "B"; weight := 40%float;
     config := {| v_subject := Some "Quick question";
                  v_htmlContent := None; v_textContent := None;
                  v_fromName := None; v_fromEmail := None;
                  v_sendTime := None |};
     performance := Some (opens 80 48) |}.

Definition experiment (vs : list Variant) (size : Z) (w : option string)
    : AbTesting :=
  {| enabled := true; testType := "subject"; variants := vs;
     testSize := size; testDuration := 24; winnerCriteria := "open_rate";
     winnerSelected := w |}.

Definition withExperiment (ab : option AbTesting) : Campaign :=
  set_abTesting ab (Lifecycle.sampleCampaign ACTIVE (Some Lifecycle.oneList)).

(** Two fresh variants, nothing sent yet, and a winner already recorded. *)
Definition freshA : Variant := set_performance None variantA.
Definition freshB : Variant := set_performance None variantB.
Definition decided : Campaign :=
  withExperiment (Some (experiment [freshA; freshB] 100 (Some "variant-1"))).

Definition twoVariants : TestConfig :=
  {| t_testType := "subject";
     t_variants :=
       [ {| i_name := "A"; i_weight := 60%float; i_config := noConfig |};
         {| i_name := "B"; i_weight := 40%float; i_config := noConfig |} ];
     t_testSize := 100; t_testDuration := 24;
     t_winnerCriteria := "open_rate" |}.

End Experiments.


Module Setup.
Import Campaigns AbTesting Experiments.





End Setup.


Module Stores.
Import Campaigns.

(** A repository holding one campaign, under the key ["c-1"]. *)
Definition repoOf (c : Campaign) : gmap string Campaign := {[ "c-1" := c ]}.

End Stores.


Module Identities.
Import Mailboxes.

(** The specification's [eligible(identity, now)], read on the code: the
    identity is ready and the current time is within its business hours. *)
Definition eligible (m : Mailbox) (now : LocalDate) : bool :=
  isReady m && isInBusinessHours m now.

(** A time of day written ['HH:MM'], two digits each. *)
Definition pad2 (n : Z) : string :=
  String (ascii_of_nat (48 + Z.to_nat (n `div` 10)))
    (String (ascii_of_nat (48 + Z.to_nat (n `mod` 10))) EmptyString).

Definition hhmm (h m : Z) : string := pad2 h +:+ ":" +:+ pad2 m.

Definition set_timezone (tz : string) (cfg : SendingConfig) : SendingConfig :=
  {| maxEmailsPerDay := maxEmailsPerDay cfg;
     maxEmailsPerHour := maxEmailsPerHour cfg;
     maxEmailsPerMinute := maxEmailsPerMinute cfg;
     warmupEnabled := warmupEnabled cfg;
     warmupRate := warmupRate cfg;
     warmupIncrement := warmupIncrement cfg;
     currentWarmupRate := currentWarmupRate cfg;
     lastWarmupUpdate := lastWarmupUpdate cfg;
     timezone := tz;
     businessHoursOnly := businessHoursOnly cfg;
     businessHoursStart := businessHoursStart cfg;
     businessHoursEnd := businessHoursEnd cfg;
     businessDays := businessDays cfg |}.

Definition set_sendingConfig (cfg : option SendingConfig) (m : Mailbox)
    : Mailbox :=
  {| email := email m; status := status m;
     organizationId := organizationId m; sendingConfig := cfg;
     isActive := isActive m |}.

(** The sending configuration [createMailbox] gives a new mailbox, with
    the warmup and business-hours switches as stated. *)
Definition defaultConfig (warmup businessHours : bool) : SendingConfig :=
  {| maxEmailsPerDay := 1000; maxEmailsPerHour := 100;
     maxEmailsPerMinute := 10; warmupEnabled := warmup; warmupRate := 50;
     warmupIncrement := 10; currentWarmupRate := 50;
     lastWarmupUpdate := 0; timezone := "UTC";
     businessHoursOnly := businessHours; businessHoursStart := "09:00";
     businessHoursEnd := "17:00"; businessDays := [1; 2; 3; 4; 5] |}.

Definition sampleMailbox (s : MailboxStatus) (cfg : SendingConfig) : Mailbox :=
  {| email := "sales@example.com"; status := s; organizationId := "org-1";
     sendingConfig := Some cfg; isActive := true |}.

(** Wednesday, 10:30, on the server's clock. *)
Definition wednesdayMorning : LocalDate :=
  {| getHours := 10; getMinutes := 30; getDay := 3 |}.

Definition mailboxesOf (m : Mailbox) : gmap string Mailbox := {[ "mb-1" := m ]}.

End Identities.

Module Windows.
Import RateLimiting.

(** One call of a run: who, when, and over which window length. *)
Record Call : Type := {
  at_ : Z;
  user_ : string;
  endpoint_ : string;
  windowMs_ : Z;
}.

Definition check (limitOf : string -> string -> Z) (c : Call)
    : Svc Table bool :=
  checkRateLimit (at_ c) (user_ c) (endpoint_ c)
    (limitOf (user_ c) (endpoint_ c)) (windowMs_ c).

(** A finite run of calls, each with the ceiling [limitOf] gives its user
    and endpoint: the table it leaves behind, and the answers it gets. *)
Definition run (limitOf : string -> string -> Z) (calls : list Call)
    (table : Table) : Table :=
  fold_left (fun t c => (check limitOf c t).2) calls table.

Fixpoint answers (limitOf : string -> string -> Z) (calls : list Call)
    (table : Table) : list (Result bool) :=
  match calls with
  | [] => []
  | c :: calls =>
      (check limitOf c table).1 :: answers limitOf calls (check limitOf c table).2
  end.

(** The row a call writes when it finds none. *)
Definition rowOf (c : Call) : ApiUsage :=
  {| userId := user_ c; endpoint := endpoint_ c; timestamp := at_ c |}.

Definition minuteMs : Z := 60000.

Definition noon : Z := 1767268800000.

(** Fifteen calls of one identity within fifteen seconds, each for the
    minute window. *)
Definition burst : list Call :=
  (fun k => {| at_ := noon + 1000 * Z.of_nat k; user_ := "mb-1";
               endpoint_ := "send"; windowMs_ := minuteMs |})
  <$> seq 0 15.

End Windows.


Module Running.
Import Campaigns AbTesting Experiments.

(** The experiment of A (100 sent, 40 opened) and B (80 sent, 48 opened),
    no winner selected. *)
Definition scenario : AbTesting := experiment [variantA; variantB] 100 None.

Definition running : Campaign := withExperiment (Some scenario).

End Running.


(** ** Further operations of the services *)

Module CampaignAdmin.
Import Campaigns.

(** [repository.remove(row)] *)
Definition remove {V} (id : string) : Svc (gmap string V) unit :=
  fun r => (Ok tt, delete id r).

Definition deleteCampaign (cid orgId : string) : Svc Repo unit :=
  let* campaign := findById cid orgId in
  if bool_decide (status campaign = ACTIVE) then
    throw (BadRequestException "Cannot delete active campaign")
  else remove cid.

Record CampaignStats : Type := {
  n_total : Z;
  n_draft : Z;
  n_scheduled : Z;
  n_active : Z;
  n_paused : Z;
  n_completed : Z;
  n_cancelled : Z;
  n_failed : Z;
}.

(** [stats[campaign.status]++] *)
Definition tally (stats : CampaignStats) (s : CampaignStatus) : CampaignStats :=
  match s with
  | DRAFT =>
      {| n_total := n_total stats; n_draft := n_draft stats + 1;
         n_scheduled := n_scheduled stats; n_active := n_active stats;
         n_paused := n_paused stats; n_completed := n_completed stats;
         n_cancelled := n_cancelled stats; n_failed := n_failed stats |}
  | SCHEDULED =>
      {| n_total := n_total stats; n_draft := n_draft stats;
         n_scheduled := n_scheduled stats + 1; n_active := n_active stats;
         n_paused := n_paused stats; n_completed := n_completed stats;
         n_cancelled := n_cancelled stats; n_failed := n_failed stats |}
  | ACTIVE =>
      {| n_total := n_total stats; n_draft := n_draft stats;
         n_scheduled := n_scheduled stats; n_active := n_active stats + 1;
         n_paused := n_paused stats; n_completed := n_completed stats;
         n_cancelled := n_cancelled stats; n_failed := n_failed stats |}
  | PAUSED =>
      {| n_total := n_total stats; n_draft := n_draft stats;
         n_scheduled := n_scheduled stats; n_active := n_active stats;
         n_paused := n_paused stats + 1; n_completed := n_completed stats;
         n_cancelled := n_cancelled stats; n_failed := n_failed stats |}
  | COMPLETED =>
      {| n_total := n_total stats; n_draft := n_draft stats;
         n_scheduled := n_scheduled stats; n_active := n_active stats;
         n_paused := n_paused stats; n_completed := n_completed stats + 1;
         n_cancelled := n_cancelled stats; n_failed := n_failed stats |}
  | CANCELLED =>
      {| n_total := n_total stats; n_draft := n_draft stats;
         n_scheduled := n_scheduled stats; n_active := n_active stats;
         n_paused := n_paused stats; n_completed := n_completed stats;
         n_cancelled := n_cancelled stats + 1; n_failed := n_failed stats |}
  | FAILED =>
      {| n_total := n_total stats; n_draft := n_draft stats;
         n_scheduled := n_scheduled stats; n_active := n_active stats;
         n_paused := n_paused stats; n_completed := n_completed stats;
         n_cancelled := n_cancelled stats; n_failed := n_failed stats + 1 |}
  end.

(** [repository.find({ where: { organizationId }, select: ['status'] })]:
    the statuses of the organization's campaigns. *)
Definition statusesOf (orgId : string) (repo : Repo) : list CampaignStatus :=
  status <$> filter (fun c => organizationId c = orgId) (map_to_list repo).*2.

Definition getCampaignStats (orgId : string) (repo : Repo) : CampaignStats :=
  let campaigns := statusesOf orgId repo in
  fold_left tally campaigns
    {| n_total := Z.of_nat (length campaigns); n_draft := 0; n_scheduled := 0;
       n_active := 0; n_paused := 0; n_completed := 0; n_cancelled := 0;
       n_failed := 0 |}.

(** [get progressPercentage()] *)
Definition progressPercentage (c : Campaign) : Q :=
  match progress c with
  | None => 0%Q
  | Some p =>
      if totalContacts p =? 0 then 0%Q
      else (inject_Z (processedContacts p) / inject_Z (totalContacts p) * 100)%Q
  end.

(** [get estimatedTimeRemaining()].  Of the [sendingConfig] column the getter
    reads [maxEmailsPerHour] alone; [perHour] is that column, [None] when
    the campaign has no sending configuration.  [None] is the [null] the
    getter returns. *)
Definition estimatedTimeRemaining (c : Campaign) (perHour : option Z)
    : option Z :=
  match progress c, perHour with
  | Some p, Some emailsPerHour =>
      let remainingContacts := totalContacts p - processedContacts p in
      if emailsPerHour =? 0 then None
      else Some (Qceiling (inject_Z remainingContacts / inject_Z emailsPerHour))
  | _, _ => None
  end.

End CampaignAdmin.

Module Sequences.
Import Campaigns Lifecycle.

(** The repository after a sequence of requests for one campaign, each
    answered in turn. *)
Definition after (now : Z) (lists : gmap string ContactList)
    (requests : list Request) (cid orgId : string) (repo : gmap string Campaign)
    : gmap string Campaign :=
  fold_left (fun r request => (handle now lists request cid orgId r).2)
    requests repo.

(** The sum of the totals of the contact lists a campaign targets. *)
Definition listed (lists : gmap string ContactList) (t : Targeting) : Z :=
  foldr (fun listId sum => sum + from_option l_totalContacts 0 (lists !! listId))
    0 (contactListIds t).

End Sequences.


Module Counting.

(** How many entries of a list equal [x]. *)
Definition occurrences `{EqDecision A} (x : A) (l : list A) : Z :=
  Z.of_nat (length (filter (fun y => y = x) l)).

End Counting.


Module Samples.
Import Campaigns Lifecycle.

(** One list of 500 contacts, a filter, and a cap of 300. *)
Definition cappedList : Targeting :=
  {| contactListIds := ["list-1"];
     filters := Some [ {| field := "country"; operator := "equals";
                          value := "NL" |} ];
     maxContacts := Some 300 |}.

(** A campaign a quarter of the way through 500 contacts. *)
Definition quarterDone : Campaign :=
  set_progress
    (Some {| totalContacts := 500; processedContacts := 125;
             sentEmails := Some 120; failedEmails := Some 5;
             bouncedEmails := Some 0; unsubscribedEmails := Some 0;
             repliedEmails := Some 0; openedEmails := Some 0;
             clickedEmails := Some 0 |})
    (sampleCampaign ACTIVE (Some oneList)).

End Samples.


Module Outcomes.
Import Campaigns AbTesting.

(** A variant [analyzeAbTestResults] reports on: it has a performance
    object with at least one send. *)
Definition hasSends (v : Variant) : bool :=
  match performance v with
  | Some p => negb (sent p =? 0)
  | None => false
  end.

(** What one tracked event adds to the total of a counter. *)
Definition share (event counted : TrackEvent) : Z :=
  match event, counted with
  | ev_sent, ev_sent | ev_opened, ev_opened | ev_clicked, ev_clicked
  | ev_replied, ev_replied | ev_unsubscribed, ev_unsubscribed
  | ev_bounced, ev_bounced => 1
  | _, _ => 0
  end.

(** A key of the campaign's configuration, [None] when the configuration or
    the key is missing. *)
Definition key (k : CampaignConfig -> option string)
    (g : option CampaignConfig) : option string := g ≫= k.

(** The value a key holds after [selectWinner]: the variant's when that is
    truthy, the campaign's own otherwise. *)
Definition promoted (fromVariant : option string) (own : option string)
    : option string :=
  if truthy fromVariant then fromVariant else own.

End Outcomes.


(** ** Mailbox administration: [updateMailboxStatus], [getMailboxStats],
    [findByOrganization] of [mailboxes.service.ts] *)

Module MailboxAdmin.
Import Mailboxes.

(** The two columns [updateMailboxStatus] writes beside [status].  A
    mailbox without an entry has both [null]. *)
Record Suspension : Type := {
  suspendedAt : option Z;
  suspensionReason : option string;
}.

Definition noSuspension : Suspension :=
  {| suspendedAt := None; suspensionReason := None |}.

(** The mailbox table: the columns of [Mailbox] and, row by row, the
    suspension columns. *)
Abbreviation Store := (Repo * gmap string Suspension)%type.

(** A service method that reads and writes the [Mailbox] columns only. *)
Definition onRows {A : Type} (m : Svc Repo A) : Svc Store A :=
  fun s => ((m s.1).1, ((m s.1).2, s.2)).

Definition suspensionOf (mid : string) (s : Store) : Suspension :=
  default noSuspension (s.2 !! mid).

Definition set_status (st : MailboxStatus) (m : Mailbox) : Mailbox :=
  {| email := email m; status := st; organizationId := organizationId m;
     sendingConfig := sendingConfig m; isActive := isActive m |}.

(** [updateData] applied to the suspension columns of an existing row.  A
    property of [updateData] that is [undefined] -- the reason of a
    suspension called without one -- is not part of the UPDATE, so that
    column keeps its value. *)
Definition updateSuspension (now : Z) (st : MailboxStatus)
    (reason : option string) (old : Suspension) : Suspension :=
  match st with
  | SUSPENDED =>
      {| suspendedAt := Some now;
         suspensionReason :=
           match reason with
           | Some r => Some r
           | None => suspensionReason old
           end |}
  | ACTIVE => {| suspendedAt := None; suspensionReason := None |}
  | _ => old
  end.

(** [repository.update(id, updateData)] on both groups of columns; like
    every UPDATE it touches an existing row only. *)
Definition updateColumns (now : Z) (mid : string) (st : MailboxStatus)
    (reason : option string) : Svc Store unit :=
  fun s =>
    (Ok tt,
     (alter (set_status st) mid s.1,
      match s.1 !! mid with
      | Some _ =>
          <[mid := updateSuspension now st reason (suspensionOf mid s)]> s.2
      | None => s.2
      end)).

Definition updateMailboxStatus (now : Z) (mid : string) (st : MailboxStatus)
    (reason : option string) : Svc Store Mailbox :=
  let* mailbox := onRows (findById mid) in
  let* _ := updateColumns now mid st reason in
  onRows (findById mid).

(** [findByOrganization]: the rows selected (their order,
    [createdAt DESC], is not represented). *)
Definition findByOrganization (orgId : string) (repo : Repo) : list Mailbox :=
  (map_to_list (filter (fun kv => organizationId kv.2 = orgId) repo)).*2.

Record MailboxStats : Type := {
  s_total : nat;
  s_active : nat;
  s_pending : nat;
  s_failed : nat;
  s_suspended : nat;
  s_warmingUp : nat;
}.

Definition withStatus (st : MailboxStatus) (mailboxes : list Mailbox) : nat :=
  length (filter (fun m => status m = st) mailboxes).

Definition getMailboxStats (orgId : string) (repo : Repo) : MailboxStats :=
  let mailboxes := findByOrganization orgId repo in
  {| s_total := length mailboxes;
     s_active := withStatus ACTIVE mailboxes;
     s_pending := withStatus PENDING mailboxes;
     s_failed := withStatus FAILED mailboxes;
     s_suspended := withStatus SUSPENDED mailboxes;
     s_warmingUp := withStatus WARMING_UP mailboxes |}.

(** [rotateMailboxUsage] *)
Definition rotateMailboxUsage (orgId : string) : Svc Repo (list Mailbox) :=
  let* availableMailboxes := getAvailableMailboxes orgId in
  ret availableMailboxes.


Definition activateMailbox (now : Z) (mid : string) : Svc Store Mailbox :=
  updateMailboxStatus now mid ACTIVE None.

End MailboxAdmin.

Module MailboxSamples.
Import Mailboxes Identities MailboxAdmin.

(** A table holding one mailbox with no suspension recorded. *)
Definition storeOf (m : Mailbox) : Store := (mailboxesOf m, ∅).

(** Business hours from 22:00 to 06:00. *)
Definition overnight : SendingConfig :=
  {| maxEmailsPerDay := 1000; maxEmailsPerHour := 100;
     maxEmailsPerMinute := 10; warmupEnabled := false; warmupRate := 50;
     warmupIncrement := 10; currentWarmupRate := 50;
     lastWarmupUpdate := 0; timezone := "UTC";
     businessHoursOnly := true; businessHoursStart := "22:00";
     businessHoursEnd := "06:00"; businessDays := [1; 2; 3; 4; 5] |}.

End MailboxSamples.


Module WarmupRounds.
Import Mailboxes MailboxAdmin.

(** One round of a warmup schedule: the warmup call, then the activation
    that makes the next warmup call possible. *)
Definition round (now : Z) (mid : string) : Svc Store Mailbox :=
  let* _ := onRows (warmupMailbox now mid) in
  activateMailbox now mid.

Fixpoint rounds (k : nat) (now : Z) (mid : string) : Svc Store unit :=
  match k with
  | O => ret tt
  | S k => let* _ := round now mid in rounds k now mid
  end.

End WarmupRounds.

(** ** IP pool administration: the other methods of [ip-pool.service.ts] *)

Module IpPoolAdmin.
Import IpPools.

(** A value of [ipPools] with its two optional properties. *)
Record Entry : Type := {
  pool : IpPool;
  suspendedAt : option Z;
  suspensionReason : option string;
}.

(** [ipPools: Map<string, IpPool>] in insertion order; the key of an entry
    is the [id] of its pool, as [assignIpToOrganization] sets it. *)
Abbreviation Pools := (list Entry).

(** [ipPools.set(entry.id, entry)]: an entry with the key is replaced
    where it stands, a new key goes to the end. *)
Definition mapSet (e : Entry) (pools : Pools) : Pools :=
  match list_find (fun x => id (pool x) = id (pool e)) pools with
  | Some (i, _) => <[i := e]> pools
  | None => pools ++ [e]
  end.

(** [ipPools.delete(key)] *)
Definition mapDelete (key : string) (pools : Pools) : Pools :=
  match list_find (fun x => id (pool x) = key) pools with
  | Some (i, _) => delete i pools
  | None => pools
  end.

(** [`192.168.${a}.${b}`] *)
Definition mockIp (a b : Z) : string :=
  "192.168." +:+ pretty a +:+ "." +:+ pretty b.

(** [findAvailableIp]: [draws] are the pairs
    [Math.floor(Math.random() * 255)] yields, one pair per turn of the
    loop; [None] when the loop is still running after all of them. *)
Fixpoint findAvailableIp (draws : list (Z * Z)) (pools : Pools)
    : option string :=
  match draws with
  | [] => None
  | (a, b) :: draws =>
      let ip := mockIp a b in
      if bool_decide (ip ∈ (fun x => ipAddress (pool x)) <$> pools)
      then findAvailableIp draws pools
      else Some ip
  end.

(** [assignIpToOrganization]; [now] is [Date.now()], also the value of the
    two [new Date()].  The address found is never the empty string, so the
    guard on it never throws. *)
Definition assignIpToOrganization (now : Z) (draws : list (Z * Z))
    (organizationId : string) (pools : Pools) : option (IpPool * Pools) :=
  match findAvailableIp draws pools with
  | None => None
  | Some availableIp =>
      let ipPool :=
        {| id := "ip_" +:+ pretty now; ipAddress := availableIp;
           organizationId := organizationId; status := warming;
           reputation := 0; dailyLimit := 1000; currentUsage := 0;
           warmupRate := 50; lastUsed := now; assignedAt := now |} in
      Some (ipPool,
            mapSet {| pool := ipPool; suspendedAt := None;
                      suspensionReason := None |} pools)
  end.

Definition getOrganizationIpPool (orgId : string) (pools : Pools)
    : option Entry :=
  snd <$> list_find (fun x => organizationId (pool x) = orgId) pools.

Definition releaseIpFromOrganization (orgId : string) (pools : Pools)
    : Pools :=
  match getOrganizationIpPool orgId pools with
  | Some ipPool => mapDelete (id (pool ipPool)) pools
  | None => pools
  end.

Definition rotateIps (orgId : string) (pools : Pools) : list Entry :=
  match getOrganizationIpPool orgId pools with
  | None => []
  | Some currentPool => [currentPool]
  end.

Definition set_status (s : IpStatus) (p : IpPool) : IpPool :=
  {| id := id p; ipAddress := ipAddress p;
     organizationId := organizationId p; status := s;
     reputation := reputation p; dailyLimit := dailyLimit p;
     currentUsage := currentUsage p; warmupRate := warmupRate p;
     lastUsed := lastUsed p; assignedAt := assignedAt p |}.

Definition suspendIp (now : Z) (ip reason : string) (pools : Pools) : Pools :=
  match list_find (fun x => ipAddress (pool x) = ip) pools with
  | Some (i, ipPool) =>
      <[i := {| pool := set_status suspended (pool ipPool);
                suspendedAt := Some now;
                suspensionReason := Some reason |}]> pools
  | None => pools
  end.

Definition activateIp (ip : string) (pools : Pools) : Pools :=
  match list_find (fun x => ipAddress (pool x) = ip) pools with
  | Some (i, ipPool) =>
      if bool_decide (status (pool ipPool) = suspended) then
        <[i := {| pool := set_status active (pool ipPool);
                  suspendedAt := None; suspensionReason := None |}]> pools
      else pools
  | None => pools
  end.

Record PoolStats : Type := {
  p_total : nat;
  p_active : nat;
  p_warming : nat;
  p_suspended : nat;
  p_blacklisted : nat;
}.

Definition inStatus (s : IpStatus) (pools : Pools) : nat :=
  length (filter (fun p => status (pool p) = s) pools).

Definition getPoolStats (pools : Pools) : PoolStats :=
  {| p_total := length pools;
     p_active := inStatus active pools;
     p_warming := inStatus warming pools;
     p_suspended := inStatus suspended pools;
     p_blacklisted := inStatus blacklisted pools |}.

End IpPoolAdmin.

Module IpSamples.
Import IpPools IpPoolAdmin.

Definition blocked : Entry :=
  {| pool := {| id := "ip_1"; ipAddress := "192.168.0.1";
                organizationId := "org-1"; status := blacklisted;
                reputation := 0; dailyLimit := 1000; currentUsage := 0;
                warmupRate := 50; lastUsed := 0; assignedAt := 0 |};
     suspendedAt := None; suspensionReason := None |}.

Definition second : Entry :=
  {| pool := {| id := "ip_2"; ipAddress := "192.168.0.2";
                organizationId := "org-1"; status := warming;
                reputation := 0; dailyLimit := 1000; currentUsage := 0;
                warmupRate := 50; lastUsed := 0; assignedAt := 0 |};
     suspendedAt := None; suspensionReason := None |}.

(** A warming pool whose raised rate [6 * 1.2] meets [9 * 0.8] on the
    numbers, and misses it on doubles. *)
Definition tied : IpPool :=
  {| id := "ip_3"; ipAddress := "192.168.0.3"; organizationId := "org-2";
     status := warming; reputation := 0; dailyLimit := 9; currentUsage := 0;
     warmupRate := 6; lastUsed := 0; assignedAt := 0 |}.

End IpSamples.


Module Trials.
Import Campaigns AbTesting Experiments.

(** An experiment whose second variant carries no weight. *)
Definition fullA : Variant :=
  {| id := "variant-1"; name := "A"; weight := 100%float; config := noConfig;
     performance := Some (opens 100 40) |}.

Definition idleB : Variant :=
  {| id := "variant-2"; name := "B"; weight := 0%float; config := noConfig;
     performance := None |}.

Definition lopsided : AbTesting := experiment [fullA; idleB] 100 None.

(** Weights 7 and 93: the draw 0.07 gives the double [0.07 * 100], which
    is 7.0000000000000009. *)
Definition uneven : AbTesting :=
  experiment
    [ {| id := "variant-1"; name := "A"; weight := 7%float;
         config := noConfig; performance := None |};
      {| id := "variant-2"; name := "B"; weight := 93%float;
         config := noConfig; performance := None |} ]
    100 None.

End Trials.


(** ** Deliverability advice: [optimizeDeliverability] of
    [deliverability.service.ts] *)

Module Deliverability.

(** The rates of [DeliverabilityMetrics] that [optimizeDeliverability]
    reads, as [getDeliverabilityMetrics] returned them. *)
Record DeliverabilityMetrics : Type := {
  inboxRate : Q;
  spamRate : Q;
  bounceRate : Q;
  complaintRate : Q;
}.

Inductive Priority : Type := high | medium | low.

Global Instance Priority_eq_dec : EqDecision Priority.
Proof. solve_decision. Defined.

(** [a > b] on numbers *)
Definition gt (a b : Q) : bool := negb (Qle_bool a b).

Definition estimateImpact (priority : Priority) (recommendationCount : nat)
    : string :=
  match priority with
  | high =>
      "High impact - " +:+ pretty recommendationCount
      +:+ " critical issues to address"
  | medium =>
      "Medium impact - " +:+ pretty recommendationCount
      +:+ " issues to monitor"
  | low =>
      "Low impact - " +:+ pretty recommendationCount
      +:+ " minor optimizations"
  end.

Record Advice : Type := {
  recommendations : list string;
  priority : Priority;
  estimatedImpact : string;
}.

(** One [if] of the analysis: push the text and set the priority. *)
Definition advise (cond : bool) (text : string) (p : Priority)
    (acc : list string * Priority) : list string * Priority :=
  if cond then (acc.1 ++ [text], p) else acc.

(** [optimizeDeliverability] from the metrics on. *)
Definition optimizeDeliverability (metrics : DeliverabilityMetrics) : Advice :=
  let s0 : list string * Priority := ([], low) in
  let s1 :=
    advise (gt (bounceRate metrics) 5)
      "High bounce rate detected. Clean your email list and verify email addresses."
      high s0 in
  let s2 :=
    advise (gt (complaintRate metrics) 0.1)
      "High complaint rate. Review email content and frequency." high s1 in
  let s3 :=
    advise (gt 90 (inboxRate metrics))
      "Low inbox rate. Check sender reputation and authentication."
      medium s2 in
  let s4 :=
    advise (gt (spamRate metrics) 1)
      "High spam rate. Review content and sender practices." medium s3 in
  let recommendations :=
    if bool_decide (length s4.1 = 0%nat) then
      s4.1 ++ ["Your deliverability metrics look good. Continue monitoring."]
    else s4.1 in
  {| recommendations := recommendations;
     priority := s4.2;
     estimatedImpact := estimateImpact s4.2 (length recommendations) |}.

End Deliverability.


(** * Properties *)

(** ** Service computations *)

Ltac svc :=
  unfold bind, findOne, save, ret, throw in *; simpl in *.

(** ** Campaign lifecycle *)

Section CampaignLifecycle.
Import Campaigns Lifecycle.

Variables (now : Z) (lists : gmap string ContactList).
Variables (repo : gmap string Campaign) (cid orgId : string) (c : Campaign).
Hypothesis stored : repo !! cid = Some c.
Hypothesis owned : organizationId c = orgId.

Lemma findById_stored : findById cid orgId repo = (Ok c, repo).
Proof using stored owned.
  unfold findById. svc. rewrite stored.
  rewrite bool_decide_eq_true_2 by exact owned. reflexivity.
Qed.

Lemma guarded_rejected (r : Request) :
  guarded r = true -> inTable (status c) r = false ->
  exists msg,
    handle now lists r cid orgId repo = (Throw (BadRequestException msg), repo).
Proof using stored owned.
  intros Hg Ht. destruct r; simpl in Hg; try discriminate; simpl;
    unfold startCampaign, pauseCampaign, resumeCampaign, cancelCampaign,
      bind; rewrite findById_stored;
    unfold canStart, canPause, canResume, canCancel;
    destruct (status c) eqn:Es; simpl in Ht; try discriminate;
    vm_compute; eauto.
Qed.

Lemma cancel_accepted :
  terminal (status c) = false ->
  cancelCampaign cid orgId repo
  = (Ok (set_status CANCELLED c), <[cid := set_status CANCELLED c]> repo).
Proof using stored owned.
  intros Ht. unfold cancelCampaign, bind. rewrite findById_stored.
  unfold canCancel. destruct (status c) eqn:Es; simpl in Ht; try discriminate;
    reflexivity.
Qed.

Lemma update_refused_completed (dto : UpdateCampaignDto) :
  status c = COMPLETED ->
  updateCampaign cid dto orgId repo
  = (Throw (BadRequestException "Cannot update completed campaign"), repo).
Proof using stored owned.
  intros Es. unfold updateCampaign, bind. rewrite findById_stored, Es.
  reflexivity.
Qed.

Lemma update_refused_active (dto : UpdateCampaignDto) :
  status c = ACTIVE ->
  updateCampaign cid dto orgId repo
  = (Throw (BadRequestException "Cannot update active campaign"), repo).
Proof using stored owned.
  intros Es. unfold updateCampaign, bind. rewrite findById_stored, Es.
  reflexivity.
Qed.

Lemma update_accepted (dto : UpdateCampaignDto) :
  status c <> ACTIVE -> status c <> COMPLETED ->
  exists c',
    updateCampaign cid dto orgId repo = (Ok c', <[cid := c']> repo)
    /\ status c' = match u_scheduledAt dto with
                   | Some _ => SCHEDULED
                   | None => status c
                   end.
Proof using stored owned.
  intros Ha Hc. unfold updateCampaign, bind. rewrite findById_stored.
  rewrite !bool_decide_eq_false_2 by assumption.
  eexists. split; [reflexivity|]. destruct (u_scheduledAt dto); reflexivity.
Qed.

Lemma guarded_accepted (r : Request) :
  r = ReqPause \/ r = ReqResume \/ r = ReqCancel ->
  inTable (status c) r = true ->
  handle now lists r cid orgId repo
  = (Ok (set_status (target r) c), <[cid := set_status (target r) c]> repo).
Proof using stored owned.
  intros [-> | [-> | ->]] Ht; simpl;
    unfold pauseCampaign, resumeCampaign, cancelCampaign, bind;
    rewrite findById_stored; unfold canPause, canResume, canCancel;
    destruct (status c) eqn:Es; simpl in Ht; try discriminate; reflexivity.
Qed.

(** C4 (amended).  For a stored campaign: a start, pause, resume or cancel
    request that is not a row of the lifecycle table is rejected with a
    bad-request error and the repository is left as it was; in a terminal
    status (completed, cancelled, failed) that is every one of these four
    requests; a pause, resume or cancel request that is a row of the table
    is accepted and stores the campaign with the status of that row, so
    cancel is accepted from every non-terminal status; an update is refused
    with a bad-request error, the repository left as it was, for an active
    and for a completed campaign, and for any status other than active and
    completed it is accepted and sets the status to scheduled exactly when
    the request carries a [scheduledAt] -- also from cancelled and
    failed. *)
Theorem C4_lifecycle_guards :
  (forall r, guarded r = true -> inTable (status c) r = false ->
     exists msg,
       handle now lists r cid orgId repo
       = (Throw (BadRequestException msg), repo))
  /\ (terminal (status c) = true ->
      forall r, guarded r = true ->
        exists msg,
          handle now lists r cid orgId repo
          = (Throw (BadRequestException msg), repo))
  /\ (forall r, r = ReqPause \/ r = ReqResume \/ r = ReqCancel ->
        inTable (status c) r = true ->
        handle now lists r cid orgId repo
        = (Ok (set_status (target r) c),
           <[cid := set_status (target r) c]> repo))
  /\ (terminal (status c) = false ->
      handle now lists ReqCancel cid orgId repo
      = (Ok (set_status CANCELLED c), <[cid := set_status CANCELLED c]> repo))
  /\ (status c = ACTIVE \/ status c = COMPLETED ->
      forall dto, exists msg,
        handle now lists (ReqUpdate dto) cid orgId repo
        = (Throw (BadRequestException msg), repo))
  /\ (status c <> ACTIVE -> status c <> COMPLETED ->
      forall dto, exists c',
        handle now lists (ReqUpdate dto) cid orgId repo
        = (Ok c', <[cid := c']> repo)
        /\ status c' = match u_scheduledAt dto with
                       | Some _ => SCHEDULED
                       | None => status c
                       end).
Proof using stored owned.
  split; [apply guarded_rejected|]. split.
  { intros Ht r Hg. apply guarded_rejected; [exact Hg|].
    destruct r; simpl in Hg; try discriminate;
      destruct (status c); simpl in Ht; try discriminate; reflexivity. }
  split; [apply guarded_accepted|]. split.
  { intros Ht. simpl. apply cancel_accepted. assumption. }
  split.
  - intros [Es|Es] dto; eexists; simpl;
      [apply update_refused_active, Es | apply update_refused_completed, Es].
  - intros Ha Hc dto. simpl. apply update_accepted; assumption.
Qed.

Lemma start_accepted :
  canStart c = true -> calculateTotalContacts lists c <> 0 ->
  startCampaign now lists cid orgId repo
  = (Ok (started now (calculateTotalContacts lists c) c),
     <[cid := started now (calculateTotalContacts lists c) c]> repo).
Proof using stored owned.
  intros Hs Hn. unfold startCampaign, bind. rewrite findById_stored, Hs.
  simpl. apply Z.eqb_neq in Hn. rewrite Hn. reflexivity.
Qed.

Lemma start_rejected :
  canStart c = false \/ calculateTotalContacts lists c = 0 ->
  exists msg,
    startCampaign now lists cid orgId repo
    = (Throw (BadRequestException msg), repo).
Proof using stored owned.
  intros H. unfold startCampaign, bind. rewrite findById_stored.
  destruct (canStart c) eqn:Hs; simpl; [|eauto].
  destruct H as [H|H]; [discriminate|]. rewrite H. simpl. eauto.
Qed.

Lemma canStart_spec :
  canStart c = true <-> status c = DRAFT \/ status c = SCHEDULED.
Proof.
  unfold canStart. rewrite orb_true_iff, !bool_decide_eq_true. reflexivity.
Qed.

Lemma sum_lists_nonneg (ids : list string) (acc : Z) :
  (forall k l, lists !! k = Some l -> 0 <= l_totalContacts l) ->
  0 <= acc ->
  0 <= fold_left
         (fun acc listId =>
            match lists !! listId with
            | Some contactList => acc + l_totalContacts contactList
            | None => acc
            end)
         ids acc.
Proof.
  intros Hl. revert acc. induction ids as [|k ids IH]; intros acc Hacc;
    [exact Hacc|].
  cbn [fold_left]. apply IH. destruct (lists !! k) as [l|] eqn:E; [|exact Hacc].
  specialize (Hl k l E). lia.
Qed.

(** Contact-list totals and the cap are counts: when none of them is
    negative, neither is the computed target contact count. *)
Lemma calculateTotalContacts_nonneg :
  (forall k l, lists !! k = Some l -> 0 <= l_totalContacts l) ->
  (forall t cap, targeting c = Some t -> maxContacts t = Some cap -> 0 <= cap) ->
  0 <= calculateTotalContacts lists c.
Proof.
  intros Hl Hcap. unfold calculateTotalContacts.
  destruct (targeting c) as [t|] eqn:Et; [|lia].
  pose proof (sum_lists_nonneg (contactListIds t) 0 Hl (Z.le_refl 0)) as Hsum.
  set (total := fold_left _ (contactListIds t) 0) in *.
  assert (Hf : 0 <= match filters t with
                    | Some (_ :: _) => (total * 4) `div` 5
                    | _ => total
                    end).
  { destruct (filters t) as [[|f fs]|]; try exact Hsum.
    apply Z.div_pos; lia. }
  destruct (maxContacts t) as [cap|] eqn:Ec; [|exact Hf].
  destruct (negb (cap =? 0) && (cap <? _)); [|exact Hf].
  apply (Hcap t cap); reflexivity || assumption.
Qed.

(** On counts -- contact-list totals and a cap that are not negative --
    [startCampaign] succeeds if and only if the status is draft or scheduled
    and the computed target contact count is greater than 0.  On success
    the stored campaign is active, its [startedAt] is the current time, its
    progress holds the count as [totalContacts] with [processedContacts] 0
    and every other column as before; otherwise a bad-request error is
    raised and the repository is unchanged. *)
Lemma start_on_counts :
  (forall k l, lists !! k = Some l -> 0 <= l_totalContacts l) ->
  (forall t cap, targeting c = Some t -> maxContacts t = Some cap -> 0 <= cap) ->
  (isOk (startCampaign now lists cid orgId repo).1 = true
   <-> (status c = DRAFT \/ status c = SCHEDULED)
       /\ 0 < calculateTotalContacts lists c)
  /\ ((status c = DRAFT \/ status c = SCHEDULED)
      /\ 0 < calculateTotalContacts lists c ->
      exists c' p,
        startCampaign now lists cid orgId repo = (Ok c', <[cid := c']> repo)
        /\ status c' = ACTIVE
        /\ startedAt c' = Some now
        /\ progress c' = Some p
        /\ totalContacts p = calculateTotalContacts lists c
        /\ processedContacts p = 0
        /\ set_progress (progress c)
             (set_startedAt (startedAt c) (set_status (status c) c')) = c)
  /\ (~ ((status c = DRAFT \/ status c = SCHEDULED)
         /\ 0 < calculateTotalContacts lists c) ->
      exists msg,
        startCampaign now lists cid orgId repo
        = (Throw (BadRequestException msg), repo)).
Proof using stored owned.
  intros Hl Hcap. pose proof (calculateTotalContacts_nonneg Hl Hcap) as Hnn.
  rewrite <- canStart_spec.
  assert (Hacc : canStart c = true /\ 0 < calculateTotalContacts lists c ->
                 startCampaign now lists cid orgId repo
                 = (Ok (started now (calculateTotalContacts lists c) c),
                    <[cid := started now (calculateTotalContacts lists c) c]>
                      repo)).
  { intros [Hs Hp]. apply start_accepted; [assumption | lia]. }
  assert (Hrej : ~ (canStart c = true /\ 0 < calculateTotalContacts lists c) ->
                 exists msg,
                   startCampaign now lists cid orgId repo
                   = (Throw (BadRequestException msg), repo)).
  { intros Hn. apply start_rejected.
    destruct (canStart c); [right | left; reflexivity].
    destruct (Z.eq_dec (calculateTotalContacts lists c) 0) as [E|E];
      [assumption|]. exfalso. apply Hn. split; [reflexivity | lia]. }
  split; [|split].
  - split.
    + intros Hok.
      destruct (decide (canStart c = true
                        /\ 0 < calculateTotalContacts lists c)) as [H|H];
        [assumption|].
      destruct (Hrej H) as [msg E]. rewrite E in Hok. discriminate.
    + intros H. rewrite (Hacc H). reflexivity.
  - intros H. rewrite (Hacc H).
    eexists _, _. split; [reflexivity|].
    destruct c; repeat split; reflexivity.
  - exact Hrej.
Qed.

End CampaignLifecycle.

Section CampaignLifecycleSamples.
Import Campaigns Lifecycle.

Lemma C4_lifecycle_guards_witness :
  ({[ "c-1" := sampleCampaign FAILED (Some oneList) ]} : gmap string Campaign)
    !! "c-1" = Some (sampleCampaign FAILED (Some oneList))
  /\ organizationId (sampleCampaign FAILED (Some oneList)) = "org-1"
  /\ exists msg,
       handle 0 sampleLists ReqStart "c-1" "org-1"
         {[ "c-1" := sampleCampaign FAILED (Some oneList) ]}
       = (Throw (BadRequestException msg),
          {[ "c-1" := sampleCampaign FAILED (Some oneList) ]}).
Proof.
  split; [reflexivity|]. split; [reflexivity|].
  apply (C4_lifecycle_guards 0 sampleLists
           {[ "c-1" := sampleCampaign FAILED (Some oneList) ]}
           "c-1" "org-1" (sampleCampaign FAILED (Some oneList)));
    reflexivity.
Defined.

(** A cancelled campaign is moved to scheduled by an update that carries a
    [scheduledAt]: a terminal status with an outgoing transition. *)
Lemma C4_cancelled_rescheduled :
  terminal (status (sampleCampaign CANCELLED (Some oneList))) = true
  /\ handle 0 sampleLists (ReqUpdate reschedule) "c-1" "org-1"
       {[ "c-1" := sampleCampaign CANCELLED (Some oneList) ]}
     = (Ok (set_status SCHEDULED
              (assign (sampleCampaign CANCELLED (Some oneList)) reschedule)),
        {[ "c-1" := set_status SCHEDULED
                      (assign (sampleCampaign CANCELLED (Some oneList))
                         reschedule) ]})
  /\ status (set_status SCHEDULED
               (assign (sampleCampaign CANCELLED (Some oneList)) reschedule))
     <> status (sampleCampaign CANCELLED (Some oneList)).
Proof.
  split; [reflexivity|]. split; [|discriminate].
  unfold handle, updateCampaign, findById. svc.
  rewrite lookup_singleton_eq. simpl.
  rewrite insert_singleton_eq. reflexivity.
Qed.

(** C5: the guard misses a case.  [startCampaign] rejects a target contact
    count that is 0 ('No contacts found for campaign') and no other: a
    draft campaign targeting a list of 500 contacts with [maxContacts] -5
    has the computed count -5, which is not greater than 0, and is started
    all the same -- it becomes active with [totalContacts] -5. *)
Theorem C5_negative_count_starts :
  calculateTotalContacts sampleLists (sampleCampaign DRAFT (Some negativeCap))
  = -5
  /\ startCampaign 1767225600000 sampleLists "c-1" "org-1"
       {[ "c-1" := sampleCampaign DRAFT (Some negativeCap) ]}
     = (Ok (started 1767225600000 (-5)
              (sampleCampaign DRAFT (Some negativeCap))),
        {[ "c-1" := started 1767225600000 (-5)
                      (sampleCampaign DRAFT (Some negativeCap)) ]})
  /\ status (started 1767225600000 (-5)
               (sampleCampaign DRAFT (Some negativeCap))) = ACTIVE
  /\ (totalContacts <$>
        progress (started 1767225600000 (-5)
                    (sampleCampaign DRAFT (Some negativeCap)))) = Some (-5).
Proof.
  split; [reflexivity|]. split; [|split; reflexivity].
  unfold startCampaign, findById. svc.
  rewrite lookup_singleton_eq. simpl. reflexivity.
Qed.

Example sample_count :
  calculateTotalContacts sampleLists (sampleCampaign DRAFT (Some oneList))
  = 500.
Proof. reflexivity. Qed.

End CampaignLifecycleSamples.

(** ** A/B experiments *)

Section ExperimentTracking.
Import Campaigns AbTesting Experiments.

Lemma findVariant_Some (vid : string) (vs : list Variant) i v :
  findVariant vid vs = Some (i, v) <->
  vs !! i = Some v /\ id v = vid
  /\ forall j v0, vs !! j = Some v0 -> (j < i)%nat -> id v0 <> vid.
Proof. unfold findVariant. apply (list_find_Some (fun x => id x = vid)). Qed.

Lemma findVariant_None (vid : string) (vs : list Variant) :
  findVariant vid vs = None <-> forall v, v ∈ vs -> id v <> vid.
Proof.
  unfold findVariant.
  rewrite (list_find_None (fun x => id x = vid)), Forall_forall. reflexivity.
Qed.

Lemma track_counter (ev : TrackEvent) (v : Variant) :
  counter ev (perf (track ev v)) = counter ev (perf v) + 1.
Proof. destruct ev; reflexivity. Qed.

Lemma track_others (ev ev' : TrackEvent) (v : Variant) :
  ev' <> ev -> counter ev' (perf (track ev v)) = counter ev' (perf v).
Proof. destruct ev, ev'; intros H; try reflexivity; congruence. Qed.

Lemma track_frame (ev : TrackEvent) (v : Variant) :
  set_performance (performance v) (track ev v) = v.
Proof. destruct v; reflexivity. Qed.

(** C10.  [trackVariantPerformance] always returns normally.  Rows of
    other campaigns are never touched.  Without an enabled experiment, or
    when no variant carries the given id, the repository is unchanged.
    When the first variant with that id sits at position [i], the stored
    campaign differs from the old one only in that variant's performance:
    the counter the event names is one higher, the other five counters
    (an absent performance reading as zeros) and every other variant and
    column are as before. *)
Theorem C10_trackVariantPerformance (repo : gmap string Campaign)
    (cid vid eid : string) (ev : TrackEvent) :
  (trackVariantPerformance cid vid eid ev repo).1 = Ok tt
  /\ (forall k, k <> cid ->
        (trackVariantPerformance cid vid eid ev repo).2 !! k = repo !! k)
  /\ (enabledTest (repo !! cid) = None ->
        (trackVariantPerformance cid vid eid ev repo).2 = repo)
  /\ (forall c ab, enabledTest (repo !! cid) = Some (c, ab) ->
        (forall v, v ∈ variants ab -> id v <> vid) ->
        (trackVariantPerformance cid vid eid ev repo).2 = repo)
  /\ (forall c ab i v, enabledTest (repo !! cid) = Some (c, ab) ->
        variants ab !! i = Some v -> id v = vid ->
        (forall j v0, variants ab !! j = Some v0 -> (j < i)%nat ->
                      id v0 <> vid) ->
        exists c' ab' v',
          (trackVariantPerformance cid vid eid ev repo).2 !! cid = Some c'
          /\ set_abTesting (abTesting c) c' = c
          /\ abTesting c' = Some ab'
          /\ set_variants (variants ab) ab' = ab
          /\ variants ab' = <[i := v']> (variants ab)
          /\ set_performance (performance v) v' = v
          /\ counter ev (perf v') = counter ev (perf v) + 1
          /\ forall ev', ev' <> ev ->
               counter ev' (perf v') = counter ev' (perf v)).
Proof.
  unfold trackVariantPerformance. svc.
  destruct (enabledTest (repo !! cid)) as [[c ab]|] eqn:Een; simpl.
  2: { repeat split; try discriminate; reflexivity. }
  destruct (findVariant vid (variants ab)) as [[i v]|] eqn:Efv; simpl.
  - apply (proj1 (findVariant_Some _ _ _ _)) in Efv.
    destruct Efv as (Hi & Hid & Hfirst).
    split; [reflexivity|]. split.
    { intros k Hk. rewrite lookup_insert_ne by congruence. reflexivity. }
    split; [discriminate|]. split.
    { intros c0 ab0 E Hno. exfalso. inversion E; subst c0 ab0.
      apply (Hno v); [|assumption]. eapply list_elem_of_lookup_2, Hi. }
    intros c0 ab0 i0 v0 E Hi0 Hid0 Hfirst0. inversion E; subst c0 ab0.
    assert (i0 = i).
    { destruct (Nat.lt_trichotomy i0 i) as [H|[H|H]]; [|assumption|].
      - exfalso. exact (Hfirst _ _ Hi0 H Hid0).
      - exfalso. exact (Hfirst0 _ _ Hi H Hid). }
    subst i0. assert (v0 = v) by congruence. subst v0.
    exists (set_abTesting
              (Some (set_variants (<[i := track ev v]> (variants ab)) ab)) c),
           (set_variants (<[i := track ev v]> (variants ab)) ab),
           (track ev v).
    rewrite lookup_insert_eq.
    repeat split.
    + destruct c; reflexivity.
    + destruct ab; reflexivity.
    + apply track_frame.
    + apply track_counter.
    + intros ev'. apply track_others.
  - pose proof (proj1 (findVariant_None _ _) Efv) as Hno.
    split; [reflexivity|]. split; [reflexivity|]. split; [reflexivity|].
    split; [reflexivity|].
    intros c0 ab0 i0 v0 E Hi0 Hid0 _. exfalso. inversion E; subst c0 ab0.
    apply (Hno v0); [|assumption]. eapply list_elem_of_lookup_2, Hi0.
Qed.

End ExperimentTracking.

Section ExperimentSetup.
Import Campaigns AbTesting Experiments Setup Stores.







Lemma makeVariants_ids (vs : list VariantInput) (i : nat) (v : Variant) :
  makeVariants vs !! i = Some v -> id v = "variant-" +:+ pretty (i + 1)%nat.
Proof.
  unfold makeVariants. rewrite list_lookup_imap.
  destruct (vs !! i); simpl; intros H; inversion H. reflexivity.
Qed.





End ExperimentSetup.

Section WinnerSelection.
Import Campaigns AbTesting Experiments Stores.

(** [selectWinner] looks at neither the sends so far nor a winner already
    recorded: with an enabled experiment and a known variant it always
    stores that variant as the winner. *)
Lemma selectWinner_accepts (repo : gmap string Campaign) (cid vid : string)
    (c : Campaign) (ab : AbTesting) (i : nat) (v : Variant) :
  enabledTest (repo !! cid) = Some (c, ab) ->
  findVariant vid (variants ab) = Some (i, v) ->
  exists c' ab',
    selectWinner cid vid repo = (Ok c', <[cid := c']> repo)
    /\ abTesting c' = Some ab'
    /\ winnerSelected ab' = Some vid
    /\ set_winnerSelected (winnerSelected ab) ab' = ab.
Proof.
  intros Een Efv. unfold selectWinner, bind, findOne, save.
  rewrite Een, Efv. eexists _, _. split; [reflexivity|].
  repeat split. destruct ab; reflexivity.
Qed.

(** C6 (the service at the failing input).  The campaign [decided] has an
    enabled experiment of test size 100, nothing sent, and winner
    [variant-1] recorded.  [getAbTestStatus] reports that no winner can be
    selected; [selectWinner] for [variant-2] nevertheless succeeds,
    replaces the recorded winner and copies that variant's subject onto
    the campaign's configuration. *)
Theorem C6_selectWinner_not_guarded :
  (exists st,
     getAbTestStatus "c-1" (repoOf decided) = (Ok (Some st), repoOf decided)
     /\ st_winnerSelected st = Some "variant-1"
     /\ st_totalSent st = 0
     /\ st_testSize st = 100
     /\ st_isComplete st = false
     /\ st_canSelectWinner st = false)
  /\ (exists c' ab',
        selectWinner "c-1" "variant-2" (repoOf decided)
        = (Ok c', <["c-1" := c']> (repoOf decided))
        /\ abTesting c' = Some ab'
        /\ winnerSelected ab' = Some "variant-2"
        /\ c_config c' ≫= subject = Some "Quick question").
Proof.
  split.
  - eexists. split; [reflexivity|]. repeat split.
  - eexists _, _. split.
    + unfold selectWinner, bind, findOne, save, repoOf.
      rewrite lookup_singleton_eq. reflexivity.
    + repeat split.
Qed.

End WinnerSelection.

Section VariantAssignment.
Import Campaigns AbTesting Experiments Stores.

Lemma cumulativeFrom_cons (acc : float) (v : Variant) (vs : list Variant)
    (i : nat) :
  cumulativeFrom acc (v :: vs) (S i)
  = cumulativeFrom (acc + weight v)%float vs i.
Proof. reflexivity. Qed.

Lemma cumulativeFrom_first (acc : float) (v : Variant) (vs : list Variant) :
  cumulativeFrom acc (v :: vs) 0 = (acc + weight v)%float.
Proof. reflexivity. Qed.

Lemma walk_Some (r acc : float) (vs : list Variant) (i : nat) (v : Variant) :
  vs !! i = Some v ->
  (r <=? cumulativeFrom acc vs i)%float = true ->
  (forall j, (j < i)%nat -> (r <=? cumulativeFrom acc vs j)%float = false) ->
  walk r acc vs = Some (id v).
Proof.
  revert acc i. induction vs as [|v0 vs IH]; intros acc i Hi Hle Hfirst.
  - discriminate.
  - cbn [walk]. destruct i as [|i].
    + inversion Hi; subst v0. rewrite cumulativeFrom_first in Hle.
      rewrite Hle. reflexivity.
    + pose proof (Hfirst 0%nat ltac:(lia)) as E.
      rewrite cumulativeFrom_first in E. rewrite E.
      apply (IH _ i); [exact Hi | exact Hle |].
      intros j Hj. apply (Hfirst (S j)). lia.
Qed.

Lemma walk_None (r acc : float) (vs : list Variant) :
  (forall j, (j < length vs)%nat ->
             (r <=? cumulativeFrom acc vs j)%float = false) ->
  walk r acc vs = None.
Proof.
  revert acc. induction vs as [|v0 vs IH]; intros acc Hnone; [reflexivity|].
  cbn [walk].
  pose proof (Hnone 0%nat ltac:(simpl; lia)) as E.
  rewrite cumulativeFrom_first in E. rewrite E.
  apply IH. intros j Hj. apply (Hnone (S j)). simpl. lia.
Qed.

Lemma enabledTest_stored (repo : gmap string Campaign) (cid : string)
    (c : Campaign) (ab : AbTesting) :
  enabledTest (repo !! cid) = Some (c, ab) ->
  repo !! cid = Some c /\ abTesting c = Some ab /\ enabled ab = true.
Proof.
  unfold enabledTest. destruct (repo !! cid) as [c0|]; [|discriminate].
  destruct (abTesting c0) as [ab0|] eqn:Eab; [|discriminate].
  destruct (enabled ab0) eqn:Een; [|discriminate].
  intros H. inversion H; subst. auto.
Qed.

(** C7 (amended).  With [rnd] the value of [Math.random()] and [r] the
    double [rnd * 100]: when the campaign is missing or its experiment is
    absent or disabled, [assignVariantToContact] raises a bad-request error
    (it returns no configuration); with an enabled experiment it returns
    the id of the first variant, in stored order, whose cumulative weight
    -- the weights up to it added in order as doubles, starting from 0 --
    is at least [r], and the id of the first variant when no cumulative
    weight reaches [r]; a recorded winner plays no part: the result is the
    same whatever [winnerSelected] holds.  The repository is never
    written. *)
Theorem C7_assignVariantToContact (repo : gmap string Campaign) (rnd : float)
    (cid contact : string) :
  (assignVariantToContact rnd cid contact repo).2 = repo
  /\ (enabledTest (repo !! cid) = None ->
      (assignVariantToContact rnd cid contact repo).1
      = Throw (BadRequestException "A/B test not found or not enabled"))
  /\ (forall c ab, enabledTest (repo !! cid) = Some (c, ab) ->
      (forall i v, variants ab !! i = Some v ->
         (rnd * 100 <=? cumulative (variants ab) i)%float = true ->
         (forall j, (j < i)%nat ->
                    (rnd * 100 <=? cumulative (variants ab) j)%float = false) ->
         (assignVariantToContact rnd cid contact repo).1 = Ok (id v))
      /\ (forall first rest, variants ab = first :: rest ->
            (forall j, (j < length (variants ab))%nat ->
               (rnd * 100 <=? cumulative (variants ab) j)%float = false) ->
            (assignVariantToContact rnd cid contact repo).1 = Ok (id first))
      /\ (forall w,
            (assignVariantToContact rnd cid contact
               (<[cid := set_abTesting (Some (set_winnerSelected w ab)) c]>
                  repo)).1
            = (assignVariantToContact rnd cid contact repo).1)).
Proof.
  unfold assignVariantToContact, bind, findOne, ret, throw.
  destruct (enabledTest (repo !! cid)) as [[c ab]|] eqn:Een.
  2: { repeat split; try discriminate. }
  split.
  { destruct (walk (rnd * 100) 0 (variants ab)); [reflexivity|].
    destruct (variants ab); reflexivity. }
  split; [discriminate|].
  intros c0 ab0 E. inversion E; subst c0 ab0. split; [|split].
  - intros i v Hi Hle Hfirst.
    rewrite (walk_Some _ _ _ i v Hi Hle Hfirst). reflexivity.
  - intros first rest Evs Hnone. rewrite (walk_None _ _ _ Hnone).
    rewrite Evs. reflexivity.
  - intros w. rewrite lookup_insert_eq.
    apply enabledTest_stored in Een. destruct Een as (_ & _ & Een).
    unfold enabledTest. cbn. rewrite Een.
    change (variants (set_winnerSelected w ab)) with (variants ab).
    destruct (walk (rnd * 100) 0 (variants ab)); [reflexivity|].
    destruct (variants ab); reflexivity.
Qed.

(** A campaign without an experiment gets a bad-request error, not its
    configuration; a campaign whose winner is already [variant-1] still
    has a contact assigned to [variant-2]. *)
Lemma C7_error_and_assignment_after_winner :
  assignVariantToContact 0.5 "c-1" "contact-7" (repoOf (withExperiment None))
  = (Throw (BadRequestException "A/B test not found or not enabled"),
     repoOf (withExperiment None))
  /\ (abTesting decided ≫= winnerSelected) = Some "variant-1"
  /\ assignVariantToContact 0.75 "c-1" "contact-7" (repoOf decided)
     = (Ok "variant-2", repoOf decided).
Proof.
  unfold assignVariantToContact, bind, findOne, repoOf.
  rewrite !lookup_singleton_eq. repeat split.
Qed.

End VariantAssignment.

Section VariantScore.
Import Campaigns AbTesting Experiments Stores.





Lemma score_nonneg (m : Metrics) (criteria : string) :
  (0 <= calculateOverallScore m criteria)%Q.
Proof. unfold calculateOverallScore. apply Q.le_max_l. Qed.








End VariantScore.

Section WinnerRanking.
Import Campaigns AbTesting Experiments Stores.

(** The results [analyzeAbTestResults] sorts all carry [overallScore] 0:
    the computed score is never written into the metrics. *)
Lemma collectResults_unscored (ab : AbTesting) (r : AbTestResult) :
  r ∈ collectResults ab -> overallScore (r_metrics r) = 0%Q.
Proof.
  unfold collectResults. intros H. apply list_elem_of_omap in H.
  destruct H as (v & _ & Hv). destruct (performance v) as [p|]; [|discriminate].
  destruct (sent p =? 0); [discriminate|]. inversion Hv. reflexivity.
Qed.

Lemma insert_unscored (r : AbTestResult) (sorted : list AbTestResult) :
  overallScore (r_metrics r) = 0%Q ->
  Forall (fun s => overallScore (r_metrics s) = 0%Q) sorted ->
  insertByScore r sorted = sorted ++ [r].
Proof.
  intros Hr. induction 1 as [|s sorted Hs _ IH]; [reflexivity|].
  cbn [insertByScore]. rewrite Hs, Hr, IH. reflexivity.
Qed.

Lemma sort_unscored (rs : list AbTestResult) :
  Forall (fun s => overallScore (r_metrics s) = 0%Q) rs ->
  sortByScore rs = rs.
Proof.
  unfold sortByScore. intros H.
  enough (G : forall acc,
             Forall (fun s => overallScore (r_metrics s) = 0%Q) acc ->
             fold_left (fun sorted r => insertByScore r sorted) rs acc
             = acc ++ rs) by (apply (G []); constructor).
  induction H as [|r rs Hr _ IH]; intros acc Hacc.
  - rewrite app_nil_r. reflexivity.
  - cbn [fold_left]. rewrite insert_unscored by assumption.
    rewrite IH, <- app_assoc; [reflexivity|].
    apply Forall_app. split; [assumption|]. constructor; [assumption|constructor].
Qed.

(** Hence the variant marked winner is the first one with sends, in stored
    order, whatever the scores are. *)
Lemma analyze_keeps_stored_order (repo : gmap string Campaign) (cid : string)
    (c : Campaign) (ab : AbTesting) :
  enabledTest (repo !! cid) = Some (c, ab) ->
  analyzeAbTestResults cid repo
  = (Ok match collectResults ab with
        | [] => []
        | top :: rest => set_isWinner true top :: rest
        end, repo).
Proof.
  intros Een. unfold analyzeAbTestResults, bind, findOne, ret.
  rewrite Een, sort_unscored.
  - destruct (collectResults ab); reflexivity.
  - apply Forall_forall. apply collectResults_unscored.
Qed.

(** For A (100 sent, 40 opened) stored before B (80 sent, 48 opened), the
    analysis marks A as the winner although B has the higher score. *)
Example analyze_marks_first_variant :
  exists rs,
    (analyzeAbTestResults "c-1" (repoOf Running.running)).1 = Ok rs
    /\ (fun r => (r_variantName r, r_isWinner r)) <$> rs
       = [("A", true); ("B", false)].
Proof.
  eexists. split.
  - rewrite (analyze_keeps_stored_order _ _ Running.running Running.scenario);
      reflexivity.
  - reflexivity.
Qed.

End WinnerRanking.

Section ExperimentSamples.
Import Campaigns AbTesting Experiments Stores Running Trials.

Lemma C10_trackVariantPerformance_witness :
  enabledTest (repoOf running !! "c-1") = Some (running, scenario)
  /\ variants scenario !! 1%nat = Some variantB
  /\ id variantB = "variant-2"
  /\ exists c' ab' v',
       (trackVariantPerformance "c-1" "variant-2" "email-9" ev_opened
          (repoOf running)).2 !! "c-1" = Some c'
       /\ abTesting c' = Some ab'
       /\ variants ab' = <[1%nat := v']> (variants scenario)
       /\ counter ev_opened (perf v') = counter ev_opened (perf variantB) + 1
       /\ counter ev_sent (perf v') = counter ev_sent (perf variantB).
Proof.
  split; [reflexivity|]. split; [reflexivity|]. split; [reflexivity|].
  destruct (C10_trackVariantPerformance (repoOf running) "c-1" "variant-2"
              "email-9" ev_opened) as (_ & _ & _ & _ & H).
  destruct (H running scenario 1%nat variantB) as
    (c' & ab' & v' & Hc & _ & Hab & _ & Hvs & _ & Hone & Hothers);
    [reflexivity | reflexivity | reflexivity | |].
  - intros j v0 Hj Hlt. destruct j as [|j]; [|lia].
    inversion Hj. discriminate.
  - exists c', ab', v'. repeat split; try assumption.
    apply Hothers. discriminate.
Defined.

Lemma C7_assignVariantToContact_witness :
  enabledTest (repoOf running !! "c-1") = Some (running, scenario)
  /\ variants scenario !! 1%nat = Some variantB
  /\ (0.75 * 100 <=? cumulative (variants scenario) 1)%float = true
  /\ (0.75 * 100 <=? cumulative (variants scenario) 0)%float = false
  /\ (assignVariantToContact 0.75 "c-1" "contact-7" (repoOf running)).1
     = Ok (id variantB).
Proof.
  split; [reflexivity|]. split; [reflexivity|]. split; [reflexivity|].
  split; [reflexivity|].
  destruct (C7_assignVariantToContact (repoOf running) 0.75 "c-1" "contact-7")
    as (_ & _ & H).
  destruct (H running scenario eq_refl) as (Hfirst & _).
  apply (Hfirst 1%nat variantB); [reflexivity | reflexivity |].
  intros j Hj. destruct j as [|j]; [reflexivity | lia].
Defined.

(** The draw 0.07 passes the first variant of weight 7, because the double
    [0.07 * 100] exceeds 7; the draw 0.0625, whose product with 100 is the
    double 6.25, stops at it. *)
Example draws_on_doubles :
  (0.07 * 100 <=? 7)%float = false
  /\ assignVariantToContact 0.07 "c-1" "contact-7"
       (repoOf (withExperiment (Some uneven)))
     = (Ok "variant-2", repoOf (withExperiment (Some uneven)))
  /\ assignVariantToContact 0.0625 "c-1" "contact-7"
       (repoOf (withExperiment (Some uneven)))
     = (Ok "variant-1", repoOf (withExperiment (Some uneven))).
Proof.
  unfold assignVariantToContact, bind, findOne, repoOf.
  rewrite !lookup_singleton_eq. repeat split.
Qed.

End ExperimentSamples.

(** ** Sending identities *)

Section MailboxEligibility.
Import Mailboxes Identities.

Lemma minutesOf_table :
  forallb
    (fun h =>
       forallb
         (fun m =>
            bool_decide
              (minutesOf (hhmm (Z.of_nat h) (Z.of_nat m))
               = Some (Z.of_nat h * 60 + Z.of_nat m)))
         (seq 0 100))
    (seq 0 100)
  = true.
Proof. vm_compute. reflexivity. Qed.

(** An ['HH:MM'] string is read back as [HH * 60 + MM]. *)
Lemma minutesOf_hhmm (h m : Z) :
  0 <= h < 100 -> 0 <= m < 100 -> minutesOf (hhmm h m) = Some (h * 60 + m).
Proof.
  intros Hh Hm. pose proof minutesOf_table as T.
  rewrite forallb_forall in T.
  specialize (T (Z.to_nat h)). rewrite forallb_forall in T.
  assert (Hin : forall n, 0 <= n < 100 -> In (Z.to_nat n) (seq 0 100)).
  { intros n Hn. apply in_seq. lia. }
  specialize (T (Hin h Hh) (Z.to_nat m) (Hin m Hm)).
  apply bool_decide_eq_true in T. rewrite !Z2Nat.id in T by lia. exact T.
Qed.

Lemma isReady_spec (m : Mailbox) :
  isReady m = true <-> isActive m = true /\ status m = ACTIVE.
Proof.
  unfold isReady. rewrite andb_true_iff, bool_decide_eq_true. reflexivity.
Qed.

(** C2 (amended).  A mailbox is ready exactly when its [isActive] flag is
    set and its status is active; in every other status -- pending,
    suspended, failed and also warming_up -- it is not ready.
    [isInBusinessHours] is true when there is no sending configuration or
    the business-hours flag is off; with the flag on and start and end
    written ['HH:MM'], it is true exactly when the current weekday is a
    configured business day and the current minute of the day lies between
    start and end, both ends included.  Weekday and time of day are those
    of the server's clock: the configured time zone has no influence. *)
Theorem C2_mailbox_eligibility (m : Mailbox) (now : LocalDate) :
  (isReady m = true <-> isActive m = true /\ status m = ACTIVE)
  /\ (status m <> ACTIVE -> isReady m = false)
  /\ (sendingConfig m = None -> isInBusinessHours m now = true)
  /\ (forall cfg, sendingConfig m = Some cfg ->
        businessHoursOnly cfg = false -> isInBusinessHours m now = true)
  /\ (forall cfg h1 m1 h2 m2, sendingConfig m = Some cfg ->
        businessHoursOnly cfg = true ->
        0 <= h1 < 100 -> 0 <= m1 < 100 -> 0 <= h2 < 100 -> 0 <= m2 < 100 ->
        businessHoursStart cfg = hhmm h1 m1 ->
        businessHoursEnd cfg = hhmm h2 m2 ->
        (isInBusinessHours m now = true
         <-> getDay now ∈ businessDays cfg
             /\ h1 * 60 + m1 <= getHours now * 60 + getMinutes now
                <= h2 * 60 + m2))
  /\ (forall cfg tz, sendingConfig m = Some cfg ->
        isInBusinessHours (set_sendingConfig (Some (set_timezone tz cfg)) m)
          now
        = isInBusinessHours m now).
Proof.
  split; [apply isReady_spec|]. split.
  { intros Hs. apply not_true_iff_false. rewrite isReady_spec. tauto. }
  split; [intros E; unfold isInBusinessHours; rewrite E; reflexivity|].
  split.
  { intros cfg E Hoff. unfold isInBusinessHours. rewrite E, Hoff.
    reflexivity. }
  split.
  - intros cfg h1 m1 h2 m2 E Hon Hh1 Hm1 Hh2 Hm2 Es Ee.
    unfold isInBusinessHours. rewrite E, Hon, Es, Ee.
    rewrite !minutesOf_hhmm by assumption. cbn [negb].
    destruct (bool_decide (getDay now ∈ businessDays cfg)) eqn:Ed.
    + apply bool_decide_eq_true in Ed. cbn [negb].
      rewrite andb_true_iff, !Z.leb_le. tauto.
    + apply bool_decide_eq_false in Ed. cbn [negb].
      split; [discriminate | tauto].
  - intros cfg tz E. unfold isInBusinessHours. rewrite E. reflexivity.
Qed.

Lemma C2_mailbox_eligibility_witness :
  sendingConfig (sampleMailbox ACTIVE (defaultConfig false true))
  = Some (defaultConfig false true)
  /\ businessHoursStart (defaultConfig false true) = hhmm 9 0
  /\ businessHoursEnd (defaultConfig false true) = hhmm 17 0
  /\ (isInBusinessHours (sampleMailbox ACTIVE (defaultConfig false true))
        wednesdayMorning = true
      <-> getDay wednesdayMorning ∈ businessDays (defaultConfig false true)
          /\ 9 * 60 + 0
             <= getHours wednesdayMorning * 60 + getMinutes wednesdayMorning
             <= 17 * 60 + 0).
Proof.
  split; [reflexivity|]. split; [reflexivity|]. split; [reflexivity|].
  apply (C2_mailbox_eligibility
           (sampleMailbox ACTIVE (defaultConfig false true))
           wednesdayMorning);
    [reflexivity | reflexivity | lia | lia | lia | lia
     | reflexivity | reflexivity].
Defined.

(** A warming-up mailbox without a business-hours restriction is in
    business hours and yet not ready. *)
Lemma C2_warming_up_not_eligible :
  status (sampleMailbox WARMING_UP (defaultConfig true false)) = WARMING_UP
  /\ isInBusinessHours (sampleMailbox WARMING_UP (defaultConfig true false))
       wednesdayMorning = true
  /\ isReady (sampleMailbox WARMING_UP (defaultConfig true false)) = false.
Proof. repeat split. Qed.

End MailboxEligibility.

Section Warmup.
Import Mailboxes Identities.

Variables (now : Z) (repo : gmap string Mailbox) (mid : string) (m : Mailbox).
Hypothesis stored : repo !! mid = Some m.

(** The row [warmupMailbox] leaves behind for a configuration [cfg]. *)
Lemma warmup_accepted (cfg : SendingConfig) :
  status m = ACTIVE -> sendingConfig m = Some cfg ->
  warmupEnabled cfg = true ->
  exists m' cfg',
    warmupMailbox now mid repo = (Ok m', <[mid := m']> repo)
    /\ status m' = WARMING_UP
    /\ sendingConfig m' = Some cfg'
    /\ currentWarmupRate cfg'
       = Z.min (currentWarmupRate cfg + warmupIncrement cfg)
               (maxEmailsPerDay cfg)
    /\ maxEmailsPerDay cfg' = maxEmailsPerDay cfg
    /\ warmupIncrement cfg' = warmupIncrement cfg
    /\ warmupEnabled cfg' = true.
Proof using stored.
  intros Hs Hc He.
  unfold warmupMailbox, findById; unfold bind, findOne, update, ret.
  rewrite stored, Hs, Hc, He. cbn [negb bool_decide decide_rel].
  rewrite bool_decide_eq_true_2 by reflexivity. cbn [negb].
  rewrite lookup_alter_eq, stored. cbn [fmap option_fmap option_map].
  eexists _, _. split.
  - f_equal. apply map_eq. intros k.
    destruct (decide (k = mid)) as [->|Hk].
    + rewrite lookup_alter_eq, lookup_insert_eq, stored. reflexivity.
    + rewrite lookup_alter_ne, lookup_insert_ne by congruence. reflexivity.
  - repeat split. exact He.
Qed.

Lemma warmup_refused :
  status m <> ACTIVE
  \/ sendingConfig m = None
  \/ (exists cfg, sendingConfig m = Some cfg /\ warmupEnabled cfg = false) ->
  exists msg,
    warmupMailbox now mid repo = (Throw (BadRequestException msg), repo).
Proof using stored.
  intros H. unfold warmupMailbox, findById; unfold bind, findOne, ret, throw.
  rewrite stored.
  destruct (bool_decide (status m = ACTIVE)) eqn:Es; cbn [negb]; [|eauto].
  apply bool_decide_eq_true in Es.
  destruct H as [H|[H|(cfg & H & He)]]; [congruence | |].
  - rewrite H. eauto.
  - rewrite H, He. cbn [negb]. eauto.
Qed.

(** C3 (amended).  [warmupMailbox] is accepted exactly for a mailbox whose
    status is active and whose warmup is enabled; for any other mailbox,
    one in warming_up included, it raises a bad-request error and leaves
    the repository as it was.  When accepted it stores
    [min(currentWarmupRate + warmupIncrement, maxEmailsPerDay)] as the new
    rate, which never exceeds [maxEmailsPerDay] and is not below the old
    rate when the increment is non-negative and the old rate within the
    cap, and it sets the status to warming_up -- it never moves a mailbox
    to active -- so that a further call is refused.  Graduation at 80% of
    the cap exists for IP pools only: [updateIpUsage] moves a warming pool
    to active exactly when its usage has reached its rate and the raised
    rate, [min(rate * 1.2, dailyLimit)], is at least [dailyLimit * 0.8],
    all computed on doubles; the raised rate is stored whenever the usage
    has reached the rate; a pool that is not warming keeps its status and
    rate, so that a pool graduates at most once. *)
Theorem C3_warmup :
  (isOk (warmupMailbox now mid repo).1 = true
   <-> status m = ACTIVE
       /\ exists cfg, sendingConfig m = Some cfg /\ warmupEnabled cfg = true)
  /\ (isOk (warmupMailbox now mid repo).1 = false ->
      exists msg,
        warmupMailbox now mid repo = (Throw (BadRequestException msg), repo))
  /\ (forall cfg, status m = ACTIVE -> sendingConfig m = Some cfg ->
        warmupEnabled cfg = true ->
        exists m' cfg',
          warmupMailbox now mid repo = (Ok m', <[mid := m']> repo)
          /\ status m' = WARMING_UP
          /\ sendingConfig m' = Some cfg'
          /\ currentWarmupRate cfg'
             = Z.min (currentWarmupRate cfg + warmupIncrement cfg)
                     (maxEmailsPerDay cfg)
          /\ currentWarmupRate cfg' <= maxEmailsPerDay cfg
          /\ (0 <= warmupIncrement cfg ->
              currentWarmupRate cfg <= maxEmailsPerDay cfg ->
              currentWarmupRate cfg <= currentWarmupRate cfg')
          /\ forall later, exists msg,
               warmupMailbox later mid (<[mid := m']> repo)
               = (Throw (BadRequestException msg), <[mid := m']> repo))
  /\ (forall t usage (p : IpPools.IpPool),
        (IpPools.status p <> IpPools.warming ->
         IpPools.status (IpPools.used t usage p) = IpPools.status p
         /\ IpPools.warmupRate (IpPools.used t usage p)
            = IpPools.warmupRate p)
        /\ (IpPools.status p = IpPools.warming ->
            (IpPools.status (IpPools.used t usage p) = IpPools.active
             <-> (IpPools.warmupRate p
                  <=? IpPools.currentUsage p + usage)%float = true
                 /\ (IpPools.dailyLimit p * 0.8
                     <=? Numbers.Math_min (IpPools.warmupRate p * 1.2)
                           (IpPools.dailyLimit p))%float = true)
            /\ (IpPools.status (IpPools.used t usage p) = IpPools.active
                \/ IpPools.status (IpPools.used t usage p)
                   = IpPools.warming)
            /\ IpPools.warmupRate (IpPools.used t usage p)
               = if (IpPools.warmupRate p
                     <=? IpPools.currentUsage p + usage)%float
                 then Numbers.Math_min (IpPools.warmupRate p * 1.2)%float
                        (IpPools.dailyLimit p)
                 else IpPools.warmupRate p)).
Proof using stored.
  assert (Hdec : (status m = ACTIVE
                  /\ exists cfg, sendingConfig m = Some cfg
                                 /\ warmupEnabled cfg = true)
                 \/ (status m <> ACTIVE
                     \/ sendingConfig m = None
                     \/ exists cfg, sendingConfig m = Some cfg
                                    /\ warmupEnabled cfg = false)).
  { destruct (decide (status m = ACTIVE)) as [Hs|Hs]; [|tauto].
    destruct (sendingConfig m) as [cfg|] eqn:Hc; [|tauto].
    destruct (warmupEnabled cfg) eqn:He; [left|right]; eauto 6. }
  split; [|split; [|split]].
  - split.
    + intros Hok. destruct Hdec as [H|H]; [exact H|].
      destruct (warmup_refused H) as [msg E]. rewrite E in Hok. discriminate.
    + intros (Hs & cfg & Hc & He).
      destruct (warmup_accepted cfg Hs Hc He) as (m' & cfg' & E & _).
      rewrite E. reflexivity.
  - intros Hno. destruct Hdec as [(Hs & cfg & Hc & He)|H].
    + destruct (warmup_accepted cfg Hs Hc He) as (m' & cfg' & E & _).
      rewrite E in Hno. discriminate.
    + apply warmup_refused, H.
  - intros cfg Hs Hc He.
    destruct (warmup_accepted cfg Hs Hc He)
      as (m' & cfg' & E & Hs' & Hc' & Hr & _).
    exists m', cfg'. rewrite Hr. repeat split; try assumption; try lia.
    intros later. clear E.
    unfold warmupMailbox, findById; unfold bind, findOne, ret, throw.
    rewrite lookup_insert_eq, Hs'. eauto.
  - intros t usage p. unfold IpPools.used. split.
    + intros Hs. rewrite bool_decide_eq_false_2 by assumption.
      split; reflexivity.
    + intros Hs. rewrite bool_decide_eq_true_2 by assumption.
      cbn [andb]. rewrite Hs.
      destruct (IpPools.warmupRate p <=? IpPools.currentUsage p + usage)%float;
        cbn [IpPools.status IpPools.warmupRate].
      * destruct (IpPools.dailyLimit p * 0.8
                  <=? Numbers.Math_min (IpPools.warmupRate p * 1.2)
                        (IpPools.dailyLimit p))%float.
        -- repeat split; auto.
        -- repeat split; auto; try discriminate.
           intros [_ H]. discriminate.
      * repeat split; auto; try discriminate.
        intros [H _]. discriminate.
Qed.

End Warmup.

Section WarmupSamples.
Import Mailboxes Identities.

Lemma C3_warmup_witness :
  mailboxesOf (sampleMailbox ACTIVE (defaultConfig true false)) !! "mb-1"
  = Some (sampleMailbox ACTIVE (defaultConfig true false))
  /\ (isOk (warmupMailbox 0 "mb-1"
              (mailboxesOf (sampleMailbox ACTIVE (defaultConfig true false)))).1
      = true
      <-> status (sampleMailbox ACTIVE (defaultConfig true false)) = ACTIVE
          /\ exists cfg,
               sendingConfig (sampleMailbox ACTIVE (defaultConfig true false))
               = Some cfg
               /\ warmupEnabled cfg = true).
Proof.
  split; [reflexivity|].
  apply (C3_warmup 0
           (mailboxesOf (sampleMailbox ACTIVE (defaultConfig true false)))
           "mb-1" (sampleMailbox ACTIVE (defaultConfig true false))).
  reflexivity.
Defined.

(** A mailbox in warming_up with warmup enabled is refused; an active one
    is accepted, gets the rate 60 and becomes warming_up. *)
Lemma C3_warming_up_refused :
  warmupMailbox 0 "mb-1"
    (mailboxesOf (sampleMailbox WARMING_UP (defaultConfig true false)))
  = (Throw (BadRequestException "Only active mailboxes can be warmed up"),
     mailboxesOf (sampleMailbox WARMING_UP (defaultConfig true false)))
  /\ exists m' cfg',
       (warmupMailbox 0 "mb-1"
          (mailboxesOf (sampleMailbox ACTIVE (defaultConfig true false)))).1
       = Ok m'
       /\ status m' = WARMING_UP
       /\ sendingConfig m' = Some cfg'
       /\ currentWarmupRate cfg' = 60.
Proof.
  split.
  - unfold warmupMailbox, findById; unfold bind, findOne, mailboxesOf.
    rewrite lookup_singleton_eq. reflexivity.
  - eexists _, _. split.
    + unfold warmupMailbox, findById; unfold bind, findOne, update, mailboxesOf.
      rewrite lookup_singleton_eq. vm_compute. reflexivity.
    + repeat split.
Qed.

End WarmupSamples.

(** ** Rate limiting *)

Section Admission.
Import RateLimiting Windows.

Lemma matches_found (user ep : string) (ws : Z) (table : Table) i usage :
  list_find (matches user ep ws) table = Some (i, usage) ->
  table !! i = Some usage
  /\ userId usage = user /\ endpoint usage = ep /\ timestamp usage = ws.
Proof.
  intros H. apply (list_find_Some (matches user ep ws)) in H.
  destruct H as (Hi & (Hu & He & Ht) & _). auto.
Qed.

(** A call that finds a row leaves the table as it was; a call that finds
    none appends its row.  Either way the answer is [true]. *)
Lemma check_effect (now : Z) (user ep : string) (limit windowMs : Z)
    (table : Table) :
  (checkRateLimit now user ep limit windowMs table).1 = Ok true
  /\ ((checkRateLimit now user ep limit windowMs table).2 = table
      \/ (checkRateLimit now user ep limit windowMs table).2
         = table ++ [{| userId := user; endpoint := ep; timestamp := now |}]).
Proof.
  unfold checkRateLimit.
  destruct (list_find (matches user ep (now - windowMs)) table)
    as [[i found]|] eqn:Ef; cbn [loaded count atLeast fst snd].
  - split; [reflexivity|]. left. apply matches_found in Ef.
    destruct Ef as [Hi _]. apply list_insert_id. exact Hi.
  - split; [reflexivity|]. right. reflexivity.
Qed.

(** C1: the limit is never enforced.  [checkRateLimit] compares
    [usage.count] with the limit and increments it, but [count] is no
    column of the usage entity: the object read back has no [count], the
    comparison with the limit is false and the increment is not stored, so
    every call is answered [true], whatever the limit and the table.  The
    row a first call writes is stamped with the current time while the
    lookup asks for a row stamped exactly one window length earlier: of
    fifteen calls of one identity within fifteen seconds, for the minute
    window with the ceiling 10, none finds a row, every one is admitted
    and writes a row of its own. *)
Theorem C1_every_call_admitted :
  (forall now user ep limit windowMs table,
     (checkRateLimit now user ep limit windowMs table).1 = Ok true)
  /\ answers (fun _ _ => 10) burst [] = replicate 15 (Ok true)
  /\ run (fun _ _ => 10) burst [] = rowOf <$> burst
  /\ length (run (fun _ _ => 10) burst []) = 15%nat.
Proof.
  split; [intros; apply check_effect|].
  split; [|split]; vm_compute; reflexivity.
Qed.

End Admission.

(** * Further properties *)

(** ** Campaign operations *)

Section CampaignOperations.
Import Campaigns Lifecycle CampaignAdmin Sequences.

Variables (now : Z) (lists : gmap string ContactList).
Variables (repo : gmap string Campaign) (cid orgId : string) (c : Campaign).

Lemma set_status_same : set_status (status c) c = c.
Proof. destruct c; reflexivity. Qed.

Lemma findById_foreign :
  repo !! cid = None \/ (repo !! cid = Some c /\ organizationId c <> orgId) ->
  findById cid orgId repo
  = (Throw (NotFoundException "Campaign not found"), repo).
Proof.
  intros H. unfold findById; unfold bind, findOne, ret, throw.
  destruct H as [H|[H Ho]]; rewrite H; [reflexivity|].
  rewrite bool_decide_eq_false_2 by exact Ho. reflexivity.
Qed.

(** Pausing an active campaign and resuming it gives back the campaign and
    the repository as they were. *)
Theorem pause_then_resume :
  repo !! cid = Some c -> organizationId c = orgId -> status c = ACTIVE ->
  pauseCampaign cid orgId repo
  = (Ok (set_status PAUSED c), <[cid := set_status PAUSED c]> repo)
  /\ resumeCampaign cid orgId (<[cid := set_status PAUSED c]> repo)
     = (Ok c, repo).
Proof.
  intros Hst Ho Hs. split.
  - unfold pauseCampaign, bind.
    rewrite (findById_stored repo cid orgId c Hst Ho).
    unfold canPause. rewrite Hs. reflexivity.
  - unfold resumeCampaign, bind.
    rewrite (findById_stored (<[cid := set_status PAUSED c]> repo) cid orgId
               (set_status PAUSED c));
      [| apply lookup_insert_eq | exact Ho].
    unfold canResume. cbn [status set_status]. cbn [negb].
    rewrite bool_decide_eq_true_2 by reflexivity. cbn [negb].
    unfold save. rewrite insert_insert_eq.
    replace (set_status ACTIVE (set_status PAUSED c)) with c.
    + rewrite insert_id by exact Hst. reflexivity.
    + rewrite <- Hs. destruct c; reflexivity.
Qed.

(** A campaign that is missing, or that belongs to another organization, is
    not found by any operation, and nothing is written. *)
Theorem foreign_campaign_not_found :
  repo !! cid = None \/ (repo !! cid = Some c /\ organizationId c <> orgId) ->
  (forall request,
     handle now lists request cid orgId repo
     = (Throw (NotFoundException "Campaign not found"), repo))
  /\ deleteCampaign cid orgId repo
     = (Throw (NotFoundException "Campaign not found"), repo).
Proof.
  intros H. pose proof (findById_foreign H) as E. split.
  - intros request. destruct request; simpl;
      unfold updateCampaign, startCampaign, pauseCampaign, resumeCampaign,
        cancelCampaign, bind; rewrite E; reflexivity.
  - unfold deleteCampaign, bind. rewrite E. reflexivity.
Qed.

(** [deleteCampaign] refuses an active campaign and removes any other one:
    afterwards the campaign is not found by any operation, and the other
    rows are as they were. *)
Theorem delete_campaign :
  repo !! cid = Some c -> organizationId c = orgId ->
  (status c = ACTIVE ->
   deleteCampaign cid orgId repo
   = (Throw (BadRequestException "Cannot delete active campaign"), repo))
  /\ (status c <> ACTIVE ->
      deleteCampaign cid orgId repo = (Ok tt, delete cid repo)
      /\ (forall request,
            handle now lists request cid orgId (delete cid repo)
            = (Throw (NotFoundException "Campaign not found"),
               delete cid repo))
      /\ (forall k, k <> cid -> delete cid repo !! k = repo !! k)).
Proof.
  intros Hst Ho. split.
  - intros Hs. unfold deleteCampaign, bind.
    rewrite (findById_stored repo cid orgId c Hst Ho), Hs. reflexivity.
  - intros Hs. split; [|split].
    + unfold deleteCampaign, bind.
      rewrite (findById_stored repo cid orgId c Hst Ho).
      rewrite bool_decide_eq_false_2 by exact Hs. reflexivity.
    + intros request. destruct request; simpl;
        unfold updateCampaign, startCampaign, pauseCampaign, resumeCampaign,
          cancelCampaign, findById; unfold bind, findOne, throw;
        rewrite lookup_delete_eq; reflexivity.
    + intros k Hk. apply lookup_delete_ne. congruence.
Qed.

(** In a terminal status no sequence of start, pause, resume and cancel
    requests changes anything, and for a completed campaign no sequence of
    requests at all does. *)
Theorem terminal_status_is_kept (requests : list Request) :
  repo !! cid = Some c -> organizationId c = orgId ->
  (terminal (status c) = true ->
   Forall (fun request => guarded request = true) requests ->
   after now lists requests cid orgId repo = repo)
  /\ (status c = COMPLETED ->
      after now lists requests cid orgId repo = repo).
Proof.
  intros Hst Ho. unfold after. split.
  - intros Ht Hg. induction Hg as [|request requests Hr _ IH]; [reflexivity|].
    cbn [fold_left].
    destruct (guarded_rejected now lists repo cid orgId c Hst Ho request Hr)
      as [msg E].
    { destruct request; simpl in Hr; try discriminate;
        destruct (status c); simpl in Ht; try discriminate; reflexivity. }
    rewrite E. exact IH.
  - intros Hs. induction requests as [|request requests IH]; [reflexivity|].
    cbn [fold_left].
    assert (E : exists msg,
               handle now lists request cid orgId repo
               = (Throw (BadRequestException msg), repo)).
    { destruct request as [dto| | | |].
      - eexists. simpl.
        apply (update_refused_completed repo cid orgId c Hst Ho dto Hs).
      - apply (guarded_rejected now lists repo cid orgId c Hst Ho);
          [reflexivity | rewrite Hs; reflexivity].
      - apply (guarded_rejected now lists repo cid orgId c Hst Ho);
          [reflexivity | rewrite Hs; reflexivity].
      - apply (guarded_rejected now lists repo cid orgId c Hst Ho);
          [reflexivity | rewrite Hs; reflexivity].
      - apply (guarded_rejected now lists repo cid orgId c Hst Ho);
          [reflexivity | rewrite Hs; reflexivity]. }
    destruct E as [msg E]. rewrite E. exact IH.
Qed.

Lemma sum_lists_listed (ids : list string) (acc : Z) :
  fold_left
    (fun acc listId =>
       match lists !! listId with
       | Some contactList => acc + l_totalContacts contactList
       | None => acc
       end)
    ids acc
  = acc + foldr (fun listId sum =>
                   sum + from_option l_totalContacts 0 (lists !! listId))
            0 ids.
Proof.
  revert acc. induction ids as [|k ids IH]; intros acc; cbn [fold_left foldr].
  - lia.
  - rewrite IH. destruct (lists !! k); cbn [from_option]; lia.
Qed.

(** The target contact count never exceeds a cap that is set (not 0), nor
    the sum of the targeted lists' totals; with filters it is at most four
    fifths of that sum.  A started campaign carries this count as its
    [totalContacts]. *)
Theorem target_count_bounds (t : Targeting) :
  targeting c = Some t ->
  (forall cap, maxContacts t = Some cap -> cap <> 0 ->
     calculateTotalContacts lists c <= cap)
  /\ (filters t = None \/ filters t = Some [] ->
      calculateTotalContacts lists c <= listed lists t)
  /\ (forall f fs, filters t = Some (f :: fs) ->
        5 * calculateTotalContacts lists c <= 4 * listed lists t)
  /\ (forall c' p, repo !! cid = Some c -> organizationId c = orgId ->
        startCampaign now lists cid orgId repo = (Ok c', <[cid := c']> repo) ->
        progress c' = Some p ->
        totalContacts p = calculateTotalContacts lists c).
Proof.
  intros Ht. unfold calculateTotalContacts, listed. rewrite Ht.
  rewrite sum_lists_listed, Z.add_0_l.
  set (L := foldr _ 0 (contactListIds t)).
  assert (Hcap : forall base,
             match maxContacts t with
             | Some m => if negb (m =? 0) && (m <? base) then m else base
             | None => base
             end <= base).
  { intros base. destruct (maxContacts t) as [m|]; [|lia].
    destruct (negb (m =? 0) && (m <? base)) eqn:E; [|lia].
    apply andb_true_iff in E. destruct E as [_ E]. apply Z.ltb_lt in E. lia. }
  split; [|split; [|split]].
  - intros cap Hc Hnz. rewrite Hc.
    apply Z.eqb_neq in Hnz. rewrite Hnz. cbn [negb andb].
    destruct (cap <? _) eqn:E; [lia|]. apply Z.ltb_ge in E. exact E.
  - intros [Hf|Hf]; rewrite Hf; apply Hcap.
  - intros f fs Hf. rewrite Hf.
    pose proof (Hcap ((L * 4) `div` 5)) as H.
    pose proof (Z.mul_div_le (L * 4) 5 ltac:(lia)) as Hd. lia.
  - intros c' p Hst Ho E Hp.
    destruct (canStart c) eqn:Hs.
    + destruct (Z.eq_dec (calculateTotalContacts lists c) 0) as [Hz|Hz].
      * destruct (start_rejected now lists repo cid orgId c Hst Ho
                    (or_intror Hz)) as [msg E']. congruence.
      * rewrite (start_accepted now lists repo cid orgId c Hst Ho Hs Hz) in E.
        injection E as Hc' _. rewrite <- Hc' in Hp. cbn in Hp.
        injection Hp as Hp. rewrite <- Hp. cbn [totalContacts snapshot].
        unfold calculateTotalContacts. rewrite Ht.
        rewrite sum_lists_listed, Z.add_0_l. reflexivity.
    + destruct (start_rejected now lists repo cid orgId c Hst Ho
                  (or_introl Hs)) as [msg E']. congruence.
Qed.

End CampaignOperations.

Section CampaignFigures.
Import Campaigns Lifecycle CampaignAdmin Sequences Counting.

Lemma occurrences_cons `{EqDecision A} (x y : A) (l : list A) :
  occurrences x (y :: l)
  = (if decide (y = x) then 1 else 0) + occurrences x l.
Proof.
  unfold occurrences. rewrite filter_cons.
  destruct (decide (y = x)); cbn [length]; lia.
Qed.

Lemma occurrences_nil `{EqDecision A} (x : A) : occurrences x [] = 0.
Proof. reflexivity. Qed.

Lemma tally_fold (l : list CampaignStatus) (init : CampaignStats) :
  n_total (fold_left tally l init) = n_total init
  /\ n_draft (fold_left tally l init) = n_draft init + occurrences DRAFT l
  /\ n_scheduled (fold_left tally l init)
     = n_scheduled init + occurrences SCHEDULED l
  /\ n_active (fold_left tally l init) = n_active init + occurrences ACTIVE l
  /\ n_paused (fold_left tally l init) = n_paused init + occurrences PAUSED l
  /\ n_completed (fold_left tally l init)
     = n_completed init + occurrences COMPLETED l
  /\ n_cancelled (fold_left tally l init)
     = n_cancelled init + occurrences CANCELLED l
  /\ n_failed (fold_left tally l init) = n_failed init + occurrences FAILED l.
Proof.
  revert init. induction l as [|s l IH]; intros init.
  - cbn [fold_left]. rewrite !occurrences_nil. repeat split; lia.
  - cbn [fold_left]. specialize (IH (tally init s)).
    rewrite !occurrences_cons.
    destruct IH as (H0 & H1 & H2 & H3 & H4 & H5 & H6 & H7).
    rewrite H0, H1, H2, H3, H4, H5, H6, H7.
    destruct s;
      cbn [tally n_total n_draft n_scheduled n_active n_paused n_completed
           n_cancelled n_failed];
      repeat (case_decide; try congruence); repeat split; lia.
Qed.

Lemma statuses_partition (l : list CampaignStatus) :
  Z.of_nat (length l)
  = occurrences DRAFT l + occurrences SCHEDULED l + occurrences ACTIVE l
    + occurrences PAUSED l + occurrences COMPLETED l
    + occurrences CANCELLED l + occurrences FAILED l.
Proof.
  induction l as [|s l IH]; [reflexivity|].
  rewrite !occurrences_cons. cbn [length].
  destruct s; repeat (case_decide; try congruence); lia.
Qed.

Lemma statusesOf_elem (orgId : string) (repo : gmap string Campaign)
    (s : CampaignStatus) :
  s ∈ statusesOf orgId repo
  <-> exists k c, repo !! k = Some c /\ organizationId c = orgId
                  /\ status c = s.
Proof.
  unfold statusesOf. rewrite list_elem_of_fmap. split.
  - intros (c & -> & Hc). apply list_elem_of_filter in Hc.
    destruct Hc as [Ho Hc]. apply list_elem_of_fmap in Hc.
    destruct Hc as ([k c'] & -> & Hkc). apply elem_of_map_to_list in Hkc.
    eauto.
  - intros (k & c & Hk & Ho & Hs). exists c. split; [auto|].
    apply list_elem_of_filter. split; [exact Ho|].
    apply list_elem_of_fmap. exists (k, c). split; [reflexivity|].
    apply elem_of_map_to_list, Hk.
Qed.

(** [getCampaignStats] counts each campaign of the organization once: every
    counter is the number of its campaigns in that status, the seven
    counters add up to [total], a status no campaign of the organization has
    is counted 0, and campaigns of other organizations are not counted. *)
Theorem campaign_stats_partition (orgId : string)
    (repo : gmap string Campaign) :
  n_total (getCampaignStats orgId repo)
  = n_draft (getCampaignStats orgId repo)
    + n_scheduled (getCampaignStats orgId repo)
    + n_active (getCampaignStats orgId repo)
    + n_paused (getCampaignStats orgId repo)
    + n_completed (getCampaignStats orgId repo)
    + n_cancelled (getCampaignStats orgId repo)
    + n_failed (getCampaignStats orgId repo)
  /\ n_draft (getCampaignStats orgId repo)
     = occurrences DRAFT (statusesOf orgId repo)
  /\ n_scheduled (getCampaignStats orgId repo)
     = occurrences SCHEDULED (statusesOf orgId repo)
  /\ n_active (getCampaignStats orgId repo)
     = occurrences ACTIVE (statusesOf orgId repo)
  /\ n_paused (getCampaignStats orgId repo)
     = occurrences PAUSED (statusesOf orgId repo)
  /\ n_completed (getCampaignStats orgId repo)
     = occurrences COMPLETED (statusesOf orgId repo)
  /\ n_cancelled (getCampaignStats orgId repo)
     = occurrences CANCELLED (statusesOf orgId repo)
  /\ n_failed (getCampaignStats orgId repo)
     = occurrences FAILED (statusesOf orgId repo)
  /\ (forall s, s ∈ statusesOf orgId repo
                <-> exists k c, repo !! k = Some c
                                /\ organizationId c = orgId /\ status c = s)
  /\ ((forall k c, repo !! k = Some c -> organizationId c <> orgId) ->
      n_total (getCampaignStats orgId repo) = 0).
Proof.
  unfold getCampaignStats.
  destruct (tally_fold (statusesOf orgId repo)
              {| n_total := Z.of_nat (length (statusesOf orgId repo));
                 n_draft := 0; n_scheduled := 0; n_active := 0;
                 n_paused := 0; n_completed := 0; n_cancelled := 0;
                 n_failed := 0 |})
    as (H0 & H1 & H2 & H3 & H4 & H5 & H6 & H7).
  cbn in H0, H1, H2, H3, H4, H5, H6, H7.
  rewrite H0, H1, H2, H3, H4, H5, H6, H7.
  split; [apply statuses_partition|]. repeat split; try reflexivity.
  - apply statusesOf_elem.
  - apply statusesOf_elem.
  - intros Hnone. destruct (statusesOf orgId repo) as [|s l] eqn:E;
      [reflexivity|].
    exfalso. assert (Hs : s ∈ statusesOf orgId repo)
      by (rewrite E; apply list_elem_of_here).
    apply statusesOf_elem in Hs. destruct Hs as (k & c & Hk & Ho & _).
    exact (Hnone k c Hk Ho).
Qed.

Lemma percentage_of (c : Campaign) (p : Progress) :
  progress c = Some p -> totalContacts p <> 0 ->
  progressPercentage c
  = (inject_Z (processedContacts p) / inject_Z (totalContacts p) * 100)%Q.
Proof.
  intros Hp Hz. unfold progressPercentage. rewrite Hp.
  apply Z.eqb_neq in Hz. rewrite Hz. reflexivity.
Qed.

(** With [0 <= processedContacts <= totalContacts] and a total that is not
    0, [progressPercentage] lies between 0 and 100 and is 100 exactly when
    every contact is processed; a campaign that has just been started stands
    at 0. *)
Theorem progress_percentage_range (c : Campaign) (p : Progress) :
  progress c = Some p ->
  0 <= processedContacts p <= totalContacts p -> totalContacts p <> 0 ->
  (0 <= progressPercentage c <= 100)%Q
  /\ ((progressPercentage c == 100)%Q
      <-> processedContacts p = totalContacts p)
  /\ (forall now, (progressPercentage (started now (totalContacts p) c) == 0)%Q).
Proof.
  intros Hp [H0 H1] Hz. rewrite (percentage_of c p Hp Hz).
  assert (Hpos : (0 < inject_Z (totalContacts p))%Q).
  { rewrite <- (Zlt_Qlt 0). lia. }
  assert (Hle : (inject_Z (processedContacts p) <= inject_Z (totalContacts p))%Q).
  { rewrite <- Zle_Qle. exact H1. }
  assert (Hge : (0 <= inject_Z (processedContacts p))%Q).
  { rewrite <- (Zle_Qle 0). exact H0. }
  set (a := inject_Z (processedContacts p)) in *.
  set (b := inject_Z (totalContacts p)) in *.
  assert (Hdiv : (a / b * b == a)%Q).
  { field. intros E. rewrite E in Hpos. apply (Qlt_irrefl 0), Hpos. }
  assert (Hq0 : (0 <= a / b)%Q).
  { apply Qle_shift_div_l; [exact Hpos|]. lra. }
  assert (Hq1 : (a / b <= 1)%Q).
  { apply Qle_shift_div_r; [exact Hpos|]. lra. }
  split; [split; lra|]. split.
  - split.
    + intros E. assert (Hab : (a == b)%Q).
      { assert (E1 : (a / b == 1)%Q) by lra. rewrite <- Hdiv, E1. ring. }
      subst a b. unfold Qeq in Hab. simpl in Hab. lia.
    + intros E. subst a b. rewrite E.
      assert (E1 : (inject_Z (totalContacts p) / inject_Z (totalContacts p)
                    == 1)%Q).
      { field. intros E'. rewrite E' in Hpos. apply (Qlt_irrefl 0), Hpos. }
      rewrite E1. reflexivity.
  - intros now. unfold progressPercentage, started.
    cbn [progress set_progress snapshot totalContacts processedContacts].
    apply Z.eqb_neq in Hz. rewrite Hz. unfold Qdiv. change (inject_Z 0) with 0%Q.
    ring.
Qed.

(** With a positive hourly rate, [estimatedTimeRemaining] is the least whole
    number of hours in which the contacts still to process fit. *)
Theorem estimated_time_is_least (c : Campaign) (p : Progress)
    (emailsPerHour : Z) :
  progress c = Some p -> 0 < emailsPerHour ->
  exists hours,
    estimatedTimeRemaining c (Some emailsPerHour) = Some hours
    /\ (hours - 1) * emailsPerHour
       < totalContacts p - processedContacts p
       <= hours * emailsPerHour.
Proof.
  intros Hp Hh. unfold estimatedTimeRemaining. rewrite Hp.
  assert (Hz : (emailsPerHour =? 0) = false) by (apply Z.eqb_neq; lia).
  rewrite Hz. eexists. split; [reflexivity|].
  set (R := totalContacts p - processedContacts p).
  pose proof (Qle_ceiling (inject_Z R / inject_Z emailsPerHour)) as Hle.
  pose proof (Qceiling_lt (inject_Z R / inject_Z emailsPerHour)) as Hlt.
  set (n := Qceiling (inject_Z R / inject_Z emailsPerHour)) in *.
  assert (Hpos : (0 < inject_Z emailsPerHour)%Q).
  { rewrite <- (Zlt_Qlt 0). exact Hh. }
  assert (Hd : (inject_Z R / inject_Z emailsPerHour * inject_Z emailsPerHour
                == inject_Z R)%Q).
  { field. intros E. rewrite E in Hpos. apply (Qlt_irrefl 0), Hpos. }
  split.
  - apply (Qmult_lt_compat_r _ _ _ Hpos) in Hlt.
    rewrite Hd, <- inject_Z_mult, <- Zlt_Qlt in Hlt. exact Hlt.
  - apply (Qmult_le_compat_r _ _ (inject_Z emailsPerHour)) in Hle;
      [|apply Qlt_le_weak, Hpos].
    rewrite Hd, <- inject_Z_mult, <- Zle_Qle in Hle. exact Hle.
Qed.

End CampaignFigures.

Section CampaignOperationSamples.
Import Campaigns Lifecycle CampaignAdmin Sequences Stores Samples.

Lemma pause_then_resume_witness :
  repoOf (sampleCampaign ACTIVE (Some oneList)) !! "c-1"
  = Some (sampleCampaign ACTIVE (Some oneList))
  /\ resumeCampaign "c-1" "org-1"
       (<["c-1" := set_status PAUSED (sampleCampaign ACTIVE (Some oneList))]>
          (repoOf (sampleCampaign ACTIVE (Some oneList))))
     = (Ok (sampleCampaign ACTIVE (Some oneList)),
        repoOf (sampleCampaign ACTIVE (Some oneList))).
Proof.
  split; [reflexivity|].
  apply (pause_then_resume (repoOf (sampleCampaign ACTIVE (Some oneList)))
           "c-1" "org-1" (sampleCampaign ACTIVE (Some oneList)));
    reflexivity.
Defined.

Lemma foreign_campaign_not_found_witness :
  repoOf (sampleCampaign DRAFT (Some oneList)) !! "c-1"
  = Some (sampleCampaign DRAFT (Some oneList))
  /\ organizationId (sampleCampaign DRAFT (Some oneList)) <> "org-2"
  /\ deleteCampaign "c-1" "org-2" (repoOf (sampleCampaign DRAFT (Some oneList)))
     = (Throw (NotFoundException "Campaign not found"),
        repoOf (sampleCampaign DRAFT (Some oneList))).
Proof.
  assert (Hst : repoOf (sampleCampaign DRAFT (Some oneList)) !! "c-1"
                = Some (sampleCampaign DRAFT (Some oneList))) by reflexivity.
  assert (Ho : organizationId (sampleCampaign DRAFT (Some oneList)) <> "org-2")
    by (vm_compute; discriminate).
  split; [exact Hst|]. split; [exact Ho|].
  apply (foreign_campaign_not_found 0 sampleLists
           (repoOf (sampleCampaign DRAFT (Some oneList))) "c-1" "org-2"
           (sampleCampaign DRAFT (Some oneList))).
  right. split; [exact Hst | exact Ho].
Defined.

Lemma delete_campaign_witness :
  repoOf (sampleCampaign PAUSED (Some oneList)) !! "c-1"
  = Some (sampleCampaign PAUSED (Some oneList))
  /\ status (sampleCampaign PAUSED (Some oneList)) <> ACTIVE
  /\ deleteCampaign "c-1" "org-1" (repoOf (sampleCampaign PAUSED (Some oneList)))
     = (Ok tt, delete "c-1" (repoOf (sampleCampaign PAUSED (Some oneList)))).
Proof.
  assert (Hs : status (sampleCampaign PAUSED (Some oneList)) <> ACTIVE)
    by discriminate.
  split; [reflexivity|]. split; [exact Hs|].
  destruct (delete_campaign 0 sampleLists
              (repoOf (sampleCampaign PAUSED (Some oneList))) "c-1" "org-1"
              (sampleCampaign PAUSED (Some oneList)) eq_refl eq_refl)
    as [_ H].
  apply (H Hs).
Defined.

Lemma terminal_status_is_kept_witness :
  repoOf (sampleCampaign CANCELLED (Some oneList)) !! "c-1"
  = Some (sampleCampaign CANCELLED (Some oneList))
  /\ terminal (status (sampleCampaign CANCELLED (Some oneList))) = true
  /\ after 0 sampleLists [ReqStart; ReqResume; ReqCancel; ReqPause] "c-1"
       "org-1" (repoOf (sampleCampaign CANCELLED (Some oneList)))
     = repoOf (sampleCampaign CANCELLED (Some oneList)).
Proof.
  split; [reflexivity|]. split; [reflexivity|].
  destruct (terminal_status_is_kept 0 sampleLists
              (repoOf (sampleCampaign CANCELLED (Some oneList))) "c-1" "org-1"
              (sampleCampaign CANCELLED (Some oneList))
              [ReqStart; ReqResume; ReqCancel; ReqPause] eq_refl eq_refl)
    as [H _].
  apply H; [reflexivity|]. repeat constructor.
Defined.

Lemma target_count_bounds_witness :
  targeting (sampleCampaign DRAFT (Some cappedList)) = Some cappedList
  /\ maxContacts cappedList = Some 300
  /\ calculateTotalContacts sampleLists (sampleCampaign DRAFT (Some cappedList))
     <= 300
  /\ 5 * calculateTotalContacts sampleLists
           (sampleCampaign DRAFT (Some cappedList))
     <= 4 * listed sampleLists cappedList.
Proof.
  destruct (target_count_bounds 0 sampleLists
              (repoOf (sampleCampaign DRAFT (Some cappedList))) "c-1" "org-1"
              (sampleCampaign DRAFT (Some cappedList)) cappedList eq_refl)
    as (Hcap & _ & Hf & _).
  split; [reflexivity|]. split; [reflexivity|]. split.
  - apply (Hcap 300); [reflexivity | lia].
  - apply (Hf _ _ eq_refl).
Defined.

Lemma progress_percentage_range_witness :
  (exists p, progress quarterDone = Some p
             /\ 0 <= processedContacts p <= totalContacts p
             /\ totalContacts p <> 0)
  /\ (0 <= progressPercentage quarterDone <= 100)%Q.
Proof.
  split.
  - eexists. split; [reflexivity|]. cbn. lia.
  - apply (progress_percentage_range quarterDone
             {| totalContacts := 500; processedContacts := 125;
                sentEmails := Some 120; failedEmails := Some 5;
                bouncedEmails := Some 0; unsubscribedEmails := Some 0;
                repliedEmails := Some 0; openedEmails := Some 0;
                clickedEmails := Some 0 |});
      [reflexivity | cbn; lia | cbn; lia].
Defined.

Lemma estimated_time_is_least_witness :
  0 < 100
  /\ exists hours,
       estimatedTimeRemaining quarterDone (Some 100) = Some hours
       /\ (hours - 1) * 100 < 500 - 125 <= hours * 100.
Proof.
  split; [lia|].
  apply (estimated_time_is_least quarterDone
           {| totalContacts := 500; processedContacts := 125;
              sentEmails := Some 120; failedEmails := Some 5;
              bouncedEmails := Some 0; unsubscribedEmails := Some 0;
              repliedEmails := Some 0; openedEmails := Some 0;
              clickedEmails := Some 0 |} 100);
    [reflexivity | lia].
Defined.

End CampaignOperationSamples.

(** ** Experiments: tracking, status and winner *)

Section ExperimentFigures.
Import Campaigns AbTesting Experiments Outcomes.

Lemma total_sum (f : Performance -> Z) (vs : list Variant) (a : Z) :
  fold_left (fun sum v => sum + f (perf v)) vs a
  = a + foldr (fun v sum => f (perf v) + sum) 0 vs.
Proof.
  revert a. induction vs as [|v vs IH]; intros a; cbn [fold_left foldr];
    [lia | rewrite IH; lia].
Qed.

Lemma total_insert (f : Performance -> Z) (vs : list Variant) (i : nat)
    (v v' : Variant) :
  vs !! i = Some v ->
  total f (<[i := v']> vs) = total f vs - f (perf v) + f (perf v').
Proof.
  unfold total. rewrite !total_sum, !Z.add_0_l.
  revert i. induction vs as [|v0 vs IH]; intros i Hi; [discriminate|].
  destruct i as [|i]; cbn [foldr].
  - injection Hi as ->. change (<[0%nat := v']> (v :: vs)) with (v' :: vs).
    cbn [foldr]. lia.
  - cbn in Hi. change (<[S i := v']> (v0 :: vs)) with (v0 :: <[i := v']> vs).
    cbn [foldr]. rewrite (IH i Hi). lia.
Qed.

Lemma status_of (repo : gmap string Campaign) (cid : string) (c : Campaign)
    (ab : AbTesting) :
  enabledTest (repo !! cid) = Some (c, ab) ->
  exists st,
    getAbTestStatus cid repo = (Ok (Some st), repo)
    /\ st_totalSent st = total sent (variants ab)
    /\ st_totalOpened st = total opened (variants ab)
    /\ st_totalClicked st = total clicked (variants ab)
    /\ st_totalReplied st = total replied (variants ab)
    /\ st_testSize st = testSize ab
    /\ st_winnerSelected st = winnerSelected ab
    /\ st_variants st = variants ab
    /\ st_isComplete st = (testSize ab <=? total sent (variants ab))
    /\ st_canSelectWinner st
       = (testSize ab <=? total sent (variants ab))
         && negb (truthy (winnerSelected ab)).
Proof.
  intros E. unfold getAbTestStatus; unfold bind, findOne, ret. rewrite E.
  eexists. split; [reflexivity|]. repeat split.
Qed.

Lemma enabledTest_saved (repo : gmap string Campaign) (cid : string)
    (c : Campaign) (ab ab' : AbTesting) :
  enabledTest (repo !! cid) = Some (c, ab) ->
  enabled ab' = enabled ab ->
  enabledTest (<[cid := set_abTesting (Some ab') c]> repo !! cid)
  = Some (set_abTesting (Some ab') c, ab').
Proof.
  intros E He. rewrite lookup_insert_eq. unfold enabledTest.
  cbn [abTesting set_abTesting].
  apply enabledTest_stored in E. destruct E as (_ & _ & Een).
  rewrite He, Een. reflexivity.
Qed.

(** One tracked event for a known variant raises the total the status
    reports for that event by exactly one and leaves the other totals, the
    test size and the winner as they were; an experiment that was complete
    stays complete. *)
Theorem tracking_raises_status_totals (repo : gmap string Campaign)
    (cid vid eid : string) (event : TrackEvent) (c : Campaign)
    (ab : AbTesting) (i : nat) (v : Variant) :
  enabledTest (repo !! cid) = Some (c, ab) ->
  findVariant vid (variants ab) = Some (i, v) ->
  exists before after,
    (getAbTestStatus cid repo).1 = Ok (Some before)
    /\ (getAbTestStatus cid
          (trackVariantPerformance cid vid eid event repo).2).1
       = Ok (Some after)
    /\ st_totalSent after = st_totalSent before + share event ev_sent
    /\ st_totalOpened after = st_totalOpened before + share event ev_opened
    /\ st_totalClicked after = st_totalClicked before + share event ev_clicked
    /\ st_totalReplied after = st_totalReplied before + share event ev_replied
    /\ st_testSize after = st_testSize before
    /\ st_winnerSelected after = st_winnerSelected before
    /\ (st_isComplete before = true -> st_isComplete after = true).
Proof.
  intros Een Efv.
  destruct (status_of repo cid c ab Een)
    as (before & Eb & Bs & Bo & Bc & Br & Bt & Bw & _ & Bi & _).
  assert (Erepo : (trackVariantPerformance cid vid eid event repo).2
                  = <[cid := set_abTesting
                               (Some (set_variants
                                        (<[i := track event v]> (variants ab))
                                        ab)) c]> repo).
  { unfold trackVariantPerformance; unfold bind, findOne, save, ret.
    rewrite Een, Efv. reflexivity. }
  rewrite Erepo. clear Erepo.
  destruct (status_of _ cid _ _
              (enabledTest_saved repo cid c ab
                 (set_variants (<[i := track event v]> (variants ab)) ab)
                 Een eq_refl))
    as (after & Ea & As & Ao & Ac & Ar & At & Aw & _ & Ai & _).
  apply (proj1 (findVariant_Some _ _ _ _)) in Efv. destruct Efv as (Hi & _).
  cbn [variants set_variants testSize winnerSelected] in As, Ao, Ac, Ar, At,
    Aw, Ai.
  rewrite (total_insert sent _ _ _ _ Hi) in As, Ai.
  rewrite (total_insert opened _ _ _ _ Hi) in Ao.
  rewrite (total_insert clicked _ _ _ _ Hi) in Ac.
  rewrite (total_insert replied _ _ _ _ Hi) in Ar.
  exists before, after. rewrite Eb, Ea.
  assert (Hs : sent (perf (track event v)) = sent (perf v) + share event ev_sent)
    by (unfold perf, track; destruct event, (performance v); cbn; lia).
  assert (Ho : opened (perf (track event v))
               = opened (perf v) + share event ev_opened)
    by (unfold perf, track; destruct event, (performance v); cbn; lia).
  assert (Hc : clicked (perf (track event v))
               = clicked (perf v) + share event ev_clicked)
    by (unfold perf, track; destruct event, (performance v); cbn; lia).
  assert (Hr : replied (perf (track event v))
               = replied (perf v) + share event ev_replied)
    by (unfold perf, track; destruct event, (performance v); cbn; lia).
  repeat split; try lia; try congruence.
  rewrite Bi, Ai, !Z.leb_le. intros H.
  assert (0 <= share event ev_sent) by (unfold perf, track; destruct event, (performance v); cbn; lia). lia.
Qed.

Lemma applyWinner_keys (vc : VariantConfig) (g : option CampaignConfig) :
  key subject (applyWinner vc g) = promoted (v_subject vc) (key subject g)
  /\ key htmlContent (applyWinner vc g)
     = promoted (v_htmlContent vc) (key htmlContent g)
  /\ key textContent (applyWinner vc g)
     = promoted (v_textContent vc) (key textContent g)
  /\ key fromName (applyWinner vc g)
     = promoted (v_fromName vc) (key fromName g)
  /\ key fromEmail (applyWinner vc g)
     = promoted (v_fromEmail vc) (key fromEmail g)
  /\ key replyTo (applyWinner vc g) = key replyTo g.
Proof.
  unfold applyWinner, promoted, key.
  destruct (truthy (v_subject vc)), (truthy (v_htmlContent vc)),
    (truthy (v_textContent vc)), (truthy (v_fromName vc)),
    (truthy (v_fromEmail vc)), g as [g|]; repeat split.
Qed.

(** [selectWinner] for a known variant with a non-empty id records it as the
    winner, after which the status reports that no winner can be selected;
    the variants and their counters are untouched.  Of the variant's
    configuration the truthy values of subject, HTML content, text content,
    sender name and sender address replace the campaign's; a missing or
    empty value leaves the campaign's own, and [replyTo] is never
    changed. *)
Theorem select_winner_effect (repo : gmap string Campaign) (cid vid : string)
    (c : Campaign) (ab : AbTesting) (i : nat) (v : Variant) :
  enabledTest (repo !! cid) = Some (c, ab) ->
  findVariant vid (variants ab) = Some (i, v) ->
  vid <> "" ->
  exists c' after,
    selectWinner cid vid repo = (Ok c', <[cid := c']> repo)
    /\ getAbTestStatus cid (<[cid := c']> repo)
       = (Ok (Some after), <[cid := c']> repo)
    /\ st_winnerSelected after = Some vid
    /\ st_canSelectWinner after = false
    /\ st_variants after = variants ab
    /\ key subject (c_config c')
       = promoted (v_subject (config v)) (key subject (c_config c))
    /\ key htmlContent (c_config c')
       = promoted (v_htmlContent (config v)) (key htmlContent (c_config c))
    /\ key textContent (c_config c')
       = promoted (v_textContent (config v)) (key textContent (c_config c))
    /\ key fromName (c_config c')
       = promoted (v_fromName (config v)) (key fromName (c_config c))
    /\ key fromEmail (c_config c')
       = promoted (v_fromEmail (config v)) (key fromEmail (c_config c))
    /\ key replyTo (c_config c') = key replyTo (c_config c).
Proof.
  intros Een Efv Hne.
  set (ab' := set_winnerSelected (Some vid) ab).
  set (c' := set_config (applyWinner (config v) (c_config c))
               (set_abTesting (Some ab') c)).
  assert (Esel : selectWinner cid vid repo = (Ok c', <[cid := c']> repo)).
  { unfold selectWinner; unfold bind, findOne, save. rewrite Een, Efv.
    reflexivity. }
  assert (Een' : enabledTest (<[cid := c']> repo !! cid) = Some (c', ab')).
  { rewrite lookup_insert_eq. unfold enabledTest.
    apply enabledTest_stored in Een. destruct Een as (_ & _ & Een).
    subst c' ab'. cbn. rewrite Een. reflexivity. }
  destruct (status_of _ cid c' ab' Een')
    as (after & Ea & _ & _ & _ & _ & _ & Aw & Av & _ & Ac).
  exists c', after. split; [exact Esel|]. split; [exact Ea|].
  split; [exact Aw|]. split.
  { rewrite Ac. subst ab'. cbn [winnerSelected set_winnerSelected truthy].
    assert (Hn : String.eqb vid "" = false) by (apply String.eqb_neq, Hne).
    rewrite Hn. cbn [negb]. apply andb_false_r. }
  split; [exact Av|].
  subst c'. cbn [c_config set_config]. apply applyWinner_keys.
Qed.

Lemma walk_elem (r acc : float) (vs : list Variant) (x : string) :
  walk r acc vs = Some x -> exists v, v ∈ vs /\ x = id v.
Proof.
  revert acc. induction vs as [|v vs IH]; intros acc; cbn [walk];
    [discriminate|].
  destruct (r <=? acc + weight v)%float.
  - intros H. injection H as <-. exists v. split; [constructor | reflexivity].
  - intros H. destruct (IH _ H) as (u & Hu & ->). exists u.
    split; [constructor; exact Hu | reflexivity].
Qed.

Lemma assign_stored (repo : gmap string Campaign) (rnd : float)
    (cid contact : string) (c : Campaign) (ab : AbTesting) :
  enabledTest (repo !! cid) = Some (c, ab) -> variants ab <> [] ->
  exists v, v ∈ variants ab
            /\ assignVariantToContact rnd cid contact repo = (Ok (id v), repo).
Proof.
  intros Een Hne. unfold assignVariantToContact; unfold bind, findOne, ret, throw.
  rewrite Een. destruct (walk (rnd * 100) 0 (variants ab)) as [x|] eqn:Ew.
  - destruct (walk_elem _ _ _ _ Ew) as (v & Hv & ->). eauto.
  - destruct (variants ab) as [|first rest]; [congruence|].
    exists first. split; [constructor | reflexivity].
Qed.

(** With an enabled experiment that has at least one variant,
    [assignVariantToContact] always returns the id of one of the stored
    variants, whatever the draw and the weights, and writes nothing; with no
    variant at all it fails with a type error. *)
Theorem assignment_is_a_stored_variant (repo : gmap string Campaign)
    (rnd : float) (cid contact : string) (c : Campaign) (ab : AbTesting) :
  enabledTest (repo !! cid) = Some (c, ab) ->
  (variants ab <> [] ->
   exists v, v ∈ variants ab
             /\ assignVariantToContact rnd cid contact repo = (Ok (id v), repo))
  /\ (variants ab = [] ->
      exists msg,
        assignVariantToContact rnd cid contact repo = (Throw (TypeError msg), repo)).
Proof.
  intros Een. split; [apply (assign_stored _ _ _ _ _ _ Een)|].
  intros E. unfold assignVariantToContact; unfold bind, findOne, ret, throw.
  rewrite Een, E. cbn [walk]. eauto.
Qed.

End ExperimentFigures.

Section ExperimentAssignment.
Import Campaigns AbTesting Experiments Outcomes Setup.

Lemma walk_first (r acc : float) (vs : list Variant) (x : string) :
  walk r acc vs = Some x ->
  exists j u, vs !! j = Some u /\ x = id u
              /\ (r <=? cumulativeFrom acc vs j)%float = true
              /\ forall k, (k < j)%nat ->
                           (r <=? cumulativeFrom acc vs k)%float = false.
Proof.
  revert acc. induction vs as [|v vs IH]; intros acc; cbn [walk];
    [discriminate|].
  destruct (r <=? acc + weight v)%float eqn:E.
  - intros H. injection H as <-. exists 0%nat, v.
    rewrite cumulativeFrom_first.
    repeat split; [exact E | intros k Hk; lia].
  - intros H. destruct (IH _ H) as (j & u & Hj & -> & Hle & Hfirst).
    exists (S j), u. rewrite cumulativeFrom_cons.
    repeat split; [exact Hj | exact Hle |].
    intros k Hk. destruct k as [|k].
    + rewrite cumulativeFrom_first. exact E.
    + rewrite cumulativeFrom_cons. apply Hfirst. lia.
Qed.

Lemma cumulativeFrom_step (acc : float) (vs : list Variant) (i : nat)
    (v : Variant) :
  vs !! S i = Some v ->
  cumulativeFrom acc vs (S i) = (cumulativeFrom acc vs i + weight v)%float.
Proof.
  revert acc i. induction vs as [|v0 vs IH]; intros acc i Hi; [discriminate|].
  destruct i as [|i].
  - destruct vs as [|v1 vs]; [discriminate|]. injection Hi as ->.
    reflexivity.
  - rewrite (cumulativeFrom_cons _ _ _ (S i)), (cumulativeFrom_cons _ _ _ i).
    apply IH. exact Hi.
Qed.

(** A double that compares equal to 0 is one of the two zeros. *)
Lemma zero_double (w : float) :
  (w =? 0)%float = true -> exists s, Prim2SF w = S754_zero s.
Proof.
  rewrite FloatAxioms.eqb_spec. change (Prim2SF 0) with (S754_zero false).
  destruct (Prim2SF w) as [s|s| |s m e]; cbn; try discriminate; eauto;
    destruct s; discriminate.
Qed.

(** Adding a zero to the cumulative weight does not change what it is
    compared with. *)
Lemma leb_add_zero (r acc w : float) :
  (w =? 0)%float = true -> (r <=? acc + w)%float = (r <=? acc)%float.
Proof.
  intros Hw. destruct (zero_double w Hw) as [s Hs].
  rewrite !FloatAxioms.leb_spec, FloatAxioms.add_spec, Hs.
  destruct (Prim2SF acc) as [sa|sa| |sa ma ea]; cbn; try reflexivity.
  destruct sa, s; cbn; destruct (Prim2SF r); reflexivity.
Qed.

(** A variant of weight 0 that is not the first one is never assigned,
    whatever the draw, when the variants' ids are distinct. *)
Theorem zero_weight_never_assigned (repo : gmap string Campaign)
    (rnd : float) (cid contact : string) (c : Campaign) (ab : AbTesting)
    (i : nat) (v : Variant) :
  enabledTest (repo !! cid) = Some (c, ab) ->
  NoDup (id <$> variants ab) ->
  variants ab !! S i = Some v ->
  (weight v =? 0)%float = true ->
  (assignVariantToContact rnd cid contact repo).1 <> Ok (id v).
Proof.
  intros Een Hnd Hi Hw.
  assert (Hidx : forall j u, variants ab !! j = Some u -> id u = id v ->
                             j = S i).
  { intros j u Hj Hid.
    apply (NoDup_lookup (id <$> variants ab) j (S i) (id v)); [exact Hnd | |].
    - rewrite list_lookup_fmap, Hj. cbn. congruence.
    - rewrite list_lookup_fmap, Hi. reflexivity. }
  unfold assignVariantToContact; unfold bind, findOne, ret, throw.
  rewrite Een.
  destruct (walk (rnd * 100) 0 (variants ab)) as [x|] eqn:Ew.
  - cbn [fst]. intros H. injection H as ->.
    destruct (walk_first _ _ _ _ Ew) as (j & u & Hj & Hid & Hle & Hfirst).
    assert (j = S i) by (apply (Hidx j u Hj); congruence). subst j.
    rewrite (cumulativeFrom_step _ _ _ _ Hi), (leb_add_zero _ _ _ Hw) in Hle.
    rewrite (Hfirst i) in Hle by lia. discriminate.
  - destruct (variants ab) as [|first rest] eqn:Ev; [discriminate|].
    cbn [fst]. intros H. injection H as H.
    assert (0%nat = S i); [|discriminate].
    apply (Hidx 0%nat first); [reflexivity | exact H].
Qed.

(** A setup that [createAbTest] accepts is that of a stored campaign and
    leaves an enabled experiment with the variants made of the ones
    given. *)
Lemma createAbTest_accepted (repo : gmap string Campaign) (cid : string)
    (cfg : TestConfig) (c' : Campaign) :
  (createAbTest cid cfg repo).1 = Ok c' ->
  exists ab,
    (createAbTest cid cfg repo).2 = <[cid := c']> repo
    /\ abTesting c' = Some ab
    /\ enabled ab = true
    /\ variants ab = makeVariants (t_variants cfg)
    /\ (2 <= length (t_variants cfg) <= 5)%nat.
Proof.
  unfold createAbTest; unfold bind, findOne, throw, save.
  destruct (repo !! cid) as [c|]; [|discriminate].
  destruct (negb (bool_decide (status c = DRAFT))); [discriminate|].
  destruct (length (t_variants cfg) <? 2)%nat eqn:E2; [discriminate|].
  destruct (5 <? length (t_variants cfg))%nat eqn:E5; [discriminate|].
  destruct (0.01 <? abs (totalWeight (t_variants cfg) - 100))%float;
    [discriminate|].
  cbn [fst snd]. intros H. injection H as <-.
  apply Nat.ltb_ge in E2, E5.
  eexists. split; [reflexivity|]. repeat split; assumption.
Qed.

(** After a setup that [createAbTest] accepted, every contact is assigned
    one of the stored variants [variant-1] ... [variant-n], whatever the
    draw, and the assignment writes nothing. *)
Theorem setup_then_assignment (repo : gmap string Campaign) (cid : string)
    (cfg : TestConfig) (c' : Campaign) :
  (createAbTest cid cfg repo).1 = Ok c' ->
  forall rnd contact, exists k,
    (1 <= k <= length (t_variants cfg))%nat
    /\ assignVariantToContact rnd cid contact (createAbTest cid cfg repo).2
       = (Ok ("variant-" +:+ pretty k), (createAbTest cid cfg repo).2).
Proof.
  intros Hok rnd contact.
  destruct (createAbTest_accepted repo cid cfg c' Hok)
    as (ab & -> & Hab & Hen & Hvs & Hlen).
  assert (Een : enabledTest (<[cid := c']> repo !! cid) = Some (c', ab)).
  { rewrite lookup_insert_eq. unfold enabledTest. rewrite Hab, Hen.
    reflexivity. }
  destruct (assign_stored _ rnd cid contact _ _ Een) as (v & Hin & Ea).
  { rewrite Hvs. unfold makeVariants. intros Hnil.
    apply (f_equal length) in Hnil. rewrite length_imap in Hnil.
    cbn in Hnil. lia. }
  rewrite Hvs in Hin. apply list_elem_of_lookup in Hin.
  destruct Hin as [i Hi]. exists (i + 1)%nat. split.
  - apply lookup_lt_Some in Hi. unfold makeVariants in Hi.
    rewrite length_imap in Hi. lia.
  - rewrite Ea, (makeVariants_ids _ _ _ Hi). reflexivity.
Qed.

End ExperimentAssignment.

Section ExperimentAnalysis.
Import Campaigns AbTesting Experiments Outcomes.

Lemma collectResults_ids (ab : AbTesting) :
  r_variantId <$> collectResults ab = id <$> filter (fun v => hasSends v = true) (variants ab).
Proof.
  unfold collectResults. induction (variants ab) as [|v vs IH]; [reflexivity|].
  cbn [omap list_omap]. rewrite filter_cons.
  destruct (decide (hasSends v = true)) as [Hs|Hs]; unfold hasSends in Hs;
    destruct (performance v) as [p|]; try discriminate;
    try (destruct (sent p =? 0); cbn [negb] in Hs; try discriminate;
         try congruence);
    try exact IH; try congruence.
  cbn. f_equal. exact IH.
Qed.

Lemma collectResults_plain (ab : AbTesting) (r : AbTestResult) :
  r ∈ collectResults ab ->
  r_isWinner r = false /\ overallScore (r_metrics r) = 0%Q.
Proof.
  intros H. split; [|exact (collectResults_unscored ab r H)].
  unfold collectResults in H. apply list_elem_of_omap in H.
  destruct H as (v & _ & Hv). destruct (performance v) as [p|]; [|discriminate].
  destruct (sent p =? 0); [discriminate|]. injection Hv as <-. reflexivity.
Qed.

(** [analyzeAbTestResults] reports on the variants that have sends, in
    their stored order; every reported [overallScore] is 0, and the winner
    flag goes to the first reported variant and to no other, whatever the
    counters are. *)
Theorem analysis_keeps_stored_order (repo : gmap string Campaign)
    (cid : string) (c : Campaign) (ab : AbTesting) :
  enabledTest (repo !! cid) = Some (c, ab) ->
  exists results,
    analyzeAbTestResults cid repo = (Ok results, repo)
    /\ r_variantId <$> results
       = id <$> filter (fun v => hasSends v = true) (variants ab)
    /\ (forall j r, results !! j = Some r ->
          r_isWinner r = bool_decide (j = 0%nat)
          /\ overallScore (r_metrics r) = 0%Q).
Proof.
  intros Een. rewrite (analyze_keeps_stored_order repo cid c ab Een).
  eexists. split; [reflexivity|].
  pose proof (collectResults_ids ab) as Hids.
  pose proof (collectResults_plain ab) as Hplain.
  destruct (collectResults ab) as [|top rest]; [split; [exact Hids|]|].
  - intros j r Hj. destruct j; discriminate.
  - split; [exact Hids|]. intros j r Hj. destruct j as [|j].
    + injection Hj as <-. split; [reflexivity|].
      apply (Hplain top). constructor.
    + cbn in Hj. apply (Hplain r). constructor.
      eapply list_elem_of_lookup_2, Hj.
Qed.

(** The confidence grows with the number of sends and stays between 0.3
    and 0.95. *)
Theorem confidence_is_monotone (p q : Performance) :
  sent p <= sent q ->
  (calculateConfidence p <= calculateConfidence q)%Q
  /\ (0.3 <= calculateConfidence p <= 0.95)%Q.
Proof.
  intros H. unfold calculateConfidence.
  destruct (sent p <? 10) eqn:P1; [|destruct (sent p <? 50) eqn:P2;
    [|destruct (sent p <? 100) eqn:P3; [|destruct (sent p <? 500) eqn:P4]]];
  (destruct (sent q <? 10) eqn:Q1; [|destruct (sent q <? 50) eqn:Q2;
    [|destruct (sent q <? 100) eqn:Q3; [|destruct (sent q <? 500) eqn:Q4]]]);
  repeat match goal with
         | H : (_ <? _) = true |- _ => apply Z.ltb_lt in H
         | H : (_ <? _) = false |- _ => apply Z.ltb_ge in H
         end;
  try lia; repeat split; try (vm_compute; discriminate).
Qed.

Lemma round2_mono (x y : Q) : (x <= y)%Q -> (round2 x <= round2 y)%Q.
Proof.
  intros H. unfold round2.
  assert (F : (Qfloor (x * 100 + 0.5) <= Qfloor (y * 100 + 0.5))%Z).
  { apply Qfloor_resp_le. lra. }
  rewrite Zle_Qle in F. unfold Qdiv. change (/ 100)%Q with (1 # 100)%Q. lra.
Qed.

Lemma round2_whole (z : Z) : (round2 (inject_Z z) == inject_Z z)%Q.
Proof.
  unfold round2.
  assert (F : Qfloor (inject_Z z * 100 + 0.5) = (z * 100)%Z).
  { pose proof (Qfloor_le (inject_Z z * 100 + 0.5)) as Hle.
    pose proof (Qlt_floor (inject_Z z * 100 + 0.5)) as Hlt.
    set (n := Qfloor (inject_Z z * 100 + 0.5)) in *.
    assert (E : (inject_Z (z * 100) == inject_Z z * 100)%Q)
      by (rewrite inject_Z_mult; reflexivity).
    assert (H1 : (inject_Z n < inject_Z (z * 100 + 1))%Q).
    { rewrite inject_Z_plus. change (inject_Z 1) with 1%Q. lra. }
    assert (H2 : (inject_Z (z * 100) < inject_Z (n + 1))%Q) by lra.
    rewrite <- Zlt_Qlt in H1, H2. lia. }
  rewrite F, inject_Z_mult. field.
Qed.

Lemma rate_range (count sent : Z) :
  0 <= count <= sent -> (0 <= rate count sent <= 100)%Q.
Proof.
  intros [H0 H1]. unfold rate. destruct (0 <? sent) eqn:E; [|split; lra].
  apply Z.ltb_lt in E.
  assert (Hpos : (0 < inject_Z sent)%Q) by (rewrite <- (Zlt_Qlt 0); exact E).
  assert (Hc0 : (0 <= inject_Z count)%Q) by (rewrite <- (Zle_Qle 0); exact H0).
  assert (Hc1 : (inject_Z count <= inject_Z sent)%Q)
    by (rewrite <- Zle_Qle; exact H1).
  assert (Hq0 : (0 <= inject_Z count / inject_Z sent)%Q).
  { apply Qle_shift_div_l; [exact Hpos | lra]. }
  assert (Hq1 : (inject_Z count / inject_Z sent <= 1)%Q).
  { apply Qle_shift_div_r; [exact Hpos | lra]. }
  split; lra.
Qed.

Lemma round2_range (x : Q) :
  (0 <= x <= 100)%Q -> (0 <= round2 x <= 100)%Q.
Proof.
  intros [H0 H1]. split.
  - rewrite <- (round2_whole 0). apply round2_mono. exact H0.
  - rewrite <- (round2_whole 100). apply round2_mono. exact H1.
Qed.

(** Whatever the criterion, the score of a variant whose counters do not
    exceed its sends lies between 0 and 100. *)
Theorem score_range (p : Performance) (criteria : string) :
  0 <= opened p <= sent p -> 0 <= clicked p <= sent p ->
  0 <= replied p <= sent p -> 0 <= unsubscribed p <= sent p ->
  0 <= bounced p <= sent p ->
  (0 <= calculateOverallScore (calculateVariantMetrics p) criteria <= 100)%Q.
Proof.
  intros Ho Hc Hr Hu Hb. split; [apply score_nonneg|].
  unfold calculateOverallScore, calculateVariantMetrics.
  cbn [openRate clickRate replyRate unsubscribeRate bounceRate].
  pose proof (round2_range _ (rate_range _ _ Ho)) as Ro.
  pose proof (round2_range _ (rate_range _ _ Hc)) as Rc.
  pose proof (round2_range _ (rate_range _ _ Hr)) as Rr.
  pose proof (round2_range _ (rate_range _ _ Hu)) as Ru.
  pose proof (round2_range _ (rate_range _ _ Hb)) as Rb.
  set (o := round2 (rate (opened p) (sent p))) in *.
  set (k := round2 (rate (clicked p) (sent p))) in *.
  set (r := round2 (rate (replied p) (sent p))) in *.
  set (u := round2 (rate (unsubscribed p) (sent p))) in *.
  set (b := round2 (rate (bounced p) (sent p))) in *.
  apply Q.max_lub; [lra|].
  rewrite <- (round2_whole 100). apply round2_mono.
  change (inject_Z 100) with 100%Q.
  destruct (String.eqb criteria "open_rate"); [lra|].
  destruct (String.eqb criteria "click_rate"); [lra|].
  destruct (String.eqb criteria "reply_rate"); [lra|].
  destruct (String.eqb criteria "conversion_rate"); lra.
Qed.

End ExperimentAnalysis.

Section ExperimentFigureSamples.
Import Campaigns AbTesting Experiments Outcomes Setup Stores Running Trials.

Lemma tracking_raises_status_totals_witness :
  exists before after,
    (getAbTestStatus "c-1" (repoOf running)).1 = Ok (Some before)
    /\ (getAbTestStatus "c-1"
          (trackVariantPerformance "c-1" "variant-2" "e-1" ev_opened
             (repoOf running)).2).1
       = Ok (Some after)
    /\ st_totalOpened after = st_totalOpened before + 1
    /\ st_totalSent after = st_totalSent before + 0.
Proof.
  destruct (tracking_raises_status_totals (repoOf running) "c-1" "variant-2"
              "e-1" ev_opened running scenario 1 variantB)
    as (b & a & Hb & Ha & Hs & Ho & _); [reflexivity | reflexivity |].
  exists b, a. repeat split; assumption.
Defined.

Lemma select_winner_effect_witness :
  exists c' after,
    selectWinner "c-1" "variant-2" (repoOf running)
    = (Ok c', <["c-1" := c']> (repoOf running))
    /\ getAbTestStatus "c-1" (<["c-1" := c']> (repoOf running))
       = (Ok (Some after), <["c-1" := c']> (repoOf running))
    /\ st_winnerSelected after = Some "variant-2"
    /\ st_canSelectWinner after = false
    /\ key subject (c_config c') = Some "Quick question".
Proof.
  destruct (select_winner_effect (repoOf running) "c-1" "variant-2" running
              scenario 1 variantB)
    as (c' & a & E & Ea & Hw & Hc & _ & Hs & _);
    [reflexivity | reflexivity | discriminate |].
  exists c', a. repeat split; assumption.
Defined.

Lemma assignment_is_a_stored_variant_witness :
  exists v,
    v ∈ [variantA; variantB]
    /\ assignVariantToContact 0.5 "c-1" "contact-1" (repoOf running)
       = (Ok (id v), repoOf running).
Proof.
  destruct (assignment_is_a_stored_variant (repoOf running) 0.5 "c-1"
              "contact-1" running scenario) as [Hsome _]; [reflexivity|].
  apply Hsome. discriminate.
Defined.

Lemma zero_weight_never_assigned_witness :
  (assignVariantToContact 0.5 "c-1" "contact-1"
     (repoOf (withExperiment (Some lopsided)))).1
  <> Ok "variant-2".
Proof.
  apply (zero_weight_never_assigned (repoOf (withExperiment (Some lopsided)))
           0.5 "c-1" "contact-1" (withExperiment (Some lopsided)) lopsided
           0 idleB).
  - reflexivity.
  - cbn. apply NoDup_cons. split; [|apply NoDup_singleton].
    rewrite list_elem_of_singleton. discriminate.
  - reflexivity.
  - reflexivity.
Defined.

Lemma setup_then_assignment_witness :
  exists k,
    (1 <= k <= length (t_variants twoVariants))%nat
    /\ assignVariantToContact 0.5 "c-1" "contact-1"
         (createAbTest "c-1" twoVariants
            (repoOf (Lifecycle.sampleCampaign DRAFT None))).2
       = (Ok ("variant-" +:+ pretty k),
          (createAbTest "c-1" twoVariants
             (repoOf (Lifecycle.sampleCampaign DRAFT None))).2).
Proof.
  eapply (setup_then_assignment (repoOf (Lifecycle.sampleCampaign DRAFT None))
            "c-1" twoVariants).
  reflexivity.
Defined.

Lemma analysis_keeps_stored_order_witness :
  exists results,
    analyzeAbTestResults "c-1" (repoOf running) = (Ok results, repoOf running)
    /\ r_variantId <$> results = ["variant-1"; "variant-2"].
Proof.
  destruct (analysis_keeps_stored_order (repoOf running) "c-1" running scenario)
    as (rs & E & Hids & _); [reflexivity|].
  exists rs. split; [exact E | exact Hids].
Defined.

Lemma confidence_is_monotone_witness :
  (calculateConfidence (opens 80 48) <= calculateConfidence (opens 100 40))%Q
  /\ (0.3 <= calculateConfidence (opens 80 48) <= 0.95)%Q.
Proof.
  apply (confidence_is_monotone (opens 80 48) (opens 100 40)). cbn. lia.
Defined.

Lemma score_range_witness :
  (0 <= calculateOverallScore (calculateVariantMetrics (opens 100 40))
          "reply_rate" <= 100)%Q.
Proof.
  apply (score_range (opens 100 40) "reply_rate"); cbn; lia.
Defined.

End ExperimentFigureSamples.

Section MailboxAdministration.
Import Mailboxes Identities MailboxAdmin WarmupRounds.

Lemma alter_stored (f : Mailbox -> Mailbox) (repo : gmap string Mailbox)
    (mid : string) (m : Mailbox) :
  repo !! mid = Some m -> alter f mid repo = <[mid := f m]> repo.
Proof.
  intros Hm. apply map_eq. intros k. destruct (decide (k = mid)) as [->|Hk].
  - rewrite lookup_alter_eq, lookup_insert_eq, Hm. reflexivity.
  - rewrite lookup_alter_ne, lookup_insert_ne by congruence. reflexivity.
Qed.

Lemma status_updated (now : Z) (mid : string) (st : MailboxStatus)
    (reason : option string) (s : Store) (m : Mailbox) :
  s.1 !! mid = Some m ->
  updateMailboxStatus now mid st reason s
  = (Ok (set_status st m),
     (<[mid := set_status st m]> s.1,
      <[mid := updateSuspension now st reason (suspensionOf mid s)]> s.2)).
Proof.
  intros Hm. unfold updateMailboxStatus, updateColumns, onRows, findById.
  unfold bind, findOne, ret. cbn [fst snd]. rewrite Hm. cbn [fst snd].
  rewrite Hm, lookup_alter_eq, Hm. cbn [fmap option_fmap option_map fst snd].
  rewrite (alter_stored _ _ _ _ Hm). reflexivity.
Qed.


(** The mailbox a successful [warmupMailbox] returns and stores is no
    longer ready, it is warming up, and its daily limit is the new warmup
    rate, which does not exceed [maxEmailsPerDay]. *)
Theorem warmed_mailbox_not_ready (now : Z) (repo : gmap string Mailbox)
    (mid : string) (m : Mailbox) (cfg : SendingConfig) :
  repo !! mid = Some m -> status m = ACTIVE -> sendingConfig m = Some cfg ->
  warmupEnabled cfg = true ->
  exists m',
    warmupMailbox now mid repo = (Ok m', <[mid := m']> repo)
    /\ isReady m' = false
    /\ isWarmingUp m' = true
    /\ currentDailyLimit m'
       = Z.min (currentWarmupRate cfg + warmupIncrement cfg)
               (maxEmailsPerDay cfg)
    /\ currentDailyLimit m' <= maxEmailsPerDay cfg.
Proof.
  intros Hm Hs Hc He.
  destruct (warmup_accepted now repo mid m Hm cfg Hs Hc He)
    as (m' & cfg' & E & Hs' & Hc' & Hr & _ & _ & He').
  exists m'. split; [exact E|].
  split; [unfold isReady; rewrite Hs'; apply andb_false_r|].
  split; [unfold isWarmingUp; rewrite Hs'; reflexivity|].
  assert (Hl : currentDailyLimit m'
               = Z.min (currentWarmupRate cfg + warmupIncrement cfg)
                       (maxEmailsPerDay cfg)).
  { unfold currentDailyLimit. rewrite Hc', He'. exact Hr. }
  split; [exact Hl | rewrite Hl; lia].
Qed.

Lemma round_effect (now : Z) (mid : string) (s : Store) (m : Mailbox)
    (cfg : SendingConfig) :
  s.1 !! mid = Some m -> status m = ACTIVE -> sendingConfig m = Some cfg ->
  warmupEnabled cfg = true ->
  exists m' cfg' s',
    round now mid s = (Ok m', s')
    /\ s'.1 !! mid = Some m'
    /\ (forall k, k <> mid -> s'.1 !! k = s.1 !! k)
    /\ status m' = ACTIVE
    /\ sendingConfig m' = Some cfg'
    /\ currentWarmupRate cfg'
       = Z.min (currentWarmupRate cfg + warmupIncrement cfg)
               (maxEmailsPerDay cfg)
    /\ maxEmailsPerDay cfg' = maxEmailsPerDay cfg
    /\ warmupIncrement cfg' = warmupIncrement cfg
    /\ warmupEnabled cfg' = true.
Proof.
  intros Hm Hs Hc He.
  destruct (warmup_accepted now s.1 mid m Hm cfg Hs Hc He)
    as (m' & cfg' & E & Hs' & Hc' & Hr & HM & Hi & He').
  unfold round, activateMailbox. unfold bind at 1. unfold onRows at 1.
  rewrite E. cbn [fst snd].
  rewrite (status_updated now mid ACTIVE None _ m')
    by (cbn [fst]; apply lookup_insert_eq).
  cbn [fst snd]. exists (set_status ACTIVE m'), cfg'. eexists.
  split; [reflexivity|]. cbn [fst].
  split; [apply lookup_insert_eq|].
  split; [intros k Hk; rewrite !lookup_insert_ne by congruence; reflexivity|].
  repeat split; assumption.
Qed.

(** A warmup schedule of [k] rounds, each a warmup call followed by the
    activation, raises the rate of an active mailbox by [k] increments,
    capped at [maxEmailsPerDay], and leaves the mailbox active; the other
    mailboxes are untouched. *)
Theorem warmup_rounds (k : nat) (now : Z) (mid : string) (s : Store)
    (m : Mailbox) (cfg : SendingConfig) :
  s.1 !! mid = Some m -> status m = ACTIVE -> sendingConfig m = Some cfg ->
  warmupEnabled cfg = true -> 0 <= warmupIncrement cfg ->
  currentWarmupRate cfg <= maxEmailsPerDay cfg ->
  exists m' cfg' s',
    rounds k now mid s = (Ok tt, s')
    /\ s'.1 !! mid = Some m'
    /\ (forall j, j <> mid -> s'.1 !! j = s.1 !! j)
    /\ status m' = ACTIVE
    /\ sendingConfig m' = Some cfg'
    /\ currentWarmupRate cfg'
       = Z.min (currentWarmupRate cfg + Z.of_nat k * warmupIncrement cfg)
               (maxEmailsPerDay cfg).
Proof.
  revert s m cfg. induction k as [|k IH]; intros s m cfg Hm Hs Hc He Hi Hr.
  - exists m, cfg, s. cbn [rounds]. unfold ret.
    repeat split; try assumption; try reflexivity. lia.
  - cbn [rounds]. unfold bind at 1.
    destruct (round_effect now mid s m cfg Hm Hs Hc He)
      as (m1 & cfg1 & s1 & E & Hm1 & Ho1 & Hs1 & Hc1 & Hr1 & HM1 & Hi1 & He1).
    rewrite E.
    destruct (IH s1 m1 cfg1 Hm1 Hs1 Hc1 He1) as
      (m' & cfg' & s' & E' & Hm' & Ho' & Hs' & Hc' & Hr'); [lia | lia |].
    exists m', cfg', s'. split; [exact E'|]. split; [exact Hm'|].
    split; [intros j Hj; rewrite (Ho' j Hj); apply Ho1, Hj|].
    split; [exact Hs'|]. split; [exact Hc'|].
    rewrite Hr', Hr1, HM1, Hi1. lia.
Qed.

Lemma withStatus_cons (st : MailboxStatus) (m : Mailbox) (ms : list Mailbox) :
  withStatus st (m :: ms)
  = ((if decide (status m = st) then 1 else 0) + withStatus st ms)%nat.
Proof.
  unfold withStatus. rewrite filter_cons.
  destruct (decide (status m = st)); reflexivity.
Qed.

Lemma statuses_cover (ms : list Mailbox) :
  length ms
  = (withStatus ACTIVE ms + withStatus PENDING ms + withStatus FAILED ms
     + withStatus SUSPENDED ms + withStatus WARMING_UP ms)%nat.
Proof.
  induction ms as [|m ms IH]; [reflexivity|].
  rewrite !withStatus_cons. cbn [length]. rewrite IH.
  destruct (status m); repeat (case_decide; try congruence); lia.
Qed.

(** The five counters of [getMailboxStats] add up to its total, and every
    counted mailbox belongs to the organisation. *)
Theorem mailbox_stats_partition (org : string) (repo : gmap string Mailbox) :
  s_total (getMailboxStats org repo)
  = (s_active (getMailboxStats org repo)
     + s_pending (getMailboxStats org repo)
     + s_failed (getMailboxStats org repo)
     + s_suspended (getMailboxStats org repo)
     + s_warmingUp (getMailboxStats org repo))%nat
  /\ Forall (fun m => organizationId m = org) (findByOrganization org repo).
Proof.
  split; [apply statuses_cover|].
  unfold findByOrganization. apply Forall_forall. intros m Hm.
  apply list_elem_of_fmap in Hm. destruct Hm as ([k m'] & -> & Hin).
  apply elem_of_map_to_list in Hin.
  apply map_lookup_filter_Some in Hin. exact (proj2 Hin).
Qed.

Lemma closed_window (m : Mailbox) (cfg : SendingConfig) (s e : Z)
    (now : LocalDate) :
  sendingConfig m = Some cfg -> businessHoursOnly cfg = true ->
  minutesOf (businessHoursStart cfg) = Some s ->
  minutesOf (businessHoursEnd cfg) = Some e ->
  isInBusinessHours m now
  = bool_decide (getDay now ∈ businessDays cfg)
    && (s <=? getHours now * 60 + getMinutes now)
    && (getHours now * 60 + getMinutes now <=? e).
Proof.
  intros Hc Hb Hs He. unfold isInBusinessHours. rewrite Hc, Hb, Hs, He.
  cbn [negb]. destruct (bool_decide (getDay now ∈ businessDays cfg));
    reflexivity.
Qed.

(** Business hours that end before they start -- a window over midnight,
    22:00 to 06:00 -- are never open: with [businessHoursOnly] set the
    mailbox is in business hours at no time of no day. *)
Theorem overnight_window_never_open (m : Mailbox) (cfg : SendingConfig)
    (s e : Z) :
  sendingConfig m = Some cfg -> businessHoursOnly cfg = true ->
  minutesOf (businessHoursStart cfg) = Some s ->
  minutesOf (businessHoursEnd cfg) = Some e ->
  e < s ->
  forall now, isInBusinessHours m now = false /\ eligible m now = false.
Proof.
  intros Hc Hb Hs He Hlt now.
  assert (E : isInBusinessHours m now = false).
  { rewrite (closed_window m cfg s e now Hc Hb Hs He).
    destruct (s <=? getHours now * 60 + getMinutes now) eqn:E1;
      [|apply andb_false_intro1, andb_false_r].
    apply Z.leb_le in E1. apply andb_false_intro2, Z.leb_gt. lia. }
  split; [exact E|]. unfold eligible. rewrite E. apply andb_false_r.
Qed.

End MailboxAdministration.

Section MailboxAdministrationSamples.
Import Mailboxes Identities MailboxAdmin WarmupRounds MailboxSamples.


Lemma warmed_mailbox_not_ready_witness :
  exists m',
    warmupMailbox 0 "mb-1"
      (mailboxesOf (sampleMailbox ACTIVE (defaultConfig true false)))
    = (Ok m',
       <["mb-1" := m']>
         (mailboxesOf (sampleMailbox ACTIVE (defaultConfig true false))))
    /\ isReady m' = false
    /\ isWarmingUp m' = true
    /\ currentDailyLimit m'
       = Z.min (currentWarmupRate (defaultConfig true false)
                + warmupIncrement (defaultConfig true false))
               (maxEmailsPerDay (defaultConfig true false))
    /\ currentDailyLimit m' <= maxEmailsPerDay (defaultConfig true false).
Proof.
  apply (warmed_mailbox_not_ready 0
           (mailboxesOf (sampleMailbox ACTIVE (defaultConfig true false)))
           "mb-1" (sampleMailbox ACTIVE (defaultConfig true false))
           (defaultConfig true false)); reflexivity.
Defined.

Lemma warmup_rounds_witness :
  exists m' cfg' s',
    rounds 3 0 "mb-1"
      (storeOf (sampleMailbox ACTIVE (defaultConfig true false)))
    = (Ok tt, s')
    /\ s'.1 !! "mb-1" = Some m'
    /\ (forall j, j <> "mb-1" ->
          s'.1 !! j
          = (storeOf (sampleMailbox ACTIVE (defaultConfig true false))).1 !! j)
    /\ status m' = ACTIVE
    /\ sendingConfig m' = Some cfg'
    /\ currentWarmupRate cfg'
       = Z.min (currentWarmupRate (defaultConfig true false)
                + Z.of_nat 3 * warmupIncrement (defaultConfig true false))
               (maxEmailsPerDay (defaultConfig true false)).
Proof.
  apply (warmup_rounds 3 0 "mb-1"
           (storeOf (sampleMailbox ACTIVE (defaultConfig true false)))
           (sampleMailbox ACTIVE (defaultConfig true false))
           (defaultConfig true false));
    try reflexivity; vm_compute; discriminate.
Defined.

Lemma overnight_window_never_open_witness :
  isInBusinessHours (sampleMailbox ACTIVE overnight) wednesdayMorning = false
  /\ eligible (sampleMailbox ACTIVE overnight) wednesdayMorning = false.
Proof.
  apply (overnight_window_never_open (sampleMailbox ACTIVE overnight)
           overnight 1320 360); reflexivity.
Defined.

End MailboxAdministrationSamples.

Section UsageAccounting.
Import RateLimiting Windows.

(** No run of calls removes a usage row, moves it or changes it: the table
    after the run is the table before it followed by rows the calls of the
    run wrote, at most one for each call and in the order of the calls. *)
Theorem rows_never_lost (limitOf : string -> string -> Z)
    (calls : list Call) (table : Table) :
  exists added,
    run limitOf calls table = table ++ (rowOf <$> added)
    /\ sublist added calls.
Proof.
  revert table. unfold run.
  induction calls as [|c calls IH]; intros table; cbn [fold_left].
  - exists []. split; [symmetry; apply app_nil_r | constructor].
  - pose proof (check_effect (at_ c) (user_ c) (endpoint_ c)
                  (limitOf (user_ c) (endpoint_ c)) (windowMs_ c) table) as H.
    change (checkRateLimit (at_ c) (user_ c) (endpoint_ c)
              (limitOf (user_ c) (endpoint_ c)) (windowMs_ c) table)
      with (check limitOf c table) in H.
    destruct H as [_ [E|E]]; rewrite E.
    + destruct (IH table) as (added & Ha & Hs). exists added.
      split; [exact Ha | apply sublist_cons, Hs].
    + destruct (IH (table ++ [{| userId := user_ c; endpoint := endpoint_ c;
                                 timestamp := at_ c |}]))
        as (added & Ha & Hs).
      exists (c :: added). split; [|apply sublist_skip, Hs].
      rewrite Ha, <- app_assoc. reflexivity.
Qed.

End UsageAccounting.

Section IpPoolAdministration.
Import IpPools IpPoolAdmin.

Lemma findAvailableIp_unused (draws : list (Z * Z)) (pools : Pools)
    (ip : string) :
  findAvailableIp draws pools = Some ip ->
  ip ∉ ((fun x => ipAddress (pool x)) <$> pools).
Proof.
  induction draws as [|[a b] draws IH]; cbn [findAvailableIp]; [discriminate|].
  case_bool_decide as Hin; [exact IH|].
  intros H. injection H as <-. exact Hin.
Qed.

Lemma find_Some {A : Type} (P : A -> Prop) `{!forall x, Decision (P x)}
    (l : list A) (i : nat) (x : A) :
  list_find P l = Some (i, x) ->
  l !! i = Some x /\ P x /\ forall j y, l !! j = Some y -> (j < i)%nat -> ~ P y.
Proof. intros Hf. apply (list_find_Some P) in Hf. exact Hf. Qed.

(** A new pool gets an address no pool of the service uses, starts
    warming with nothing used, and goes to the end of the pools when its
    id is new; an organisation that already has a pool keeps getting the
    older one from [getOrganizationIpPool] and [rotateIps]. *)
Theorem assigned_address_is_unused (now : Z) (draws : list (Z * Z))
    (org : string) (pools pools' : Pools) (p : IpPool) :
  assignIpToOrganization now draws org pools = Some (p, pools') ->
  Forall (fun x => id (pool x) <> "ip_" +:+ pretty now) pools ->
  (ipAddress p ∉ ((fun x => ipAddress (pool x)) <$> pools))
  /\ status p = warming /\ organizationId p = org
  /\ pools' = pools ++ [{| pool := p; suspendedAt := None;
                           suspensionReason := None |}]
  /\ getOrganizationIpPool org pools'
     = Some (default {| pool := p; suspendedAt := None;
                        suspensionReason := None |}
               (getOrganizationIpPool org pools))
  /\ length (rotateIps org pools') = 1%nat.
Proof.
  unfold assignIpToOrganization. intros H Hfresh.
  destruct (findAvailableIp draws pools) as [ip|] eqn:Ef; [|discriminate].
  injection H as <- <-. cbn [ipAddress status organizationId].
  split; [exact (findAvailableIp_unused _ _ _ Ef)|].
  split; [reflexivity|]. split; [reflexivity|].
  assert (Hset : forall e, id (pool e) = "ip_" +:+ pretty now ->
                           mapSet e pools = pools ++ [e]).
  { intros e He. unfold mapSet.
    destruct (list_find (fun x => id (pool x) = id (pool e)) pools)
      as [[i x]|] eqn:Els; [|reflexivity].
    apply find_Some in Els. destruct Els as (Hi & Hid & _).
    rewrite Forall_forall in Hfresh. exfalso.
    apply (Hfresh x); [eapply list_elem_of_lookup_2, Hi | congruence]. }
  rewrite Hset by reflexivity. split; [reflexivity|].
  set (e0 := {| pool := _; suspendedAt := None; suspensionReason := None |}).
  assert (Hget : getOrganizationIpPool org (pools ++ [e0])
                 = Some (default e0 (getOrganizationIpPool org pools))).
  { unfold getOrganizationIpPool.
    destruct (list_find (fun x => organizationId (pool x) = org) pools)
      as [[i x]|] eqn:Eo.
    - rewrite (list_find_app_l _ _ _ _ _ Eo). reflexivity.
    - rewrite list_find_app_r by exact Eo. cbn [list_find].
      rewrite decide_True by reflexivity. reflexivity. }
  split; [exact Hget|]. unfold rotateIps. rewrite Hget. reflexivity.
Qed.

(** With distinct ids, [releaseIpFromOrganization] removes exactly the
    pool [getOrganizationIpPool] returns -- the organisation's oldest --
    and keeps every other pool, in order; an organisation with a second
    pool still has that one afterwards. *)
Theorem release_removes_oldest (org : string) (pools : Pools) (e : Entry) :
  NoDup ((fun x => id (pool x)) <$> pools) ->
  getOrganizationIpPool org pools = Some e ->
  exists i,
    pools !! i = Some e
    /\ releaseIpFromOrganization org pools = delete i pools
    /\ (forall j x, pools !! j = Some x -> (j < i)%nat ->
          organizationId (pool x) <> org)
    /\ length (releaseIpFromOrganization org pools) = pred (length pools)
    /\ (forall j x, pools !! j = Some x -> (i < j)%nat ->
          organizationId (pool x) = org ->
          is_Some (getOrganizationIpPool org
                     (releaseIpFromOrganization org pools))).
Proof.
  intros Hnd Hget. unfold releaseIpFromOrganization. rewrite Hget.
  unfold getOrganizationIpPool in Hget.
  destruct (list_find (fun x => organizationId (pool x) = org) pools)
    as [[i x]|] eqn:Eo; [|discriminate].
  injection Hget as ->. apply find_Some in Eo.
  destruct Eo as (Hi & Ho & Hfirst). exists i.
  assert (Hdel : mapDelete (id (pool e)) pools = delete i pools).
  { unfold mapDelete.
    destruct (list_find (fun x => id (pool x) = id (pool e)) pools)
      as [[k y]|] eqn:Ek.
    - apply find_Some in Ek. destruct Ek as (Hk & Hid & _).
      assert (k = i); [|subst; reflexivity].
      apply (NoDup_lookup _ k i (id (pool e)) Hnd);
        rewrite list_lookup_fmap; [rewrite Hk | rewrite Hi]; cbn; congruence.
    - exfalso. apply (list_find_None (fun x => id (pool x) = id (pool e))) in Ek.
      rewrite Forall_forall in Ek.
      apply (Ek e); [eapply list_elem_of_lookup_2, Hi | reflexivity]. }
  rewrite Hdel. split; [exact Hi|]. split; [reflexivity|].
  split; [exact Hfirst|]. split.
  - rewrite length_delete by (eexists; exact Hi). lia.
  - intros j y Hj Hlt Hy. unfold getOrganizationIpPool.
    destruct (list_find_elem_of (fun x => organizationId (pool x) = org)
                (delete i pools) y) as [[k z] Hz].
    + apply list_elem_of_lookup. exists (pred j).
      rewrite list_lookup_delete_ge by lia.
      replace (S (pred j)) with j by lia. exact Hj.
    + exact Hy.
    + rewrite Hz. eauto.
Qed.

(** Suspending a pool and activating it again leaves it active whatever
    its status was before -- warming and blacklisted included -- with the
    suspension properties removed; [activateIp] alone changes nothing
    unless the pool is suspended. *)
Theorem suspend_then_activate_ip (now : Z) (ip reason : string)
    (pools : Pools) (i : nat) (e : Entry) :
  list_find (fun x => ipAddress (pool x) = ip) pools = Some (i, e) ->
  activateIp ip (suspendIp now ip reason pools)
  = <[i := {| pool := set_status active (pool e); suspendedAt := None;
              suspensionReason := None |}]> pools
  /\ (status (pool e) <> suspended -> activateIp ip pools = pools)
  /\ getOrganizationIpPool (organizationId (pool e))
       (activateIp ip (suspendIp now ip reason pools))
     <> None.
Proof.
  intros Ef. pose proof (find_Some _ _ _ _ Ef) as (Hi & Hip & Hfirst).
  assert (Hlt : (i < length pools)%nat) by (eapply lookup_lt_Some, Hi).
  assert (Eact : activateIp ip (suspendIp now ip reason pools)
                 = <[i := {| pool := set_status active (pool e);
                             suspendedAt := None;
                             suspensionReason := None |}]> pools).
  { unfold suspendIp. rewrite Ef. unfold activateIp.
    set (e1 := {| pool := set_status suspended (pool e);
                  suspendedAt := Some now;
                  suspensionReason := Some reason |}).
    assert (Ef1 : list_find (fun x => ipAddress (pool x) = ip)
                    (<[i := e1]> pools) = Some (i, e1)).
    { apply (list_find_Some (fun x => ipAddress (pool x) = ip)).
      split; [apply list_lookup_insert_eq, Hlt|]. split; [exact Hip|].
      intros j y Hj Hji. rewrite list_lookup_insert_ne in Hj by lia.
      exact (Hfirst j y Hj Hji). }
    rewrite Ef1. cbn [pool e1 status set_status].
    rewrite bool_decide_eq_true_2 by reflexivity.
    rewrite list_insert_insert_eq. reflexivity. }
  split; [exact Eact|]. split.
  - intros Hs. unfold activateIp. rewrite Ef.
    rewrite bool_decide_eq_false_2 by exact Hs. reflexivity.
  - rewrite Eact. unfold getOrganizationIpPool.
    destruct (list_find_elem_of
                (fun x => organizationId (pool x) = organizationId (pool e))
                (<[i := {| pool := set_status active (pool e);
                           suspendedAt := None;
                           suspensionReason := None |}]> pools)
                {| pool := set_status active (pool e); suspendedAt := None;
                   suspensionReason := None |}) as [[k z] Hz].
    + eapply list_elem_of_lookup_2. apply list_lookup_insert_eq, Hlt.
    + reflexivity.
    + rewrite Hz. discriminate.
Qed.

Lemma inStatus_cons (s : IpStatus) (e : Entry) (es : Pools) :
  inStatus s (e :: es)
  = ((if decide (status (pool e) = s) then 1 else 0) + inStatus s es)%nat.
Proof.
  unfold inStatus. rewrite filter_cons.
  destruct (decide (status (pool e) = s)); reflexivity.
Qed.

(** The four counters of [getPoolStats] add up to its total, and neither
    a suspension nor an activation changes the total. *)
Theorem pool_stats_partition (pools : Pools) :
  p_total (getPoolStats pools)
  = (p_active (getPoolStats pools) + p_warming (getPoolStats pools)
     + p_suspended (getPoolStats pools)
     + p_blacklisted (getPoolStats pools))%nat
  /\ (forall now ip reason,
        p_total (getPoolStats (suspendIp now ip reason pools))
        = p_total (getPoolStats pools))
  /\ (forall ip,
        p_total (getPoolStats (activateIp ip pools))
        = p_total (getPoolStats pools)).
Proof.
  cbn [getPoolStats p_total p_active p_warming p_suspended p_blacklisted].
  split; [|split].
  - induction pools as [|e es IH]; [reflexivity|].
    rewrite !inStatus_cons. cbn [length]. rewrite IH.
    destruct (status (pool e)); repeat (case_decide; try congruence); lia.
  - intros now ip reason. unfold suspendIp.
    destruct (list_find _ pools) as [[i e]|]; [|reflexivity].
    apply length_insert.
  - intros ip. unfold activateIp.
    destruct (list_find _ pools) as [[i e]|]; [|reflexivity].
    destruct (bool_decide _); [apply length_insert | reflexivity].
Qed.

(** [updateIpUsage] changes neither the number of pools nor the id, the
    address, the organisation, the daily limit, the reputation or the
    assignment time of any of them; a pool at an address other than the
    one given is left as it is, and an unknown address changes nothing. *)
Theorem usage_keeps_identity (now : Z) (ip : string) (usage : float)
    (pools : list IpPool) (i : nat) (p : IpPool) :
  pools !! i = Some p ->
  exists p',
    updateIpUsage now ip usage pools !! i = Some p'
    /\ id p' = id p /\ ipAddress p' = ipAddress p
    /\ organizationId p' = organizationId p
    /\ dailyLimit p' = dailyLimit p /\ reputation p' = reputation p
    /\ assignedAt p' = assignedAt p
    /\ (ipAddress p <> ip -> p' = p)
    /\ length (updateIpUsage now ip usage pools) = length pools.
Proof.
  intros Hi. unfold updateIpUsage.
  destruct (list_find (fun pool => ipAddress pool = ip) pools)
    as [[k q]|] eqn:Ef.
  - apply find_Some in Ef. destruct Ef as (Hk & Hq & _).
    rewrite length_insert. destruct (decide (i = k)) as [->|Hne].
    + assert (q = p) by congruence. subst q. exists (used now usage p).
      rewrite list_lookup_insert_eq by (eapply lookup_lt_Some, Hk).
      unfold used. destruct (_ && _); cbn; repeat split; congruence.
    + exists p. rewrite list_lookup_insert_ne by congruence.
      repeat split. exact Hi.
  - exists p. repeat split. exact Hi.
Qed.

End IpPoolAdministration.

Section IpPoolAdministrationSamples.
Import IpPools IpPoolAdmin IpSamples.

Lemma assigned_address_is_unused_witness :
  exists p pools',
    assignIpToOrganization 7 [(0, 1); (0, 3)] "org-1" [blocked; second]
    = Some (p, pools')
    /\ ipAddress p = "192.168.0.3"
    /\ (ipAddress p ∉ ((fun x => ipAddress (pool x)) <$> [blocked; second]))
    /\ getOrganizationIpPool "org-1" pools' = Some blocked.
Proof.
  eexists _, _. split; [reflexivity|]. split; [reflexivity|].
  destruct (assigned_address_is_unused 7 [(0, 1); (0, 3)] "org-1"
              [blocked; second] _ _ eq_refl) as (Hun & _ & _ & _ & Hget & _).
  - repeat constructor; vm_compute; discriminate.
  - split; [exact Hun | exact Hget].
Defined.

Lemma release_removes_oldest_witness :
  exists i,
    [blocked; second] !! i = Some blocked
    /\ releaseIpFromOrganization "org-1" [blocked; second]
       = delete i [blocked; second]
    /\ is_Some (getOrganizationIpPool "org-1"
                  (releaseIpFromOrganization "org-1" [blocked; second])).
Proof.
  destruct (release_removes_oldest "org-1" [blocked; second] blocked)
    as (i & Hi & Hrel & _ & _ & Hnext).
  - cbn. apply NoDup_cons. split; [|apply NoDup_singleton].
    rewrite list_elem_of_singleton. discriminate.
  - reflexivity.
  - exists i. split; [exact Hi|]. split; [exact Hrel|].
    destruct i as [|i]; [|destruct i; discriminate].
    apply (Hnext 1%nat second); [reflexivity | lia | reflexivity].
Defined.

Lemma suspend_then_activate_ip_witness :
  activateIp "192.168.0.1" (suspendIp 3 "192.168.0.1" "abuse" [blocked; second])
  = <[0%nat := {| pool := set_status active (pool blocked);
                  suspendedAt := None; suspensionReason := None |}]>
      [blocked; second].
Proof.
  apply (suspend_then_activate_ip 3 "192.168.0.1" "abuse" [blocked; second]
           0 blocked).
  reflexivity.
Defined.

Lemma usage_keeps_identity_witness :
  exists p',
    updateIpUsage 9 "192.168.0.2" 60 (pool <$> [blocked; second]) !! 1%nat
    = Some p'
    /\ id p' = "ip_2" /\ ipAddress p' = "192.168.0.2".
Proof.
  destruct (usage_keeps_identity 9 "192.168.0.2" 60 (pool <$> [blocked; second])
              1 (pool second)) as (p' & H & Hid & Hip & _); [reflexivity|].
  exists p'. split; [exact H|]. split; [exact Hid | exact Hip].
Defined.

(** Usage that reaches the rate 6 raises it to the double [6 * 1.2], which
    is below the double [9 * 0.8]: the pool stays warming. *)
Example tied_pool_stays_warming :
  status (used 9 6 tied) = warming
  /\ warmupRate (used 9 6 tied) = (6 * 1.2)%float
  /\ (6 * 1.2 <? 9 * 0.8)%float = true.
Proof. repeat split. Qed.

End IpPoolAdministrationSamples.

Section DeliverabilityAdvice.
Import Deliverability.

Lemma gt_spec (a b : Q) : gt a b = true <-> (b < a)%Q.
Proof.
  unfold gt. rewrite negb_true_iff. split.
  - intros H. apply Qnot_le_lt. intros Hle.
    apply Qle_bool_iff in Hle. congruence.
  - intros H. apply not_true_is_false. intros Hle.
    apply Qle_bool_iff in Hle. apply (Qlt_not_le _ _ H Hle).
Qed.

(** The priority [optimizeDeliverability] reports is the one of the last
    finding: it is high only when the bounce or the complaint rate is high
    and neither the inbox rate is low nor the spam rate high -- a high
    bounce rate together with a low inbox rate is reported as medium.  The
    advice is never empty and holds at most four recommendations. *)
Theorem priority_of_last_finding (m : DeliverabilityMetrics) :
  (priority (optimizeDeliverability m) = high
   <-> ((5 < bounceRate m)%Q \/ (0.1 < complaintRate m)%Q)
       /\ (90 <= inboxRate m)%Q /\ (spamRate m <= 1)%Q)
  /\ (priority (optimizeDeliverability m) = medium
      <-> (inboxRate m < 90)%Q \/ (1 < spamRate m)%Q)
  /\ (1 <= length (recommendations (optimizeDeliverability m)) <= 4)%nat.
Proof.
  pose proof (gt_spec (bounceRate m) 5) as Hb.
  pose proof (gt_spec (complaintRate m) 0.1) as Hc.
  pose proof (gt_spec 90 (inboxRate m)) as Hi.
  pose proof (gt_spec (spamRate m) 1) as Hs.
  unfold optimizeDeliverability, advise.
  cbn [priority recommendations].
  destruct (gt (bounceRate m) 5), (gt (complaintRate m) 0.1),
    (gt 90 (inboxRate m)), (gt (spamRate m) 1);
    cbn [fst snd app length bool_decide];
    (split; [|split; [|vm_compute; lia]]);
    (split; [intros H; try discriminate | intros H]);
    repeat match goal with
           | H : true = true <-> _ |- _ =>
               pose proof (proj1 H eq_refl); clear H
           | H : false = true <-> _ |- _ =>
               assert (~ _) by (intros Hx; apply H in Hx; discriminate Hx);
               clear H
           end;
    try reflexivity; try (repeat split; try lra; tauto);
    try (exfalso; lra); try (exfalso; tauto).
Qed.

End DeliverabilityAdvice.
